(** * The caching and constraint-filtering engine of the real-estate agent

    A shallow embedding of
    - [database.py]      (the SQLite cache: lookup, retrieval, save),
    - [test_prop.py]     ([search_properties]: cache key, hit and miss paths),
    - [pf_debug_api.py]  ([_filter_listings_by_constraints]),
    together with the properties of the design document that they decide;
    and, further down, of the routes of [test_prop.py], of
    [property_search_tool] and of the listing source of [property_finder.py]
    (request parameters, paging, removal of duplicates), with properties of
    the code as a whole.

    Conventions of the model.
    - A Python [str] is a [string] of bytes, the UTF-8 encoding of the text;
      byte order and code-point order agree on UTF-8, so comparisons are
      those of Python. [strip] removes every character for which
      [str.isspace] holds. [lower] changes the characters whose lower case
      has an ASCII letter in it; the other letters beyond ASCII, which
      Python maps to letters beyond ASCII, are left as they are. [int]
      reads ASCII digits and ASCII white space: where Python also accepts
      other decimal digits or white space the model raises [ValueError],
      and the interpreter's limit on the length of a decimal numeral is
      left out.
    - Python values are [None], [bool], [int], [str] and flat lists of these.
      Floats and nested containers are outside the model.
    - A Python [dict] is an association list in insertion order with
      pairwise distinct keys.
    - An operation that can raise returns a [result]; code that also reads
      or writes the database runs in the state monad [M].
    - The listing source, and the order in which SQLite returns rows when
      the statement does not fix it, are parameters; where the listing
      source itself is modelled, its three HTTP requests are. *)

From Stdlib Require Import ZArith Ascii String List Lia Permutation.
From stdpp Require Import gmap strings list sorting pretty.

(** ** Python values *)

Inductive exn : Type :=
| TypeError | ValueError | AttributeError | OverflowError
| ProgrammingError          (* sqlite3: a parameter of an unsupported type *)
| UpstreamFetchError.

Inductive result (A : Type) : Type :=
| Ok (a : A)
| Raise (e : exn).
Arguments Ok {A} a.
Arguments Raise {A} e.

Definition rbind {A B} (r : result A) (k : A -> result B) : result B :=
  match r with Ok a => k a | Raise e => Raise e end.

Declare Scope result_scope.
Delimit Scope result_scope with result.
Notation "'let?' x := r 'in' k" := (rbind r (fun x => k))
  (at level 10, x name, r at level 100, k at level 200) : result_scope.
Local Open Scope result_scope.

Inductive scalar : Type :=
| SNone
| SBool (b : bool)
| SInt (z : Z)
| SStr (s : string).

Inductive pyval : Type :=
| Sc (x : scalar)
| Li (l : list scalar).

Abbreviation PyNone := (Sc SNone).

Abbreviation pydict := (list (string * pyval)).

Global Instance scalar_eq_dec : EqDecision scalar.
Proof. solve_decision. Defined.
Global Instance pyval_eq_dec : EqDecision pyval.
Proof. solve_decision. Defined.
Global Instance exn_eq_dec : EqDecision exn.
Proof. solve_decision. Defined.

(** [d.get(k)]: the value bound to [k], [None] when the key is absent. *)
Fixpoint get (k : string) (d : pydict) : pyval :=
  match d with
  | [] => PyNone
  | (k', v) :: d' => if decide (k = k') then v else get k d'
  end.

(** [k in d]. *)
Definition has_key (k : string) (d : pydict) : bool :=
  bool_decide (k ∈ d.*1).

(** [d[k] = v]: overwrite in place, or append a new entry. *)
Fixpoint dict_set (k : string) (v : pyval) (d : pydict) : pydict :=
  match d with
  | [] => [(k, v)]
  | (k', v') :: d' =>
      if decide (k = k') then (k, v) :: d' else (k', v') :: dict_set k v d'
  end.

(** [del d[k]] / [d.pop(k)] on the entries. *)
Definition dict_del (k : string) (d : pydict) : pydict :=
  List.filter (fun kv => negb (bool_decide (kv.1 = k))) d.

(** Truth value of a Python object. *)
Definition truthy (v : pyval) : bool :=
  match v with
  | Sc SNone => false
  | Sc (SBool b) => b
  | Sc (SInt z) => negb (z =? 0)%Z
  | Sc (SStr s) => negb (bool_decide (s = ""))
  | Li l => negb (bool_decide (l = []))
  end.

Definition is_none (v : pyval) : bool :=
  match v with Sc SNone => true | _ => false end.

(** ** Strings *)

(** The characters of the ASCII range for which [str.isspace] holds. *)
Definition is_space (c : ascii) : bool :=
  let n := nat_of_ascii c in
  (n =? 32) || ((9 <=? n) && (n <=? 13)) || ((28 <=? n) && (n <=? 31)).

(** The characters that [int] skips around the digits of an ASCII string:
    those of C's [isspace]. *)
Definition is_c_space (c : ascii) : bool :=
  let n := nat_of_ascii c in
  (n =? 32) || ((9 <=? n) && (n <=? 13)).

Fixpoint lstrip_by (space : ascii -> bool) (s : string) : string :=
  match s with
  | String c r => if space c then lstrip_by space r else s
  | EmptyString => EmptyString
  end.

Definition strip_by (space : ascii -> bool) (s : string) : string :=
  String.rev (lstrip_by space (String.rev (lstrip_by space s))).

(** A string from its bytes. *)
Definition bytes (l : list nat) : string :=
  foldr (fun n s => String (ascii_of_nat n) s) EmptyString l.

(** The characters beyond ASCII for which [str.isspace] holds, in UTF-8:
    U+0085, U+00A0, U+1680, U+2000 to U+200A, U+2028, U+2029, U+202F,
    U+205F and U+3000. *)
Definition unicode_spaces : list string :=
  bytes <$> ([[194; 133]; [194; 160]; [225; 154; 128]]
             ++ ((fun n => [226; 128; n]) <$> seq 128 11)
             ++ [[226; 128; 168]; [226; 128; 169]; [226; 128; 175];
                 [226; 129; 159]; [227; 128; 128]]).

(** The number of bytes of the UTF-8 character that starts with the byte. *)
Definition utf8_width (c : ascii) : nat :=
  let n := nat_of_ascii c in
  if n <? 192 then 1 else if n <? 224 then 2 else if n <? 240 then 3 else 4.

(** The characters of a text, each with its bytes. *)
Fixpoint utf8_chars (s : string) : list string :=
  match s with
  | EmptyString => []
  | String c r =>
      match utf8_width c, r with
      | 2, String c2 r2 =>
          String c (String c2 "") :: utf8_chars r2
      | 3, String c2 (String c3 r3) =>
          String c (String c2 (String c3 "")) :: utf8_chars r3
      | 4, String c2 (String c3 (String c4 r4)) =>
          String c (String c2 (String c3 (String c4 ""))) :: utf8_chars r4
      | _, _ => String c "" :: utf8_chars r
      end
  end.

(** [ch.isspace()] for one character. *)
Definition is_space_char (ch : string) : bool :=
  match ch with
  | String c EmptyString => is_space c
  | _ => bool_decide (ch ∈ unicode_spaces)
  end.

Fixpoint lstrip_chars (chars : list string) : list string :=
  match chars with
  | ch :: rest => if is_space_char ch then lstrip_chars rest else chars
  | [] => []
  end.

(** [s.strip()]: the text without its leading and trailing white space. *)
Definition strip (s : string) : string :=
  String.concat ""
    (reverse (lstrip_chars (reverse (lstrip_chars (utf8_chars s))))).

Definition lower_char (c : ascii) : ascii :=
  let n := nat_of_ascii c in
  if (65 <=? n) && (n <=? 90) then ascii_of_nat (n + 32) else c.

(** [s.lower()]. Beyond ASCII, two characters have an ASCII letter in their
    lower case: U+212A, the Kelvin sign, becomes [k], and U+0130 becomes
    [i] followed by U+0307. *)
Fixpoint lower (s : string) : string :=
  match s with
  | EmptyString => EmptyString
  | String c r =>
      match r with
      | String c2 r2 =>
          if bool_decide (nat_of_ascii c = 196) && bool_decide (nat_of_ascii c2 = 176)
          then String "i" (bytes [204; 135] +:+ lower r2)
          else
            match r2 with
            | String c3 r3 =>
                if bool_decide (nat_of_ascii c = 226)
                   && bool_decide (nat_of_ascii c2 = 132)
                   && bool_decide (nat_of_ascii c3 = 170)
                then String "k" (lower r3)
                else String (lower_char c) (lower r)
            | EmptyString => String (lower_char c) (lower r)
            end
      | EmptyString => String (lower_char c) EmptyString
      end
  end.

(** [needle in hay]. *)
Fixpoint contains (needle hay : string) : bool :=
  String.prefix needle hay ||
  match hay with
  | String _ r => contains needle r
  | EmptyString => false
  end.

Definition digit_of (c : ascii) : option Z :=
  let n := nat_of_ascii c in
  if (48 <=? n) && (n <=? 57) then Some (Z.of_nat (n - 48)) else None.

(** Decimal digits with single underscores between digits, as [int]
    accepts them. [prev] records that the previous character was a digit. *)
Fixpoint parse_digits (acc : Z) (prev : bool) (s : string) : option Z :=
  match s with
  | EmptyString => if prev then Some acc else None
  | String c r =>
      match digit_of c with
      | Some d => parse_digits (10 * acc + d)%Z true r
      | None =>
          if bool_decide (c = "_"%char) && prev
          then parse_digits acc false r
          else None
      end
  end.

(** [int(s)] for a string, base ten, on ASCII digits. *)
Definition int_of_str (s : string) : result Z :=
  let t := strip_by is_c_space s in
  let digits :=
    match t with
    | String "-" r => Z.opp <$> parse_digits 0 false r
    | String "+" r => parse_digits 0 false r
    | _ => parse_digits 0 false t
    end in
  match digits with
  | Some z => Ok z
  | None => Raise ValueError
  end.

(** [int(v)]. *)
Definition py_int (v : pyval) : result Z :=
  match v with
  | Sc SNone => Raise TypeError
  | Sc (SBool b) => Ok (Z.b2z b)
  | Sc (SInt z) => Ok z
  | Sc (SStr s) => int_of_str s
  | Li _ => Raise TypeError
  end.

(** [v < n] and [v > n] for an integer [n]: only numbers are ordered
    against an [int]. *)
Definition as_number (v : pyval) : result Z :=
  match v with
  | Sc (SBool b) => Ok (Z.b2z b)
  | Sc (SInt z) => Ok z
  | _ => Raise TypeError
  end.

Definition py_lt (v : pyval) (n : Z) : result bool :=
  let? z := as_number v in Ok (z <? n)%Z.

Definition py_gt (v : pyval) (n : Z) : result bool :=
  let? z := as_number v in Ok (n <? z)%Z.

(** [(v or '').strip().lower()]: a falsy value becomes the empty string;
    a truthy value that is not a [str] has no [strip] attribute. *)
Definition or_empty_strip_lower (v : pyval) : result string :=
  if truthy v then
    match v with
    | Sc (SStr s) => Ok (lower (strip s))
    | _ => Raise AttributeError
    end
  else Ok "".

(** ** The constraint filter ([pf_debug_api.py]) *)

(** [try: ... except (ValueError, TypeError): pass] around a test that
    decides whether the listing is skipped. *)
Definition except_pass (r : result bool) : result bool :=
  match r with
  | Raise TypeError | Raise ValueError => Ok false
  | _ => r
  end.

Module Filter.

(** One iteration of the loop over the listings: [Ok true] when the listing
    is appended to [filtered], [Ok false] when it is skipped. *)
Definition keeps (min_price max_price beds : pyval) (purpose : string)
    (p : pydict) : result bool :=
  let price := get "price" p in
  let rooms := get "rooms" p in
  let? p_purpose := or_empty_strip_lower (get "purpose" p) in
  let? too_low :=
    if negb (is_none min_price) && negb (is_none price)
    then except_pass (let? m := py_int min_price in py_lt price m)
    else Ok false in
  if too_low then Ok false else
  let? too_high :=
    if negb (is_none max_price) && negb (is_none price)
    then except_pass (let? m := py_int max_price in py_gt price m)
    else Ok false in
  if too_high then Ok false else
  let? mismatch :=
    if negb (is_none beds) && negb (is_none rooms)
    then except_pass
           (let? beds_int := py_int beds in
            let? rooms_int := py_int rooms in
            Ok (negb (rooms_int =? beds_int)%Z))
    else Ok false in
  if mismatch then Ok false else
  if negb (bool_decide (purpose = "")) && negb (bool_decide (p_purpose = ""))
  then
    if bool_decide (purpose = "sale") && negb (contains "sale" p_purpose)
    then Ok false
    else if bool_decide (purpose = "rent") && negb (contains "rent" p_purpose)
    then Ok false
    else Ok true
  else Ok true.

Fixpoint loop (min_price max_price beds : pyval) (purpose : string)
    (listings : list pydict) : result (list pydict) :=
  match listings with
  | [] => Ok []
  | p :: rest =>
      let? k := keeps min_price max_price beds purpose p in
      let? filtered := loop min_price max_price beds purpose rest in
      Ok (if k then p :: filtered else filtered)
  end.

End Filter.

(** [listings] is a list of dicts by its type, so the [isinstance] guard at
    the head of the function is always passed; the bookkeeping of skipped
    ids, which is only printed, is left out. *)
Definition _filter_listings_by_constraints (listings : list pydict)
    (constraints : pydict) : result (list pydict) :=
  let min_price := get "min_price" constraints in
  let max_price := get "max_price" constraints in
  let beds := get "beds" constraints in
  let? purpose := or_empty_strip_lower (get "purpose" constraints) in
  Filter.loop min_price max_price beds purpose listings.

(** ** The cache key ([search_properties], steps 1 to 3) *)

(** [str(x)] for a scalar. *)
Definition py_str_scalar (x : scalar) : string :=
  match x with
  | SNone => "None"
  | SBool true => "True"
  | SBool false => "False"
  | SInt z => pretty z
  | SStr s => s
  end.

(** [sep.join(l)] for strings. *)
Fixpoint join (sep : string) (l : list string) : string :=
  match l with
  | [] => ""
  | [s] => s
  | s :: rest => s +:+ sep +:+ join sep rest
  end.

(** [urllib.parse.quote_plus]: letters, digits and [_.-~] are kept, a space
    becomes [+], every other byte is percent-escaped in upper-case hex. *)
Definition is_unreserved (c : ascii) : bool :=
  let n := nat_of_ascii c in
  ((48 <=? n) && (n <=? 57)) || ((65 <=? n) && (n <=? 90)) ||
  ((97 <=? n) && (n <=? 122)) ||
  bool_decide (c ∈ ["_"; "."; "-"; "~"]%char).

Definition hex_digit (n : nat) : ascii :=
  if n <? 10 then ascii_of_nat (48 + n) else ascii_of_nat (55 + n).

Definition quote_char (c : ascii) : string :=
  if is_unreserved c then String c ""
  else if bool_decide (c = " "%char) then "+"
  else let n := nat_of_ascii c in
       String "%" (String (hex_digit (n / 16)) (String (hex_digit (n mod 16)) "")).

Fixpoint quote_plus (s : string) : string :=
  match s with
  | EmptyString => ""
  | String c r => quote_char c +:+ quote_plus r
  end.

(** One entry of [urlencode(query, doseq=True)]: a scalar gives one
    [key=value] segment, a list one segment per element, in order. *)
Definition urlencode_item (kv : string * pyval) : list string :=
  let k := quote_plus kv.1 in
  match kv.2 with
  | Sc x => [k +:+ "=" +:+ quote_plus (py_str_scalar x)]
  | Li l => (fun elt => k +:+ "=" +:+ quote_plus (py_str_scalar elt)) <$> l
  end.

Definition urlencode (query : pydict) : string :=
  join "&" (concat (urlencode_item <$> query)).

(** The order of [sorted(d.items())]: the keys of a dict are distinct, so
    two items are always ordered by their keys. *)
Definition item_le (a b : string * pyval) : Prop := String.le a.1 b.1.

Global Instance item_le_dec : RelDecision item_le.
Proof. intros a b. unfold item_le. apply _. Defined.

Definition sorted (items : pydict) : pydict := merge_sort item_le items.

(** [{k: v for k, v in filters.items() if v and v != ['']}] *)
Definition clean_filters (filters : pydict) : pydict :=
  List.filter
    (fun kv => truthy kv.2 && negb (bool_decide (kv.2 = Li [SStr ""])))
    filters.

Definition with_pagination (cleaned : pydict) (page limit : Z) : pydict :=
  dict_set "limit" (Sc (SInt limit)) (dict_set "page" (Sc (SInt page)) cleaned).

Definition cache_key (filters : pydict) (page limit : Z) : string :=
  urlencode (sorted (with_pagination (clean_filters filters) page limit)).

(** ** The store ([database.py]) *)

(** A value held in a column. The [REAL] storage class and the [created_at]
    columns (filled from the wall clock) are not modelled; neither is the
    surrogate [id] of [query_property_map], which is never read. *)
Inductive sqlval : Type :=
| Null
| Integer (z : Z)
| Text (s : string).

Global Instance sqlval_eq_dec : EqDecision sqlval.
Proof. solve_decision. Defined.

(** A row of [cached_properties] without its key: column name and value. *)
Abbreviation row := (list (string * sqlval)).

Record tables : Type := {
  cached_queries : list (Z * string);        (* id, query_string; UNIQUE *)
  cached_queries_seq : Z;                    (* AUTOINCREMENT counter of cached_queries *)
  cached_properties : gmap string row;       (* keyed by the primary key id *)
  query_property_map : list (Z * string)     (* query_id, property_id; in rowid order *)
}.

Definition empty_tables : tables :=
  {| cached_queries := []; cached_queries_seq := 0;
     cached_properties := ∅; query_property_map := [] |}.

(** The process state: the database as last committed (what persists), the
    database as the open connection sees it, and the number of calls made
    so far to the external listing source. *)
Record world : Type := {
  committed : tables;
  working : tables;
  upstream_calls : nat
}.

Definition fresh_world (t : tables) : world :=
  {| committed := t; working := t; upstream_calls := 0 |}.

(** Code that reads and writes the state and may raise; the state reached
    when an exception is raised is kept, as in Python. *)
Definition M (A : Type) : Type := world -> result A * world.

Definition ret {A} (a : A) : M A := fun w => (Ok a, w).
Definition raise {A} (e : exn) : M A := fun w => (Raise e, w).
Definition lift {A} (r : result A) : M A := fun w => (r, w).
Definition bind {A B} (m : M A) (k : A -> M B) : M B :=
  fun w => match m w with
           | (Ok a, w') => k a w'
           | (Raise e, w') => (Raise e, w')
           end.
Definition try_except {A} (m : M A) (handler : exn -> M A) : M A :=
  fun w => match m w with
           | (Ok a, w') => (Ok a, w')
           | (Raise e, w') => handler e w'
           end.

Declare Scope M_scope.
Delimit Scope M_scope with M.
Notation "x <- m ; k" := (bind m (fun x => k))
  (at level 100, m at next level, k at level 200, right associativity) : M_scope.
Notation "m ;; k" := (bind m (fun _ => k))
  (at level 100, k at level 200, right associativity) : M_scope.

(** [cursor.execute] of a statement that writes, and of a [SELECT]. *)
Definition execute (stmt : tables -> tables) : M unit :=
  fun w => (Ok tt, {| committed := committed w; working := stmt (working w);
                      upstream_calls := upstream_calls w |}).
Definition select {A} (q : tables -> A) : M A :=
  fun w => (Ok (q (working w)), w).

(** [db.commit()] and [db.rollback()]. *)
Definition commit : M unit :=
  fun w => (Ok tt, {| committed := working w; working := working w;
                      upstream_calls := upstream_calls w |}).
Definition rollback : M unit :=
  fun w => (Ok tt, {| committed := committed w; working := committed w;
                      upstream_calls := upstream_calls w |}).

(** [SELECT id FROM cached_queries WHERE query_string = ?], [fetchone]. *)
Fixpoint select_query_id (query_string : string) (qs : list (Z * string))
    : option Z :=
  match qs with
  | [] => None
  | (id, s) :: rest =>
      if decide (s = query_string) then Some id
      else select_query_id query_string rest
  end.

(** [INSERT OR IGNORE INTO cached_queries (query_string) VALUES (?)]: the
    new id is one more than the largest id ever drawn. SQLite draws the id
    from the AUTOINCREMENT counter before it checks the UNIQUE constraint,
    so an insert that is ignored uses up an id as well. *)
Definition insert_or_ignore_query (query_string : string) (t : tables) : tables :=
  let id := (1 + foldr Z.max (cached_queries_seq t) (cached_queries t).*1)%Z in
  {| cached_queries :=
       match select_query_id query_string (cached_queries t) with
       | Some _ => cached_queries t
       | None => cached_queries t ++ [(id, query_string)]
       end;
     cached_queries_seq := id;
     cached_properties := cached_properties t;
     query_property_map := query_property_map t |}.

(** [INSERT OR REPLACE INTO cached_properties (...) VALUES (...)] *)
Definition insert_or_replace_property (id : string) (r : row) (t : tables)
    : tables :=
  {| cached_queries := cached_queries t;
     cached_queries_seq := cached_queries_seq t;
     cached_properties := <[id := r]> (cached_properties t);
     query_property_map := query_property_map t |}.

(** [INSERT OR IGNORE INTO query_property_map (query_id, property_id)] *)
Definition insert_or_ignore_link (query_id : Z) (property_id : string)
    (t : tables) : tables :=
  {| cached_queries := cached_queries t;
     cached_queries_seq := cached_queries_seq t;
     cached_properties := cached_properties t;
     query_property_map :=
       if bool_decide ((query_id, property_id) ∈ query_property_map t)
       then query_property_map t
       else query_property_map t ++ [(query_id, property_id)] |}.

(** Binding a Python value to a [?] of a statement: a [bool] is bound as an
    integer, integers must fit in 64 bits and a list is not a supported
    type. *)
Definition bind_param (v : pyval) : result sqlval :=
  match v with
  | Sc SNone => Ok Null
  | Sc (SBool b) => Ok (Integer (Z.b2z b))
  | Sc (SInt z) =>
      if ((- 2 ^ 63 <=? z) && (z <? 2 ^ 63))%Z then Ok (Integer z)
      else Raise OverflowError
  | Sc (SStr s) => Ok (Text s)
  | Li _ => Raise ProgrammingError
  end.

(** Column affinity. A number stored in a [TEXT] column is converted to
    its decimal text. The conversions of the [INTEGER] and [REAL] columns
    (a text that reads as a number to that number, an integer to a float)
    are not modelled: such a value is stored as it is bound. *)
Inductive affinity : Type := TEXT | INTEGER | REAL.

Definition store_as (a : affinity) (v : sqlval) : sqlval :=
  match a, v with
  | TEXT, Integer z => Text (pretty z)
  | _, _ => v
  end.

(** What a cursor hands back for a stored value. *)
Definition of_sqlval (v : sqlval) : pyval :=
  match v with
  | Null => PyNone
  | Integer z => Sc (SInt z)
  | Text s => Sc (SStr s)
  end.

Fixpoint mapM {A B} (f : A -> result B) (l : list A) : result (list B) :=
  match l with
  | [] => Ok []
  | a :: rest =>
      let? b := f a in
      let? bs := mapM f rest in
      Ok (b :: bs)
  end.

(** *** The image-URL list and its scalar form *)

(** [','.join(l)]: every element must be a [str]. *)
Definition as_str (x : scalar) : result string :=
  match x with SStr s => Ok s | _ => Raise TypeError end.

Definition join_urls (l : list scalar) : result string :=
  let? strs := mapM as_str l in Ok (join "," strs).

(** [s.split(',')] *)
Fixpoint split_comma (s : string) : list string :=
  match s with
  | EmptyString => [""]
  | String c r =>
      if bool_decide (c = ","%char) then "" :: split_comma r
      else match split_comma r with
           | piece :: pieces => String c piece :: pieces
           | [] => [String c ""]
           end
  end.

(** [save_query_and_properties], the value stored in [all_image_urls]:
    [prop.get('all_image_urls', [])], joined when it is a list. *)
Definition all_image_urls_str (prop : pydict) : result pyval :=
  let all_image_urls :=
    if has_key "all_image_urls" prop then get "all_image_urls" prop else Li [] in
  match all_image_urls with
  | Li l =>
      if truthy (Li l) then let? s := join_urls l in Ok (Sc (SStr s))
      else Ok (Sc (SStr ""))
  | Sc x => Ok (Sc x)
  end.

(** [get_properties_for_query], the value handed back for the column:
    split when truthy, the empty list otherwise. *)
Definition all_image_urls_list (stored : pyval) : result pyval :=
  if truthy stored then
    match stored with
    | Sc (SStr s) => Ok (Li (SStr <$> split_comma s))
    | _ => Raise AttributeError
    end
  else Ok (Li []).

(** Python's slice [l[start:stop]]: a negative index counts from the end,
    and both ends are clipped to the bounds of the list. *)
Definition slice_index (len i : Z) : Z :=
  if (i <? 0)%Z then Z.max (i + len) 0 else Z.min i len.

Definition py_slice {A} (l : list A) (start stop : Z) : list A :=
  let len := Z.of_nat (length l) in
  let lo := slice_index len start in
  let hi := slice_index len stop in
  take (Z.to_nat (hi - lo)) (drop (Z.to_nat lo) l).

(** [a == b] and [a < b] on scalars and on values; ordering two values of
    different kinds raises [TypeError]. *)
Definition scalar_eqb (a b : scalar) : bool :=
  match a, b with
  | SNone, SNone => true
  | SStr s, SStr t => bool_decide (s = t)
  | (SBool _ | SInt _), (SBool _ | SInt _) =>
      match as_number (Sc a), as_number (Sc b) with
      | Ok x, Ok y => (x =? y)%Z
      | _, _ => false
      end
  | _, _ => false
  end.

Definition scalar_less (a b : scalar) : result bool :=
  match a, b with
  | SStr s, SStr t => Ok (String.ltb s t)
  | (SBool _ | SInt _), (SBool _ | SInt _) =>
      let? x := as_number (Sc a) in
      let? y := as_number (Sc b) in
      Ok (x <? y)%Z
  | _, _ => Raise TypeError
  end.

Fixpoint list_less (a b : list scalar) : result bool :=
  match a, b with
  | [], [] => Ok false
  | [], _ :: _ => Ok true
  | _ :: _, [] => Ok false
  | x :: a', y :: b' =>
      if scalar_eqb x y then list_less a' b' else scalar_less x y
  end.

Definition py_less (a b : pyval) : result bool :=
  match a, b with
  | Sc x, Sc y => scalar_less x y
  | Li l, Li m => list_less l m
  | _, _ => Raise TypeError
  end.

(** The pagination of the cache-hit branch:
    [start = (page - 1) * limit], [end = start + limit],
    [properties_data[start:end]]. *)
Definition paginate {A} (properties_data : list A) (page limit : Z) : list A :=
  let start := ((page - 1) * limit)%Z in
  let stop := (start + limit)%Z in
  py_slice properties_data start stop.

Definition columns_before_images : list (string * affinity) :=
  [("title", TEXT); ("price", INTEGER); ("area", INTEGER); ("rooms", INTEGER);
   ("baths", INTEGER); ("purpose", TEXT); ("completion_status", TEXT);
   ("latitude", REAL); ("longitude", REAL); ("location_name", TEXT);
   ("cover_photo_url", TEXT)].

Definition columns_after_images : list (string * affinity) :=
  [("agency_name", TEXT); ("contact_name", TEXT); ("mobile_number", TEXT);
   ("whatsapp_number", TEXT); ("down_payment_percentage", REAL)].

Definition bind_column (prop : pydict) (column : string * affinity)
    : result (string * sqlval) :=
  let? v := bind_param (get column.1 prop) in
  Ok (column.1, store_as column.2 v).

(** The seventeen values bound after the id by the [INSERT OR REPLACE]. *)
Definition property_row (prop : pydict) : result row :=
  let? all_image_urls_str := all_image_urls_str prop in
  let? before := mapM (bind_column prop) columns_before_images in
  let? images := bind_param all_image_urls_str in
  let? after := mapM (bind_column prop) columns_after_images in
  Ok (before ++ [("all_image_urls", store_as TEXT images)] ++ after).

(** [dict(row)] for a row of [cached_properties]: the columns that the
    save writes. The dict that the code builds has one more key,
    [created_at], which the database fills in and the model leaves out. *)
Definition dict_of_row (id : string) (r : row) : pydict :=
  ("id", Sc (SStr id)) :: ((fun cv => (cv.1, of_sqlval cv.2)) <$> r).

(** The body of the loop of [get_properties_for_query]. *)
Definition with_image_list (prop : pydict) : result pydict :=
  let? urls := all_image_urls_list (get "all_image_urls" prop) in
  Ok (dict_set "all_image_urls" urls prop).

Definition find_cached_query (query_string : string) : M (option Z) :=
  select (fun t => select_query_id query_string (cached_queries t)).

(** SQLite 3 answers the join of [get_properties_for_query] by walking the
    index of [UNIQUE(query_id, property_id)]: the rows come in the order of
    their property ids. *)
Definition link_le (a b : Z * string) : Prop := String.le a.2 b.2.

Global Instance link_le_dec : RelDecision link_le.
Proof. intros a b. unfold link_le. apply _. Defined.

Definition by_property_id (links : list (Z * string)) : list (Z * string) :=
  merge_sort link_le links.

Section Engine.

(** [repr] of a list, which is what [str] gives for one. Its text is never
    inspected. *)
Variable list_repr : list scalar -> string.

(** The order in which the database returns the rows of a [SELECT] that
    has no [ORDER BY], as a function of the matching rows in the order in
    which they were inserted. *)
Variable row_order : list (Z * string) -> list (Z * string).

(** The external listing source, [property_finder.property_finder_search]
    applied to the filters it is handed. It adds at most a [location_id]
    entry to that dict, which the caller never reads. *)
Variable property_finder_search : pydict -> result (list pydict).

Definition py_str (v : pyval) : string :=
  match v with
  | Sc x => py_str_scalar x
  | Li l => list_repr l
  end.

(** [SELECT cp.* FROM cached_properties cp JOIN query_property_map qpm
    ON cp.id = qpm.property_id WHERE qpm.query_id = ?] *)
Definition select_properties_of_query (query_id : Z) (t : tables)
    : list (string * row) :=
  omap (fun link : Z * string =>
          (fun r => (link.2, r)) <$> cached_properties t !! link.2)
       (row_order
          (List.filter (fun link : Z * string => bool_decide (link.1 = query_id))
             (query_property_map t))).

Definition get_properties_for_query (query_id : Z) : M (list pydict) :=
  (rows <- select (select_properties_of_query query_id);
   lift (mapM (fun r : string * row => with_image_list (dict_of_row r.1 r.2)) rows))%M.

Fixpoint save_loop (query_id : Z) (properties : list pydict) : M unit :=
  match properties with
  | [] => ret tt
  | prop :: rest =>
      (r <- lift (property_row prop);
       execute (insert_or_replace_property (py_str (get "id" prop)) r);;
       execute (insert_or_ignore_link query_id (py_str (get "id" prop)));;
       save_loop query_id rest)%M
  end.

Definition save_query_and_properties (query_string : string)
    (properties : list pydict) : M unit :=
  try_except
    (execute (insert_or_ignore_query query_string);;
     commit;;
     fetched <- select (fun t => select_query_id query_string (cached_queries t));
     query_id <- lift (match fetched with
                       | Some id => Ok id
                       | None => Raise TypeError
                       end);
     save_loop query_id properties;;
     commit)%M
    (fun e => rollback;; raise e)%M.

Definition call_upstream (filters : pydict) : M (list pydict) :=
  fun w => (property_finder_search filters,
            {| committed := committed w; working := working w;
               upstream_calls := S (upstream_calls w) |}).

(** Step 7 of [search_properties]: the test applied to one listing when a
    price bound is present. *)
Definition price_in_bounds (min_price max_price : pyval) (prop : pydict)
    : result bool :=
  let price := get "price" prop in
  if negb (is_none price) then
    let? low :=
      if negb (is_none min_price) then py_less price min_price else Ok false in
    if low then Ok false else
    let? high :=
      if negb (is_none max_price) then py_less max_price price else Ok false in
    if high then Ok false else Ok true
  else Ok false.

Fixpoint price_filter (min_price max_price : pyval) (properties : list pydict)
    : result (list pydict) :=
  match properties with
  | [] => Ok []
  | prop :: rest =>
      let? k := price_in_bounds min_price max_price prop in
      let? filtered := price_filter min_price max_price rest in
      Ok (if k then prop :: filtered else filtered)
  end.

(** The dict handed to the listing source: [query] renamed. *)
Definition upstream_filters (cleaned_filters : pydict) : pydict :=
  if has_key "query" cleaned_filters
  then dict_set "location_query" (get "query" cleaned_filters)
         (dict_del "query" cleaned_filters)
  else cleaned_filters.

(** The cache-miss branch, steps 5 to 8. *)
Definition fetch_live (cleaned_filters : pydict) (query_string : string)
    : M (list pydict) :=
  let cleaned_filters := upstream_filters cleaned_filters in
  (properties <- call_upstream cleaned_filters;
   (if negb (bool_decide (properties = []))
    then save_query_and_properties query_string properties
    else ret tt);;
   let min_price := get "min_price" cleaned_filters in
   let max_price := get "max_price" cleaned_filters in
   if negb (is_none min_price) || negb (is_none max_price)
   then lift (price_filter min_price max_price properties)
   else ret properties)%M.

Definition search_properties (filters : pydict) (page limit : Z)
    : M (list pydict) :=
  let cleaned_filters := with_pagination (clean_filters filters) page limit in
  let query_string := urlencode (sorted cleaned_filters) in
  (query_id <- find_cached_query query_string;
   match query_id with
   | Some id =>
       if negb (id =? 0)%Z then
         properties_data <- get_properties_for_query id;
         ret (paginate properties_data page limit)
       else fetch_live cleaned_filters query_string
   | None => fetch_live cleaned_filters query_string
   end)%M.

End Engine.

(** ** Definitions used to state the properties *)

(** The purpose test of the constraint filter as a function of the two
    normalised texts, the constraint's and the listing's. *)
Definition purpose_rule (cp lp : string) : bool :=
  if bool_decide (cp = "") || bool_decide (lp = "") then true
  else if bool_decide (cp = "sale") then contains "sale" lp
  else if bool_decide (cp = "rent") then contains "rent" lp
  else true.

(** The way of an image-URL list through the store: the value bound by
    [save_query_and_properties], the column, and the value that
    [get_properties_for_query] hands back. *)
Definition image_urls_round_trip (urls : list string) : result pyval :=
  let? joined := all_image_urls_str [("all_image_urls", Li (SStr <$> urls))] in
  let? bound := bind_param joined in
  all_image_urls_list (of_sqlval (store_as TEXT bound)).

Fixpoint comma_free (s : string) : bool :=
  match s with
  | EmptyString => true
  | String c r => negb (bool_decide (c = ","%char)) && comma_free r
  end.

(** The loop of [save_query_and_properties] as a function of the tables the
    connection sees. *)
Fixpoint loop_tables (list_repr : list scalar -> string) (query_id : Z)
    (properties : list pydict) (t : tables) : result unit * tables :=
  match properties with
  | [] => (Ok tt, t)
  | prop :: rest =>
      match property_row prop with
      | Ok r =>
          let id := py_str list_repr (get "id" prop) in
          loop_tables list_repr query_id rest
            (insert_or_ignore_link query_id id (insert_or_replace_property id r t))
      | Raise e => (Raise e, t)
      end
  end.

Definition set_working (w : world) (t : tables) : world :=
  {| committed := committed w; working := t; upstream_calls := upstream_calls w |}.

Definition set_both (w : world) (t : tables) : world :=
  {| committed := t; working := t; upstream_calls := upstream_calls w |}.

(** The rows that a successful run of the loop writes, in order, and the
    effect of one of them on the tables. *)
Definition rows_of (list_repr : list scalar -> string)
    (properties : list pydict) : result (list (string * row)) :=
  mapM (fun prop => let? r := property_row prop in
                    Ok (py_str list_repr (get "id" prop), r))
       properties.

Definition save_step (query_id : Z) (t : tables) (ir : string * row) : tables :=
  insert_or_ignore_link query_id ir.1 (insert_or_replace_property ir.1 ir.2 t).

(** The effect of [INSERT OR IGNORE INTO query_property_map] on the list of
    links. *)
Definition add_link (qid : Z) (links : list (Z * string)) (id : string)
    : list (Z * string) :=
  if bool_decide ((qid, id) ∈ links) then links else links ++ [(qid, id)].

(** Two states of the database with the same rows in the three tables,
    which are the persisted state of the design document. The AUTOINCREMENT
    counter is left out of the comparison; the [created_at] and the rowid of
    a property row, which [INSERT OR REPLACE] renews, are not in the model. *)
Definition same_rows (t t' : tables) : Prop :=
  cached_queries t = cached_queries t' /\
  cached_properties t = cached_properties t' /\
  query_property_map t = query_property_map t'.

(** The state after one more call to the listing source. *)
Definition count_call (w : world) : world :=
  {| committed := committed w; working := working w;
     upstream_calls := S (upstream_calls w) |}.

(** ** Concrete cases *)

(** No case below has a list as the id of a listing. *)
Definition no_repr : list scalar -> string := fun _ => "".

Definition villa_a : pydict :=
  [("id", Sc (SStr "7001")); ("title", Sc (SStr "Villa in Victory Heights"));
   ("price", Sc (SInt 9500000)); ("rooms", Sc (SInt 5));
   ("purpose", Sc (SStr "For Sale"));
   ("all_image_urls", Li [SStr "https://img.example/7001/1.jpg";
                          SStr "https://img.example/7001/2.jpg"])].

Definition villa_b : pydict :=
  [("id", Sc (SStr "7002")); ("title", Sc (SStr "Villa on the golf course"));
   ("price", Sc (SInt 12000000)); ("rooms", Sc (SInt 5));
   ("purpose", Sc (SStr "For Sale"))].

Definition villa_c : pydict :=
  [("id", Sc (SStr "7003")); ("title", Sc (SStr "Townhouse"));
   ("price", Sc (SInt 4000000)); ("rooms", Sc (SInt 5));
   ("purpose", Sc (SStr "For Sale"))].

(** A listing whose price does not fit in a 64-bit integer. *)
Definition villa_overflow : pydict :=
  [("id", Sc (SStr "7004")); ("title", Sc (SStr "Palace"));
   ("price", Sc (SInt (2 ^ 63)))].

(** A listing without a price. *)
Definition villa_unpriced : pydict :=
  [("id", Sc (SStr "7005")); ("title", Sc (SStr "Price on request"));
   ("rooms", Sc (SInt 4))].

Definition scenario_A : pydict :=
  [("query", Sc (SStr "Victory Heights")); ("purpose", Sc (SStr "sale"));
   ("beds", Sc (SStr "5")); ("max_price", Sc (SInt 10000000))].

(** What [dict(row)] gives for a row in which only [title], [price],
    [rooms] and [purpose] are set. *)
Definition stored (id : string) (title price rooms purpose : pyval)
    (urls : list scalar) : pydict :=
  [("id", Sc (SStr id)); ("title", title); ("price", price); ("area", PyNone);
   ("rooms", rooms); ("baths", PyNone); ("purpose", purpose);
   ("completion_status", PyNone); ("latitude", PyNone); ("longitude", PyNone);
   ("location_name", PyNone); ("cover_photo_url", PyNone);
   ("all_image_urls", Li urls); ("agency_name", PyNone);
   ("contact_name", PyNone); ("mobile_number", PyNone);
   ("whatsapp_number", PyNone); ("down_payment_percentage", PyNone)].

(** A listing source that answers every call with the same three villas. *)
Definition three_villas : pydict -> result (list pydict) :=
  fun _ => Ok [villa_a; villa_b; villa_c].

Definition stored_a : pydict :=
  stored "7001" (Sc (SStr "Villa in Victory Heights")) (Sc (SInt 9500000))
    (Sc (SInt 5)) (Sc (SStr "For Sale"))
    [SStr "https://img.example/7001/1.jpg"; SStr "https://img.example/7001/2.jpg"].

Definition stored_b : pydict :=
  stored "7002" (Sc (SStr "Villa on the golf course")) (Sc (SInt 12000000))
    (Sc (SInt 5)) (Sc (SStr "For Sale")) [].

Definition stored_c : pydict :=
  stored "7003" (Sc (SStr "Townhouse")) (Sc (SInt 4000000))
    (Sc (SInt 5)) (Sc (SStr "For Sale")) [].

(** The state left by a first search on an empty cache. *)
Definition after_first_search (filters : pydict) (page limit : Z) : world :=
  (search_properties no_repr by_property_id three_villas filters page limit
     (fresh_world empty_tables)).2.

(** ** Further definitions used to state properties *)

(** A value on which [(v or '').strip().lower()] succeeds: a falsy value or
    a [str]. *)
Definition is_text_or_falsy (v : pyval) : bool :=
  negb (truthy v) || match v with Sc (SStr _) => true | _ => false end.

(** The listing passes one iteration of the filter's loop. *)
Definition kept (min_price max_price beds : pyval) (purpose : string)
    (p : pydict) : bool :=
  match Filter.keeps min_price max_price beds purpose p with
  | Ok true => true
  | _ => false
  end.

(** The lookup of the search misses: no row, or a row with the falsy id 0. *)
Definition misses (query_string : string) (t : tables) : Prop :=
  forall id, select_query_id query_string (cached_queries t) = Some id -> id = 0%Z.

(** The dict from which the live branch reads its price bounds and which it
    hands to the listing source. *)
Definition live_filters (filters : pydict) (page limit : Z) : pydict :=
  upstream_filters (with_pagination (clean_filters filters) page limit).

(** *** Well-formed stores *)

(** A row whose [all_image_urls] column [get_properties_for_query] can
    turn back into a list: [NULL] or a text. *)
Definition row_ok (r : row) : Prop :=
  is_text_or_falsy (get "all_image_urls" (dict_of_row "" r)) = true.

(** What the schema promises ([UNIQUE], [PRIMARY KEY], [FOREIGN KEY], the
    last of which SQLite does not enforce by default) and what the reading
    code relies on. *)
Record store_ok (t : tables) : Prop := {
  ids_positive : Forall (fun q : Z * string => (0 < q.1)%Z) (cached_queries t);
  counter_nonnegative : (0 <= cached_queries_seq t)%Z;
  query_ids_unique : NoDup (cached_queries t).*1;
  query_strings_unique : NoDup (cached_queries t).*2;
  links_unique : NoDup (query_property_map t);
  links_have_queries :
    forall link, link ∈ query_property_map t -> link.1 ∈ (cached_queries t).*1;
  links_have_properties :
    forall link, link ∈ query_property_map t ->
                 is_Some (cached_properties t !! link.2);
  rows_ok : forall id r, cached_properties t !! id = Some r -> row_ok r
}.

(** A value that can be bound to a parameter of a statement. *)
Definition bindable (v : pyval) : bool :=
  match v with
  | Li _ => false
  | Sc (SInt z) => ((- 2 ^ 63 <=? z) && (z <? 2 ^ 63))%Z
  | Sc _ => true
  end.

Definition is_str (x : scalar) : bool :=
  match x with SStr _ => true | _ => false end.

(** A listing that [save_query_and_properties] can write: its image list
    holds only strings (or its [all_image_urls] is a bindable scalar), and
    none of its sixteen other fields is a list or an integer beyond 64
    bits. The id is passed through [str] and never matters. *)
Definition storable (prop : pydict) : bool :=
  (if has_key "all_image_urls" prop
   then match get "all_image_urls" prop with
        | Li l => forallb is_str l
        | v => bindable v
        end
   else true) &&
  forallb (fun column : string * affinity => bindable (get column.1 prop))
    (columns_before_images ++ columns_after_images).

(** The listing of [villa_a] as the source reports it after a price cut,
    with a number for its id. *)
Definition villa_a_repriced : pydict :=
  [("id", Sc (SInt 7001)); ("title", Sc (SStr "Villa in Victory Heights"));
   ("price", Sc (SInt 9000000))].

(** *** What is read back from a row *)

(** The value that comes back from a column of the given affinity for the
    value that was bound to it, for the conversions that the model covers:
    [None] stays [None], a [bool] is stored as an integer, and a number
    stored in a [TEXT] column comes back as its decimal text. A [str]
    bound to an [INTEGER] or [REAL] column and a number bound to a [REAL]
    column are left out. *)
Definition read_back (a : affinity) (v : pyval) : option pyval :=
  match a, v with
  | _, Sc SNone => Some PyNone
  | TEXT, Sc (SStr s) => Some (Sc (SStr s))
  | TEXT, Sc (SInt z) => Some (Sc (SStr (pretty z)))
  | TEXT, Sc (SBool b) => Some (Sc (SStr (pretty (Z.b2z b))))
  | INTEGER, Sc (SInt z) => Some (Sc (SInt z))
  | INTEGER, Sc (SBool b) => Some (Sc (SInt (Z.b2z b)))
  | _, _ => None
  end.

(** The columns of [cached_properties] in the order of the schema,
    [created_at] apart. *)
Definition schema_columns : list string :=
  "id" :: columns_before_images.*1 ++ ["all_image_urls"] ++ columns_after_images.*1.

(** ** The detail route ([test_prop.py]) *)

(** What the route answers: the JSON of a dict, or [abort(status)]. *)
Inductive response : Type :=
| Json (body : pydict)
| Abort (status : Z).

(** [api_property_detail]: [SELECT * FROM cached_properties WHERE id = ?]
    with [str(property_id)], [fetchone], and the same conversion of
    [all_image_urls] as in [get_properties_for_query]. This is the view;
    the converter [<int:property_id>] of its route accepts unsigned digits
    only, so the view is called with a number that is not negative. *)
Definition api_property_detail (property_id : Z) : M response :=
  let id := py_str_scalar (SInt property_id) in
  (fetched <- select (fun t => cached_properties t !! id);
   match fetched with
   | None => ret (Abort 404)
   | Some r =>
       property_dict <- lift (with_image_list (dict_of_row id r));
       ret (Json property_dict)
   end)%M.

(** ** The search route ([test_prop.py]) *)

(** The query parameters of a request to [/api/search] as [request.args]
    hands them over: defaults applied, [getlist] for the repeatable ones,
    [None] for a missing or unreadable number. *)
Record search_args : Type := {
  arg_query : string;
  arg_purpose : string;
  arg_property_type : string;
  arg_beds : list string;
  arg_baths : list string;
  arg_page : Z;
  arg_sort : string;
  arg_min_price : option Z;
  arg_max_price : option Z;
  arg_min_area : option Z;
  arg_max_area : option Z;
  arg_listed_within : option Z;
  arg_amenities : list string;
  arg_furnished : option string
}.

Definition py_opt_int (x : option Z) : pyval :=
  match x with Some z => Sc (SInt z) | None => PyNone end.

Definition py_opt_str (x : option string) : pyval :=
  match x with Some s => Sc (SStr s) | None => PyNone end.

(** The [filters] dict that [api_search] builds. *)
Definition api_search_filters (args : search_args) : pydict :=
  [("query", Sc (SStr (arg_query args)));
   ("purpose", Sc (SStr (arg_purpose args)));
   ("property_type", Sc (SStr (arg_property_type args)));
   ("beds", Li (SStr <$> arg_beds args));
   ("baths", Li (SStr <$> arg_baths args));
   ("page", Sc (SInt (arg_page args)));
   ("sort", Sc (SStr (arg_sort args)));
   ("min_price", py_opt_int (arg_min_price args));
   ("max_price", py_opt_int (arg_max_price args));
   ("min_area", py_opt_int (arg_min_area args));
   ("max_area", py_opt_int (arg_max_area args));
   ("listed_within", py_opt_int (arg_listed_within args));
   ("amenities", Li (SStr <$> arg_amenities args));
   ("furnished", py_opt_str (arg_furnished args))].

(** The three answers of the route: 200 with the listings and their count,
    404 when there is none, 500 with the message of the exception. *)
Inductive search_response : Type :=
| Listings (listings : list pydict) (count : nat)
| NoListings
| ServerError (e : exn).

Section Routes.

Variable list_repr : list scalar -> string.
Variable row_order : list (Z * string) -> list (Z * string).
Variable property_finder_search : pydict -> result (list pydict).

(** [api_search]: [search_properties(filters)] with the default [page=1],
    [limit=50]. *)
Definition api_search (args : search_args) : world -> search_response * world :=
  fun w =>
    match search_properties list_repr row_order property_finder_search
            (api_search_filters args) 1 50 w with
    | (Ok results, w') =>
        (if negb (bool_decide (results = []))
         then Listings results (length results)
         else NoListings, w')
    | (Raise e, w') => (ServerError e, w')
    end.

End Routes.

Definition with_page (args : search_args) (page : Z) : search_args :=
  {| arg_query := arg_query args; arg_purpose := arg_purpose args;
     arg_property_type := arg_property_type args; arg_beds := arg_beds args;
     arg_baths := arg_baths args; arg_page := page; arg_sort := arg_sort args;
     arg_min_price := arg_min_price args; arg_max_price := arg_max_price args;
     arg_min_area := arg_min_area args; arg_max_area := arg_max_area args;
     arg_listed_within := arg_listed_within args;
     arg_amenities := arg_amenities args; arg_furnished := arg_furnished args |}.

(** A request for the villas of the first scenario. *)
Definition request_A : search_args :=
  {| arg_query := "Victory Heights"; arg_purpose := "sale";
     arg_property_type := ""; arg_beds := ["5"]; arg_baths := [];
     arg_page := 1; arg_sort := "mr"; arg_min_price := None;
     arg_max_price := Some 10000000%Z; arg_min_area := None;
     arg_max_area := None; arg_listed_within := None; arg_amenities := [];
     arg_furnished := None |}.

(** ** The search tool ([pf_debug_api.py]) *)

(** Every character of the string satisfies the test. *)
Fixpoint all_chars (P : ascii -> bool) (s : string) : bool :=
  match s with
  | EmptyString => true
  | String c r => P c && all_chars P r
  end.

Definition is_digit (c : ascii) : bool :=
  match digit_of c with Some _ => true | None => false end.

(** What the tool hands back to the model: the listings with their count,
    or the message of the exception. *)
Inductive tool_result : Type :=
| Success (count : nat) (listings : list pydict)
| Error (e : exn).

(** [d[new] = d.pop(old)], done when [old] is a key of [d]. *)
Definition rename_key (old new : string) (d : pydict) : pydict :=
  if has_key old d then dict_set new (get old d) (dict_del old d) else d.

(** The head of [property_search_tool]: [location] and [location_query]
    become [query], and [beds] becomes [str(int(beds))]. *)
Definition normalize_filters (filters : pydict) : result pydict :=
  let renamed :=
    rename_key "location_query" "query" (rename_key "location" "query" filters) in
  if has_key "beds" renamed && negb (is_none (get "beds" renamed)) then
    let? n := py_int (get "beds" renamed) in
    Ok (dict_set "beds" (Sc (SStr (py_str_scalar (SInt n)))) renamed)
  else Ok renamed.

Section Tools.

Variable list_repr : list scalar -> string.
Variable row_order : list (Z * string) -> list (Z * string).
Variable property_finder_search : pydict -> result (list pydict).

(** [property_search_tool]: the conversion of [beds] stands before the
    [try], the search and the filter inside it. *)
Definition property_search_tool (filters : pydict) : M tool_result :=
  (normalized_filters <- lift (normalize_filters filters);
   try_except
     (results <- search_properties list_repr row_order property_finder_search
                   normalized_filters 1 50;
      filtered_results <-
        lift (_filter_listings_by_constraints results normalized_filters);
      ret (Success (length filtered_results) filtered_results))
     (fun e => ret (Error e)))%M.

End Tools.

(** ** The listing source ([property_finder.py]) *)

Definition PROPERTY_TYPE_MAP : list (string * string) :=
  [("apartment", "1"); ("villa", "35"); ("townhouse", "22"); ("penthouse", "20");
   ("compound", "42"); ("duplex", "24"); ("full floor", "18");
   ("half floor", "29"); ("whole building", "10"); ("land", "5");
   ("bulk sale unit", "30"); ("bungalow", "31");
   ("hotel & hotel apartment", "45")].

Definition FILTERS_MAP : list (string * string) :=
  [("amenities", "filter[amenities]");
   ("bathrooms", "filter[number_of_bathrooms]");
   ("beds", "filter[number_of_bedrooms]");
   ("furnished", "filter[furnished]");
   ("virtual_viewings", "filter[virtual_viewings]");
   ("completion_status", "filter[completion_status]");
   ("min_installment_years", "filter[min_installment_years]");
   ("max_installment_years", "filter[max_installment_years]");
   ("verified", "filter[verified]");
   ("trusted_agent", "filter[trusted_agent]");
   ("listed_within", "filter[listed_within]");
   ("is_developer_property", "filter[is_developer_property]");
   ("category_id", "filter[category_id]");
   ("property_type_id", "filter[property_type_id]");
   ("min_price", "filter[min_price]");
   ("max_price", "filter[max_price]");
   ("min_area", "filter[min_area]");
   ("max_area", "filter[max_area]");
   ("keywords", "filter[keywords]");
   ("locations_ids", "filter[locations_ids]");
   ("sort", "sort")].

(** [m.get(k)] for a map of strings. *)
Fixpoint map_get (k : string) (m : list (string * string)) : option string :=
  match m with
  | [] => None
  | (k', v) :: m' => if decide (k = k') then Some v else map_get k m'
  end.

(** [PROPERTY_TYPE_MAP.get(value.lower())]: only a [str] has [lower]. *)
Definition property_type_id (value : pyval) : result (option string) :=
  match value with
  | Sc (SStr s) => Ok (map_get (lower s) PROPERTY_TYPE_MAP)
  | _ => Raise AttributeError
  end.

(** ["1" if value == "sale" else "2"] *)
Definition category (value : pyval) : pyval :=
  if bool_decide (value = Sc (SStr "sale")) then Sc (SStr "1") else Sc (SStr "2").

(** [initialise], the parameters of the request for the search page. *)
Definition initialise_params (filters : pydict) : result pydict :=
  let url_params := [] in
  let url_params :=
    if has_key "purpose" filters
    then dict_set "c" (category (get "purpose" filters)) url_params
    else url_params in
  let? url_params :=
    if has_key "property_type" filters then
      let? pt_id := property_type_id (get "property_type" filters) in
      match pt_id with
      | Some id => Ok (dict_set "t" (Sc (SStr id)) url_params)
      | None => Ok url_params
      end
    else Ok url_params in
  let url_params :=
    if has_key "location_id" filters
    then dict_set "l" (get "location_id" filters) url_params
    else url_params in
  let url_params :=
    if has_key "sort" filters
    then dict_set "ob" (get "sort" filters) url_params
    else url_params in
  Ok url_params.

(** [fetch_propertyfinder_listings], one round of the loop over
    [filters.items()]. *)
Definition api_param_step (api_params : pydict) (item : string * pyval)
    : result pydict :=
  let key := item.1 in
  let value := item.2 in
  if decide (key = "property_type") then
    let? pt_id := property_type_id value in
    match pt_id with
    | Some id => Ok (dict_set "t" (Sc (SStr id)) api_params)
    | None => Ok api_params
    end
  else if decide (key = "purpose") then
    Ok (dict_set "c" (category value) api_params)
  else if decide (key = "page") then
    Ok (dict_set "page[number]" value api_params)
  else if decide (key = "location_id") then
    Ok (dict_set "l" value api_params)
  else if bool_decide (key = "min_price") || bool_decide (key = "max_price") then
    Ok api_params
  else
    match map_get key FILTERS_MAP with
    | Some api_key =>
        if negb (is_none value) then
          match value with
          | Li l =>
              Ok (dict_set api_key
                    (Sc (SStr (join "," (py_str_scalar <$> l)))) api_params)
          | _ => Ok (dict_set api_key value api_params)
          end
        else Ok api_params
    | None => Ok api_params
    end.

Fixpoint api_params_loop (api_params : pydict) (items : pydict) : result pydict :=
  match items with
  | [] => Ok api_params
  | item :: rest =>
      let? api_params := api_param_step api_params item in
      api_params_loop api_params rest
  end.

(** The parameters of the request for one page of listings. *)
Definition api_params_of (filters : pydict) : result pydict :=
  api_params_loop
    [("ob", Sc (SStr "mr")); ("fu", Sc (SStr "0")); ("c", Sc (SStr "1"))]
    filters.

(** The removal of duplicates at the end of
    [search_properties_with_pagination]: a listing is kept when its id is
    truthy and not yet in the set [seen_ids]; a list cannot be looked up in
    a set. *)
Fixpoint unique_listings (seen_ids : list scalar) (all_listings : list pydict)
    : result (list pydict) :=
  match all_listings with
  | [] => Ok []
  | listing :: rest =>
      let listing_id := get "id" listing in
      if truthy listing_id then
        match listing_id with
        | Li _ => Raise TypeError
        | Sc x =>
            if existsb (scalar_eqb x) seen_ids
            then unique_listings seen_ids rest
            else let? unique := unique_listings (x :: seen_ids) rest in
                 Ok (listing :: unique)
        end
      else unique_listings seen_ids rest
  end.

Section Source.

(** The three requests to Property Finder, as functions of what is sent:
    the location lookup followed by the reading of its answer (the id of
    the first location, [None] when there is none), the search page from
    which [initialise] reads the build id ([None] when it has none), and
    the page of listings, mapped to the schema of the store, for a build id
    and the parameters of the request ([[]] when the request fails). *)
Variable find_location : pyval -> result pyval.
Variable build_id_of : pydict -> result pyval.
Variable listings_of : pyval -> pydict -> result (list pydict).

Definition initialise (filters : pydict) : result pyval :=
  let? url_params := initialise_params filters in
  build_id_of url_params.

Definition fetch_propertyfinder_listings (filters : pydict) (build_id : pyval)
    : result (list pydict) :=
  if negb (truthy build_id) then Ok []
  else
    let? api_params := api_params_of filters in
    listings_of build_id api_params.

(** The loop over the pages of [search_properties_with_pagination]. *)
Fixpoint fetch_pages (filters : pydict) (build_id : pyval) (pages : list Z)
    : result (list pydict) :=
  match pages with
  | [] => Ok []
  | page_num :: rest =>
      let page_filters := dict_set "page" (Sc (SInt page_num)) filters in
      let? listings := fetch_propertyfinder_listings page_filters build_id in
      if bool_decide (listings = []) then Ok []
      else
        let? more := fetch_pages filters build_id rest in
        Ok (listings ++ more)
  end.

Definition MAX_PAGES : Z := 10.

Definition search_properties_with_pagination (filters : pydict) (build_id : pyval)
    : result (list pydict) :=
  let? all_listings :=
    fetch_pages filters build_id (seqZ 1 MAX_PAGES) in
  unique_listings [] all_listings.

(** [property_finder_search], applied to the inner filters. *)
Definition property_finder_search (inner_filters : pydict) : result (list pydict) :=
  let query :=
    if has_key "location_query" inner_filters
    then get "location_query" inner_filters
    else Sc (SStr "dubai") in
  let? location_id := find_location query in
  let inner_filters :=
    if negb (truthy location_id) then inner_filters
    else dict_set "location_id" location_id inner_filters in
  let? build_id := initialise inner_filters in
  if negb (truthy build_id) then Ok []
  else search_properties_with_pagination inner_filters build_id.

End Source.

(** Two listings have ids that are equal in Python's sense ([1 == True]). *)
Definition same_id (p q : pydict) : bool :=
  match get "id" p, get "id" q with
  | Sc x, Sc y => scalar_eqb x y
  | _, _ => false
  end.

(** A second listing with the id of [villa_b]. *)
Definition villa_b_again : pydict :=
  [("id", Sc (SStr "7002")); ("title", Sc (SStr "Villa on the golf course, reduced"));
   ("price", Sc (SInt 11000000))].

(** A listing without an id. *)
Definition villa_anonymous : pydict :=
  [("title", Sc (SStr "Off-market villa")); ("price", Sc (SInt 20000000))].

(** Two dicts with the same keys in the same order, and the same values
    except perhaps under the keys listed. *)
Definition agree_except (keys : list string) (d d' : pydict) : Prop :=
  Forall2 (fun a b : string * pyval => a.1 = b.1 /\ (a.1 ∉ keys -> a.2 = b.2)) d d'.

(** A Property Finder that knows one location, has one build and two pages
    of villas. *)
Definition one_location : pyval -> result pyval := fun _ => Ok (Sc (SInt 60)).

Definition a_build_id : pydict -> result pyval := fun _ => Ok (Sc (SStr "b1")).

Definition two_pages : pyval -> pydict -> result (list pydict) :=
  fun _ api_params =>
    if bool_decide (get "page[number]" api_params = Sc (SInt 1))
    then Ok [villa_a; villa_b]
    else if bool_decide (get "page[number]" api_params = Sc (SInt 2))
    then Ok [villa_b_again; villa_c]
    else Ok [].

(** What every request for a page of listings carries, whatever the
    filters: the fixed sort order and furnishing, a category that is 1 or
    2, and no price bound. *)
Definition fixed_params (api_params : pydict) : Prop :=
  get "ob" api_params = Sc (SStr "mr") /\
  get "fu" api_params = Sc (SStr "0") /\
  (get "c" api_params = Sc (SStr "1") \/ get "c" api_params = Sc (SStr "2")) /\
  has_key "filter[min_price]" api_params = false /\
  has_key "filter[max_price]" api_params = false.

(** The value has the method [lower]: it is a [str]. *)
Definition is_text (v : pyval) : bool :=
  match v with Sc (SStr _) => true | _ => false end.

(** ** What the cache key tells apart *)

(** The texts that [urlencode] writes for a value: [str] of a scalar, or
    of each element of a list. *)
Definition texts_of (v : pyval) : list string :=
  match v with
  | Sc x => [py_str_scalar x]
  | Li l => py_str_scalar <$> l
  end.

(** The test of the cleaning step of [search_properties]. *)
Definition is_kept (v : pyval) : bool :=
  truthy v && negb (bool_decide (v = Li [SStr ""])).

Definition no_ampersand (s : string) : bool :=
  all_chars (fun c => negb (bool_decide (c = "&"%char))) s.

(** * Properties *)

(** ** The definitions on the cases of the design document *)

Example filter_beds_5 :
  _filter_listings_by_constraints
    [[("id", Sc (SStr "a")); ("rooms", Sc (SInt 4))];
     [("id", Sc (SStr "b")); ("rooms", Sc (SInt 5))];
     [("id", Sc (SStr "c")); ("rooms", Sc (SInt 6))]]
    [("beds", Sc (SStr "5"))]
  = Ok [[("id", Sc (SStr "b")); ("rooms", Sc (SInt 5))]].
Proof. reflexivity. Qed.

Example cache_key_scenario_A :
  cache_key [("query", Sc (SStr "Victory Heights")); ("purpose", Sc (SStr "sale"));
             ("beds", Sc (SStr "5")); ("max_price", Sc (SInt 10000000));
             ("property_type", Sc (SStr "")); ("amenities", Li [])] 1 50
  = "beds=5&limit=50&max_price=10000000&page=1&purpose=sale&query=Victory+Heights".
Proof. vm_compute. reflexivity. Qed.

Example cache_key_list :
  cache_key [("beds", Li [SStr "3"; SStr "4"]); ("baths", Li [SStr ""])] 2 50
  = "beds=3&beds=4&limit=50&page=2".
Proof. vm_compute. reflexivity. Qed.

Example image_urls_abc :
  (let? s := all_image_urls_str
               [("all_image_urls", Li [SStr "a"; SStr "b"; SStr "c"])] in
   all_image_urls_list s)
  = Ok (Li [SStr "a"; SStr "b"; SStr "c"]).
Proof. reflexivity. Qed.

(** ** Dicts *)

Lemma get_dict_del_eq k d : get k (dict_del k d) = PyNone.
Proof.
  induction d as [|[k' v] d IH]; simpl; [done|].
  case_bool_decide; simpl; [done|].
  destruct (decide (k = k')); [congruence | done].
Qed.

Lemma get_dict_del_ne k k' d : k <> k' -> get k (dict_del k' d) = get k d.
Proof.
  intros Hne. induction d as [|[k'' v] d IH]; simpl; [done|].
  case_bool_decide; simpl.
  - subst. destruct (decide (k = k')); [done | exact IH].
  - destruct (decide (k = k'')); [done | exact IH].
Qed.

(** ** The constraint filter *)

Lemma filter_singleton p c :
  _filter_listings_by_constraints [p] c =
  let? purpose := or_empty_strip_lower (get "purpose" c) in
  let? k := Filter.keeps (get "min_price" c) (get "max_price" c)
              (get "beds" c) purpose p in
  Ok (if k then [p] else []).
Proof.
  unfold _filter_listings_by_constraints. simpl.
  destruct (or_empty_strip_lower (get "purpose" c)); simpl; [|done].
  destruct (Filter.keeps _ _ _ _ p) as [[]|]; done.
Qed.

(** The filter decides listing by listing: what it does on a list is what
    it does on its elements, in order. *)
Lemma filter_cons p (rest : list pydict) c :
  _filter_listings_by_constraints (p :: rest) c =
  let? head := _filter_listings_by_constraints [p] c in
  let? tail := _filter_listings_by_constraints rest c in
  Ok (head ++ tail).
Proof.
  unfold _filter_listings_by_constraints. simpl.
  destruct (or_empty_strip_lower (get "purpose" c)); simpl; [|done].
  destruct (Filter.keeps _ _ _ _ p) as [[]|]; simpl; [| |done];
    by destruct (Filter.loop _ _ _ _ rest).
Qed.

Lemma py_int_not_none v z : py_int v = Ok z -> is_none v = false.
Proof. destruct v as [[]|]; simpl; congruence. Qed.

Lemma keeps_beds mn mx beds purpose p r b :
  py_int (get "rooms" p) = Ok r ->
  py_int beds = Ok b ->
  Filter.keeps mn mx beds purpose p =
  let? k := Filter.keeps mn mx PyNone purpose p in Ok (k && (r =? b)%Z).
Proof.
  intros Hr Hb. unfold Filter.keeps.
  rewrite (py_int_not_none _ _ Hr), (py_int_not_none _ _ Hb), Hr, Hb. simpl.
  destruct (or_empty_strip_lower (get "purpose" p)) as [pp|]; simpl; [|done].
  match goal with |- context [rbind ?x _] => destruct x as [[]|] end; simpl; try done.
  match goal with |- context [rbind ?x _] => destruct x as [[]|] end; simpl; try done.
  destruct (r =? b)%Z; simpl;
    repeat (match goal with
            | |- context [if ?c then _ else _] => destruct c
            end; simpl); reflexivity.
Qed.

(** C6. The bedroom constraint is an exact match: for a listing whose room
    count and a constraint whose [beds] value are numeric (coercible by
    [int]), the filter keeps the listing if and only if the two numbers are
    equal and the remaining constraints keep it. *)
Theorem beds_constraint_is_exact_match (p c : pydict) (r b : Z) :
  py_int (get "rooms" p) = Ok r ->
  py_int (get "beds" c) = Ok b ->
  _filter_listings_by_constraints [p] c = Ok [p] <->
  r = b /\ _filter_listings_by_constraints [p] (dict_del "beds" c) = Ok [p].
Proof.
  intros Hr Hb. rewrite !filter_singleton.
  rewrite get_dict_del_eq, !get_dict_del_ne by done.
  destruct (or_empty_strip_lower (get "purpose" c)) as [cp|]; simpl;
    [|split; [done | intros [_ ?]; done]].
  rewrite (keeps_beds _ _ _ _ _ _ _ Hr Hb).
  destruct (Filter.keeps _ _ PyNone cp p) as [k|]; simpl;
    [|split; [done | intros [_ ?]; done]].
  destruct (Z.eqb_spec r b) as [->|Hne], k; simpl; split;
    try done; try (intros [? ?]; done); auto.
Qed.

Lemma beds_constraint_is_exact_match_witness :
  _filter_listings_by_constraints [[("id", Sc (SStr "v1")); ("rooms", Sc (SInt 5))]]
    [("beds", Sc (SStr "5"))]
  = Ok [[("id", Sc (SStr "v1")); ("rooms", Sc (SInt 5))]].
Proof.
  apply (beds_constraint_is_exact_match
           [("id", Sc (SStr "v1")); ("rooms", Sc (SInt 5))]
           [("beds", Sc (SStr "5"))] 5 5); [reflexivity | reflexivity |].
  split; reflexivity.
Defined.

(** With [beds=5], listings with four and six rooms are rejected and one
    with five rooms is accepted. *)
Example beds_5_rooms_4_5_6 (beds : pyval) :
  beds = Sc (SInt 5) \/ beds = Sc (SStr "5") ->
  _filter_listings_by_constraints
    [[("rooms", Sc (SInt 4))]; [("rooms", Sc (SInt 5))]; [("rooms", Sc (SInt 6))]]
    [("beds", beds)]
  = Ok [[("rooms", Sc (SInt 5))]].
Proof. intros [-> | ->]; reflexivity. Qed.

Lemma py_int_raises v e : py_int v = Raise e -> e = TypeError \/ e = ValueError.
Proof.
  destruct v as [[| | |s]|]; simpl; try (intros [= <-]; auto; fail); try done.
  unfold int_of_str.
  match goal with |- context [match ?d with Some _ => _ | None => _ end] =>
    destruct d end; [done | intros [= <-]; auto].
Qed.

Lemma as_number_raises v e : as_number v = Raise e -> e = TypeError.
Proof. destruct v as [[]|]; simpl; congruence. Qed.

(** A price that is absent or not a number switches both price tests off. *)
Lemma keeps_without_price mn mx beds purpose p e :
  as_number (get "price" p) = Raise e ->
  Filter.keeps mn mx beds purpose p = Filter.keeps PyNone PyNone beds purpose p.
Proof.
  intros Hp. pose proof (as_number_raises _ _ Hp) as ->.
  assert (forall bound, except_pass (let? m := py_int bound in py_lt (get "price" p) m) = Ok false) as Hlt.
  { intros bound. destruct (py_int bound) as [m|e] eqn:Hb; simpl.
    - unfold py_lt. rewrite Hp. reflexivity.
    - destruct (py_int_raises _ _ Hb) as [-> | ->]; reflexivity. }
  assert (forall bound, except_pass (let? m := py_int bound in py_gt (get "price" p) m) = Ok false) as Hgt.
  { intros bound. destruct (py_int bound) as [m|e] eqn:Hb; simpl.
    - unfold py_gt. rewrite Hp. reflexivity.
    - destruct (py_int_raises _ _ Hb) as [-> | ->]; reflexivity. }
  unfold Filter.keeps. rewrite Hlt, Hgt. simpl.
  destruct (is_none mn), (is_none mx), (is_none (get "price" p)); reflexivity.
Qed.

(** The constraint filter is fail-open on the price: a listing whose price
    is absent or not a number is treated as if no price bound were given. *)
Lemma price_constraints_fail_open (p c : pydict) e :
  as_number (get "price" p) = Raise e ->
  _filter_listings_by_constraints [p] c =
  _filter_listings_by_constraints [p]
    (dict_del "min_price" (dict_del "max_price" c)).
Proof.
  intros Hp. rewrite !filter_singleton.
  rewrite !get_dict_del_eq, !get_dict_del_ne, !get_dict_del_eq by done.
  rewrite !get_dict_del_ne by done.
  destruct (or_empty_strip_lower (get "purpose" c)) as [cp|]; simpl; [|done].
  by rewrite (keeps_without_price _ _ _ _ _ _ Hp).
Qed.

(** The case of the design document: [min_price=2000000] and a listing
    without a [price] entry. *)
Example filter_keeps_listing_without_price :
  _filter_listings_by_constraints
    [[("id", Sc (SStr "pf-1")); ("rooms", Sc (SInt 3))]]
    [("min_price", Sc (SInt 2000000))]
  = Ok [[("id", Sc (SStr "pf-1")); ("rooms", Sc (SInt 3))]].
Proof. reflexivity. Qed.

Lemma keeps_purpose mn mx beds cp lp p :
  or_empty_strip_lower (get "purpose" p) = Ok lp ->
  Filter.keeps mn mx beds cp p =
  let? k := Filter.keeps mn mx beds "" p in Ok (k && purpose_rule cp lp).
Proof.
  intros Hp. unfold Filter.keeps, purpose_rule. rewrite Hp. simpl.
  repeat (match goal with |- context [rbind ?x _] => destruct x as [[]|] end;
          simpl; try reflexivity).
  repeat (case_bool_decide; simpl; try reflexivity; try congruence);
    repeat (match goal with |- context [contains ?a ?b] => destruct (contains a b) end;
            simpl; try reflexivity).
Qed.

Lemma filter_purpose (p c : pydict) (cp lp : string) :
  or_empty_strip_lower (get "purpose" c) = Ok cp ->
  or_empty_strip_lower (get "purpose" p) = Ok lp ->
  _filter_listings_by_constraints [p] c =
  let? kept := _filter_listings_by_constraints [p] (dict_del "purpose" c) in
  Ok (if purpose_rule cp lp then kept else []).
Proof.
  intros Hc Hp. rewrite !filter_singleton.
  rewrite !get_dict_del_eq, !get_dict_del_ne by done.
  rewrite Hc. simpl. rewrite (keeps_purpose _ _ _ cp lp _ Hp).
  destruct (Filter.keeps _ _ _ "" p) as [[]|]; simpl; [| |done];
    destruct (purpose_rule cp lp); reflexivity.
Qed.

(** C8, as the code has it. The purpose constraint acts only through the
    two words [sale] and [rent]: when the normalised (stripped, lower-cased)
    constraint is one of them and the listing has a purpose text, the listing
    is kept if and only if that word occurs in the listing's normalised
    purpose text and the other constraints keep it; for every other
    constraint value, and when either text is empty, the purpose is not
    applied. *)
Theorem purpose_constraint_sale_or_rent (p c : pydict) (cp lp : string) :
  or_empty_strip_lower (get "purpose" c) = Ok cp ->
  or_empty_strip_lower (get "purpose" p) = Ok lp ->
  ((cp = "sale" \/ cp = "rent") -> lp <> "" ->
     (_filter_listings_by_constraints [p] c = Ok [p] <->
      contains cp lp = true /\
      _filter_listings_by_constraints [p] (dict_del "purpose" c) = Ok [p])) /\
  ((cp <> "sale" /\ cp <> "rent") \/ cp = "" \/ lp = "" ->
     _filter_listings_by_constraints [p] c =
     _filter_listings_by_constraints [p] (dict_del "purpose" c)).
Proof.
  intros Hc Hp. rewrite (filter_purpose p c cp lp Hc Hp). split.
  - intros Hword Hlp.
    assert (purpose_rule cp lp = contains cp lp) as ->.
    { unfold purpose_rule. destruct Hword as [-> | ->]; simpl;
        case_bool_decide; simpl; done. }
    destruct (_filter_listings_by_constraints [p] (dict_del "purpose" c)) as [kept|];
      simpl; [|split; [done | intros [_ ?]; done]].
    destruct (contains cp lp); (split; [intros H | intros [? H]]);
      simplify_eq; auto.
  - intros Hoff.
    assert (purpose_rule cp lp = true) as ->.
    { unfold purpose_rule.
      destruct Hoff as [[Hs Hr] | [-> | ->]].
      - repeat (case_bool_decide; simpl; try done).
      - reflexivity.
      - by rewrite orb_true_r. }
    by destruct (_filter_listings_by_constraints [p] (dict_del "purpose" c)).
Qed.

Lemma purpose_constraint_sale_or_rent_witness :
  _filter_listings_by_constraints [[("purpose", Sc (SStr "For Sale"))]]
    [("purpose", Sc (SStr " Sale "))]
  = Ok [[("purpose", Sc (SStr "For Sale"))]].
Proof.
  apply (proj1 (purpose_constraint_sale_or_rent
                  [("purpose", Sc (SStr "For Sale"))]
                  [("purpose", Sc (SStr " Sale "))] "sale" "for sale"
                  eq_refl eq_refl));
    [left; reflexivity | discriminate | split; reflexivity].
Defined.

(** The claim as stated fails: the constraint [buy] does not occur in the
    purpose text [For Rent], yet the listing is kept. *)
Lemma purpose_substring_counterexample :
  ~ (_filter_listings_by_constraints [[("purpose", Sc (SStr "For Rent"))]]
       [("purpose", Sc (SStr "buy"))]
     = Ok [[("purpose", Sc (SStr "For Rent"))]]
     <-> contains (lower (strip "buy")) (lower (strip "For Rent")) = true).
Proof. intros [H _]. specialize (H eq_refl). discriminate H. Qed.

(** White space beyond ASCII is stripped as well: a constraint of [sale]
    followed by a no-break space is applied, and a listing whose purpose is
    a no-break space alone has no purpose. *)
Example purpose_with_no_break_space :
  _filter_listings_by_constraints [[("purpose", Sc (SStr "For Rent"))]]
    [("purpose", Sc (SStr ("sale" +:+ bytes [194; 160])))]
  = Ok [] /\
  _filter_listings_by_constraints [[("purpose", Sc (SStr (bytes [194; 160])))]]
    [("purpose", Sc (SStr "sale"))]
  = Ok [[("purpose", Sc (SStr (bytes [194; 160])))]].
Proof. split; vm_compute; reflexivity. Qed.

(** ** The image-URL list *)

Lemma split_comma_comma_free s : comma_free s = true -> split_comma s = [s].
Proof.
  induction s as [|c r IH]; simpl; [done|].
  case_bool_decide; simpl; [done|]. intros Hr. by rewrite (IH Hr).
Qed.

Lemma split_comma_app s rest :
  comma_free s = true ->
  split_comma (s +:+ "," +:+ rest) = s :: split_comma rest.
Proof.
  induction s as [|c r IH]; simpl; [done|].
  case_bool_decide; simpl; [done|]. intros Hr.
  change (String c r +:+ "," +:+ rest) with (String c (r +:+ "," +:+ rest)).
  cbn [split_comma]. rewrite ?bool_decide_false by done. by rewrite (IH Hr).
Qed.

Lemma split_comma_join (l : list string) :
  l <> [] -> Forall (fun s => comma_free s = true) l ->
  split_comma (join "," l) = l.
Proof.
  induction l as [|s l IH]; [done|]. intros _ Hall.
  apply Forall_cons in Hall as [Hs Hl].
  destruct l as [|s' l]; simpl.
  - by apply split_comma_comma_free.
  - rewrite split_comma_app by done. f_equal. by apply IH.
Qed.

Lemma join_urls_strings (l : list string) : join_urls (SStr <$> l) = Ok (join "," l).
Proof.
  unfold join_urls.
  assert (mapM as_str (SStr <$> l) = Ok l) as ->; [|done].
  induction l as [|s l IH]; [done|].
  rewrite fmap_cons. cbn [mapM as_str rbind]. by rewrite IH.
Qed.

(** C3, as the code has it. A list of image URLs none of which contains a
    comma, other than the list holding just the empty string, comes back
    from the store as the identical list; the empty list comes back as the
    empty list. *)
Theorem image_urls_round_trip_comma_free (urls : list string) :
  Forall (fun s => comma_free s = true) urls ->
  urls <> [""] ->
  image_urls_round_trip urls = Ok (Li (SStr <$> urls)).
Proof.
  intros Hall Hne. destruct urls as [|s l]; [reflexivity|].
  unfold image_urls_round_trip, all_image_urls_str.
  change (has_key "all_image_urls" [("all_image_urls", Li (SStr <$> s :: l))])
    with true.
  change (get "all_image_urls" [("all_image_urls", Li (SStr <$> s :: l))])
    with (Li (SStr <$> s :: l)).
  cbv iota. change (truthy (Li (SStr <$> s :: l))) with true. cbv iota.
  rewrite (join_urls_strings (s :: l)). cbn [rbind bind_param].
  unfold all_image_urls_list.
  pose proof (split_comma_join (s :: l) ltac:(done) Hall) as Hsplit.
  destruct (decide (join "," (s :: l) = "")) as [Hempty|Hnonempty].
  - rewrite Hempty in Hsplit. simpl in Hsplit. congruence.
  - cbn [store_as of_sqlval truthy]. rewrite (bool_decide_false _ Hnonempty).
    cbn [negb]. by rewrite Hsplit.
Qed.

Lemma image_urls_round_trip_comma_free_witness :
  image_urls_round_trip
    ["https://img.example/1.jpg"; "https://img.example/2.jpg";
     "https://img.example/1.jpg"]
  = Ok (Li [SStr "https://img.example/1.jpg"; SStr "https://img.example/2.jpg";
            SStr "https://img.example/1.jpg"]).
Proof.
  apply (image_urls_round_trip_comma_free
           ["https://img.example/1.jpg"; "https://img.example/2.jpg";
            "https://img.example/1.jpg"]).
  - repeat constructor.
  - discriminate.
Defined.

Example image_urls_round_trip_empty : image_urls_round_trip [] = Ok (Li []).
Proof. reflexivity. Qed.

(** The claim as stated fails: a URL that contains a comma comes back as
    two URLs, and the list holding the empty string comes back empty. *)
Lemma image_urls_round_trip_counterexample :
  image_urls_round_trip ["https://img.example/w_400,h_300/1.jpg"]
  = Ok (Li [SStr "https://img.example/w_400"; SStr "h_300/1.jpg"])
  /\ image_urls_round_trip ["https://img.example/w_400,h_300/1.jpg"]
     <> Ok (Li (SStr <$> ["https://img.example/w_400,h_300/1.jpg"]))
  /\ image_urls_round_trip [""] = Ok (Li []).
Proof. repeat split; vm_compute; done. Qed.

(** ** The store *)

Lemma save_loop_tables lr qid (properties : list pydict) (w : world) :
  save_loop lr qid properties w =
  ((loop_tables lr qid properties (working w)).1,
   set_working w (loop_tables lr qid properties (working w)).2).
Proof.
  revert w. induction properties as [|prop rest IH]; intros w.
  - by destruct w.
  - simpl. unfold bind, lift at 1.
    destruct (property_row prop) as [r|e]; [|by destruct w].
    unfold execute at 1 2. rewrite IH. reflexivity.
Qed.

Lemma select_query_id_snoc key qs (i : Z) :
  select_query_id key (qs ++ [(i, key)]) =
  Some (default i (select_query_id key qs)).
Proof.
  induction qs as [|[id s] qs IH]; simpl.
  - by rewrite decide_True.
  - destruct (decide (s = key)); [done | exact IH].
Qed.

Lemma select_after_insert key t :
  exists id, select_query_id key (cached_queries (insert_or_ignore_query key t)) = Some id.
Proof.
  unfold insert_or_ignore_query. cbn [cached_queries].
  destruct (select_query_id key (cached_queries t)) as [id|] eqn:Hsel; [eauto|].
  rewrite select_query_id_snoc. eauto.
Qed.

(** An insert that is ignored leaves the rows of the three tables alone. *)
Lemma insert_or_ignore_query_present key t id :
  select_query_id key (cached_queries t) = Some id ->
  same_rows (insert_or_ignore_query key t) t.
Proof.
  intros Hsel. unfold same_rows, insert_or_ignore_query. cbn. by rewrite Hsel.
Qed.

(** [save_query_and_properties] in one piece: the query row is committed
    before the loop starts, and a failure of the loop rolls back to that
    commit. *)
Lemma save_unfold lr key (properties : list pydict) (w : world) :
  save_query_and_properties lr key properties w =
  let t1 := insert_or_ignore_query key (working w) in
  match select_query_id key (cached_queries t1) with
  | None => (Raise TypeError, set_both w t1)
  | Some query_id =>
      match loop_tables lr query_id properties t1 with
      | (Ok _, t2) => (Ok tt, set_both w t2)
      | (Raise e, _) => (Raise e, set_both w t1)
      end
  end.
Proof.
  unfold save_query_and_properties, try_except, bind at 1.
  unfold execute at 1. unfold bind at 1. unfold commit at 1.
  unfold bind at 1. unfold select at 1. cbn [working committed upstream_calls].
  destruct (select_query_id key _) as [qid|]; cbn.
  - unfold bind. rewrite save_loop_tables. cbn.
    destruct (loop_tables lr qid properties _) as [[[]|e] t2]; reflexivity.
  - reflexivity.
Qed.

Lemma loop_tables_ok lr qid (properties : list pydict) (t t2 : tables) u :
  loop_tables lr qid properties t = (Ok u, t2) <->
  exists rs, rows_of lr properties = Ok rs /\ t2 = foldl (save_step qid) t rs.
Proof.
  revert t. induction properties as [|prop rest IH]; intros t; simpl.
  - destruct u. split.
    + intros [= <-]. by exists [].
    + intros (rs & [= <-] & ->). done.
  - unfold rows_of in *. simpl.
    destruct (property_row prop) as [r|e]; simpl.
    + rewrite IH. split.
      * intros (rs & -> & ->). simpl. eexists. split; [reflexivity|]. done.
      * intros (rs & Hrs & ->).
        destruct (mapM _ rest) as [rs'|]; simpl in Hrs; [|done].
        injection Hrs as <-. by exists rs'.
    + split; [done | intros (rs & [=] & _)].
Qed.

Lemma foldl_save_step_queries qid rs t :
  cached_queries (foldl (save_step qid) t rs) = cached_queries t /\
  cached_queries_seq (foldl (save_step qid) t rs) = cached_queries_seq t.
Proof.
  revert t. induction rs as [|ir rs IH]; intros t; simpl; [done|].
  destruct (IH (save_step qid t ir)) as [-> ->]. done.
Qed.

Lemma foldl_save_step_properties qid (rs : list (string * row)) t :
  cached_properties (foldl (save_step qid) t rs) =
  list_to_map (reverse rs) ∪ cached_properties t.
Proof.
  revert t. induction rs as [|[id r] rs IH]; intros t; simpl.
  - by rewrite (left_id_L ∅ (∪)).
  - rewrite IH. simpl. rewrite reverse_cons, list_to_map_app. simpl.
    rewrite <- (assoc_L (∪)). f_equal.
    rewrite insert_empty. by rewrite <- insert_union_singleton_l.
Qed.

Lemma foldl_save_step_links qid (rs : list (string * row)) t :
  query_property_map (foldl (save_step qid) t rs) =
  foldl (add_link qid) (query_property_map t) rs.*1.
Proof.
  revert t. induction rs as [|[id r] rs IH]; intros t; simpl; [done|].
  by rewrite IH.
Qed.

Lemma add_links_elem_of qid (ids : list string) links x :
  x ∈ foldl (add_link qid) links ids <->
  x ∈ links \/ exists id, id ∈ ids /\ x = (qid, id).
Proof.
  revert links. induction ids as [|id ids IH]; intros links; simpl.
  - split; [auto | intros [?|(? & ?%elem_of_nil & _)]; done].
  - rewrite IH. unfold add_link. case_bool_decide as Hin.
    + split.
      * intros [?|(i & ? & ->)]; [auto|]. right. exists i. split; [by right | done].
      * intros [?|(i & [->|?]%elem_of_cons & ->)]; [auto | auto |].
        right. by exists i.
    + rewrite elem_of_app, list_elem_of_singleton. split.
      * intros [[?| ->]|(i & ? & ->)]; [auto | |].
        -- right. exists id. split; [by left | done].
        -- right. exists i. split; [by right | done].
      * intros [?|(i & [->|?]%elem_of_cons & ->)]; [auto | auto |].
        right. by exists i.
Qed.

Lemma add_links_present qid (ids : list string) links :
  (forall id, id ∈ ids -> (qid, id) ∈ links) ->
  foldl (add_link qid) links ids = links.
Proof.
  induction ids as [|id ids IH]; intros Hall; simpl; [done|].
  unfold add_link at 2. rewrite bool_decide_true by (apply Hall; by left).
  apply IH. intros i Hi. apply Hall. by right.
Qed.

(** Running the rows of a save a second time changes no row. *)
Lemma foldl_save_step_again qid (rs : list (string * row)) (t t' : tables) :
  same_rows t' (foldl (save_step qid) t rs) ->
  same_rows (foldl (save_step qid) t' rs) (foldl (save_step qid) t rs).
Proof.
  intros (Hq & Hp & Hl). split_and!.
  - by rewrite (proj1 (foldl_save_step_queries qid rs t')).
  - rewrite (foldl_save_step_properties qid rs t'), Hp.
    rewrite foldl_save_step_properties.
    by rewrite (assoc_L (∪)), (idemp_L (∪)).
  - rewrite (foldl_save_step_links qid rs t'), Hl.
    apply add_links_present.
    intros id Hid. rewrite foldl_save_step_links.
    apply add_links_elem_of. right. by exists id.
Qed.

(** Whether the loop succeeds, and with which exception it fails, depends
    on the listings alone. *)
Lemma loop_tables_result lr qid (properties : list pydict) (t : tables) :
  (loop_tables lr qid properties t).1 =
  let? _ := rows_of lr properties in Ok tt.
Proof.
  revert t. unfold rows_of.
  induction properties as [|prop rest IH]; intros t; simpl; [done|].
  destruct (property_row prop) as [r|e]; simpl; [|done].
  rewrite IH. by destruct (mapM _ rest).
Qed.

Lemma rows_of_ids lr (properties : list pydict) rs :
  rows_of lr properties = Ok rs ->
  rs.*1 = (fun prop => py_str lr (get "id" prop)) <$> properties.
Proof.
  unfold rows_of. revert rs.
  induction properties as [|prop rest IH]; intros rs; simpl.
  - by intros [= <-].
  - destruct (property_row prop) as [r|]; simpl; [|done].
    destruct (mapM _ rest) as [rs'|]; simpl; [|done].
    intros [= <-]. simpl. f_equal. by apply IH.
Qed.

Lemma lookup_foldl_save_step_other qid (rs : list (string * row)) t id :
  id ∉ rs.*1 ->
  cached_properties (foldl (save_step qid) t rs) !! id = cached_properties t !! id.
Proof.
  intros Hid. rewrite foldl_save_step_properties.
  apply lookup_union_r. apply not_elem_of_dom. rewrite dom_list_to_map_L.
  by rewrite elem_of_list_to_set, fmap_reverse, elem_of_reverse.
Qed.

Lemma rows_of_app lr (l1 l2 : list pydict) rs :
  rows_of lr (l1 ++ l2) = Ok rs ->
  exists rs1 rs2, rows_of lr l1 = Ok rs1 /\ rows_of lr l2 = Ok rs2 /\ rs = rs1 ++ rs2.
Proof.
  unfold rows_of. revert rs. induction l1 as [|p l1 IH]; intros rs; simpl.
  - intros H. by exists [], rs.
  - destruct (property_row p) as [r|]; simpl; [|done].
    destruct (mapM _ (l1 ++ l2)) as [rs'|]; simpl; [|done].
    destruct (IH rs' eq_refl) as (rs1 & rs2 & -> & -> & ->).
    intros [= <-]. simpl. by eexists _, _.
Qed.

Lemma lookup_foldl_save_step_last qid (rs1 rs2 : list (string * row)) t id r :
  id ∉ rs2.*1 ->
  cached_properties (foldl (save_step qid) t (rs1 ++ (id, r) :: rs2)) !! id = Some r.
Proof.
  intros Hid. rewrite foldl_app. simpl.
  rewrite lookup_foldl_save_step_other by done. cbn. apply lookup_insert_eq.
Qed.

Lemma save_last_wins lr (key : string) (l1 l2 : list pydict) (prop : pydict)
    (w w' : world) :
  save_query_and_properties lr key (l1 ++ prop :: l2) w = (Ok tt, w') ->
  Forall (fun p => py_str lr (get "id" p) <> py_str lr (get "id" prop)) l2 ->
  exists r, property_row prop = Ok r /\
            cached_properties (committed w') !! py_str lr (get "id" prop) = Some r.
Proof.
  rewrite save_unfold. cbv zeta. intros Hsave Hl2.
  destruct (select_query_id key _) as [qid|] eqn:Hsel; [|done].
  destruct (loop_tables lr qid _ _) as [[u|e] t2] eqn:Hloop; [|done].
  injection Hsave as <-.
  apply loop_tables_ok in Hloop as (rs & Hrs & ->). cbn [set_both committed].
  apply rows_of_app in Hrs as (rs1 & rs2' & Hrs1 & Hrs2 & ->).
  change (prop :: l2) with ([prop] ++ l2) in Hrs2.
  apply rows_of_app in Hrs2 as (rsp & rs2 & Hrsp & Hrs2 & ->).
  unfold rows_of in Hrsp. simpl in Hrsp.
  destruct (property_row prop) as [r|]; simpl in Hrsp; [|done].
  injection Hrsp as <-. exists r. split; [done|].
  apply lookup_foldl_save_step_last.
  rewrite (rows_of_ids _ _ _ Hrs2). intros Hin.
  apply list_elem_of_fmap in Hin as (p & Heq & Hp).
  rewrite Forall_forall in Hl2. by apply (Hl2 p Hp).
Qed.

(** A second save of the same key and list changes no row. *)
Lemma second_save_changes_no_row lr (key : string) (properties : list pydict)
    (w : world) :
  let once := save_query_and_properties lr key properties w in
  let twice := save_query_and_properties lr key properties once.2 in
  twice.1 = once.1 /\
  same_rows (committed twice.2) (committed once.2) /\
  same_rows (working twice.2) (working once.2).
Proof.
  cbv zeta. rewrite (save_unfold lr key properties w). cbv zeta.
  set (t1 := insert_or_ignore_query key (working w)).
  destruct (select_after_insert key (working w)) as [qid Hqid].
  fold t1 in Hqid. rewrite Hqid.
  destruct (loop_tables lr qid properties t1) as [[u|e] t2] eqn:Hloop.
  - apply loop_tables_ok in Hloop as (rs & Hrs & ->).
    rewrite save_unfold. cbn [snd working set_both]. cbv zeta.
    set (t2 := foldl (save_step qid) t1 rs).
    assert (select_query_id key (cached_queries t2) = Some qid) as Hsel.
    { unfold t2. by rewrite (proj1 (foldl_save_step_queries _ _ _)). }
    pose proof (insert_or_ignore_query_present _ _ _ Hsel) as Hsame.
    rewrite (proj1 Hsame), Hsel.
    assert (loop_tables lr qid properties (insert_or_ignore_query key t2)
            = (Ok tt, foldl (save_step qid) (insert_or_ignore_query key t2) rs))
      as ->.
    { apply loop_tables_ok. by exists rs. }
    cbn [fst snd committed working set_both].
    pose proof (foldl_save_step_again qid rs t1 _ Hsame). done.
  - rewrite save_unfold. cbn [snd working set_both]. cbv zeta.
    pose proof (insert_or_ignore_query_present _ _ _ Hqid) as Hsame.
    rewrite (proj1 Hsame), Hqid.
    pose proof (loop_tables_result lr qid properties t1) as Hres.
    pose proof (loop_tables_result lr qid properties
                  (insert_or_ignore_query key t1)) as Hres'.
    rewrite Hloop in Hres. cbn [fst] in Hres. rewrite <- Hres in Hres'.
    destruct (loop_tables lr qid properties (insert_or_ignore_query key t1))
      as [r' t2']. cbn [fst] in Hres'. subst r'.
    cbn [fst snd committed working set_both]. done.
Qed.

(** After a successful save the key has its query row, every listing of the
    list is linked to it, and the row of a listing that no later listing
    of the list shadows holds the values bound for that listing. *)
Lemma save_stores_the_listings lr (key : string) (properties : list pydict)
    (w w' : world) :
  save_query_and_properties lr key properties w = (Ok tt, w') ->
  exists query_id,
    select_query_id key (cached_queries (committed w')) = Some query_id /\
    forall l1 prop l2,
      properties = l1 ++ prop :: l2 ->
      Forall (fun p => py_str lr (get "id" p) <> py_str lr (get "id" prop)) l2 ->
      (query_id, py_str lr (get "id" prop)) ∈ query_property_map (committed w') /\
      exists r, property_row prop = Ok r /\
                cached_properties (committed w') !! py_str lr (get "id" prop)
                = Some r.
Proof.
  intros Hsave. pose proof Hsave as Hsave'. revert Hsave'.
  rewrite save_unfold. cbv zeta.
  destruct (select_query_id key _) as [qid|] eqn:Hsel; [|done].
  destruct (loop_tables lr qid _ _) as [[u|e] t2] eqn:Hloop; [|done].
  intros [= <-]. apply loop_tables_ok in Hloop as (rs & Hrs & ->).
  exists qid. cbn [set_both committed]. split.
  { by rewrite (proj1 (foldl_save_step_queries _ _ _)). }
  intros l1 prop l2 -> Hl2. split.
  - rewrite foldl_save_step_links. apply add_links_elem_of. right.
    exists (py_str lr (get "id" prop)). split; [|done].
    rewrite (rows_of_ids _ _ _ Hrs), fmap_app, fmap_cons.
    apply elem_of_app. right. by left.
  - destruct (save_last_wins lr key l1 l2 prop w _ Hsave Hl2) as (r & Hr & Hrow).
    exists r. split; [done|]. revert Hrow. rewrite save_unfold in Hsave. done.
Qed.

(** C5, as the code has it. A second save of the same key and list
    returns what the first returned and leaves the rows of the three tables
    as the first left them: no new query row, no new link. After a
    successful save the key has its query row, each listing of the list is
    linked to it, and each property row holds the values of the last
    listing of the list with its id. What the second save does change is
    bookkeeping, see [save_twice_counterexample]. *)
Theorem save_twice_is_save_once lr (key : string) (properties : list pydict)
    (w : world) :
  let once := save_query_and_properties lr key properties w in
  let twice := save_query_and_properties lr key properties once.2 in
  twice.1 = once.1 /\
  same_rows (committed twice.2) (committed once.2) /\
  same_rows (working twice.2) (working once.2) /\
  (once.1 = Ok tt ->
   exists query_id,
     select_query_id key (cached_queries (committed twice.2)) = Some query_id /\
     forall l1 prop l2,
       properties = l1 ++ prop :: l2 ->
       Forall (fun p => py_str lr (get "id" p) <> py_str lr (get "id" prop)) l2 ->
       (query_id, py_str lr (get "id" prop))
         ∈ query_property_map (committed twice.2) /\
       exists r, property_row prop = Ok r /\
                 cached_properties (committed twice.2) !! py_str lr (get "id" prop)
                 = Some r).
Proof.
  cbv zeta.
  destruct (second_save_changes_no_row lr key properties w)
    as (Hres & (Hq & Hp & Hl) & Hworking).
  split_and!; [done | done | done |].
  intros Honce. rewrite Hq, Hp, Hl.
  apply (save_stores_the_listings lr key properties w).
  by destruct (save_query_and_properties lr key properties w) as [[[]|] w1];
    simplify_eq/=.
Qed.

Lemma save_twice_is_save_once_witness :
  exists r,
    property_row villa_a_repriced = Ok r /\
    cached_properties
      (committed
         (save_query_and_properties no_repr "page=1"
            [villa_a; villa_a_repriced; villa_b]
            (save_query_and_properties no_repr "page=1"
               [villa_a; villa_a_repriced; villa_b]
               (fresh_world empty_tables)).2).2) !! "7001" = Some r.
Proof.
  destruct (save_twice_is_save_once no_repr "page=1"
              [villa_a; villa_a_repriced; villa_b] (fresh_world empty_tables))
    as (_ & _ & _ & Hrows).
  destruct (Hrows eq_refl) as (query_id & _ & Hrow).
  apply (Hrow [villa_a] villa_a_repriced [villa_b] eq_refl).
  repeat constructor. vm_compute. discriminate.
Defined.

(** The claim as stated fails: the store is not left in the same state. The
    second save draws an id from the AUTOINCREMENT counter of
    [cached_queries], so the next query to be saved gets the id 3 instead
    of 2. *)
Lemma save_twice_counterexample :
  let once :=
    (save_query_and_properties no_repr "page=1" [villa_a]
       (fresh_world empty_tables)).2 in
  let twice := (save_query_and_properties no_repr "page=1" [villa_a] once).2 in
  committed twice <> committed once /\
  cached_queries (committed (save_query_and_properties no_repr "page=2" [] once).2)
  = [(1%Z, "page=1"); (2%Z, "page=2")] /\
  cached_queries (committed (save_query_and_properties no_repr "page=2" [] twice).2)
  = [(1%Z, "page=1"); (3%Z, "page=2")].
Proof.
  cbv zeta. split_and!; try (vm_compute; reflexivity).
  intros H. apply (f_equal cached_queries_seq) in H. vm_compute in H. discriminate H.
Qed.

(** What a failed save leaves behind: the state is the one committed right
    after the query row was inserted, so the property and link rows written
    by the call are gone, but the query row stays. *)
Lemma save_failure_state lr key (properties : list pydict) (w w' : world) e :
  save_query_and_properties lr key properties w = (Raise e, w') ->
  w' = set_both w (insert_or_ignore_query key (working w)).
Proof.
  rewrite save_unfold. cbv zeta.
  destruct (select_query_id key _); [|by intros [= _ <-]].
  destruct (loop_tables lr _ properties _) as [[u|e'] t2]; [done|].
  by intros [= _ <-].
Qed.

Lemma save_failure_keeps_rows lr key (properties : list pydict) (t : tables)
    (w' : world) e :
  save_query_and_properties lr key properties (fresh_world t) = (Raise e, w') ->
  cached_properties (committed w') = cached_properties t /\
  query_property_map (committed w') = query_property_map t.
Proof.
  by intros ->%save_failure_state.
Qed.

(** C1, on the code. A save that fails while writing the second listing
    raises, and rolls back the property and link rows, but the query row,
    committed before the loop, persists: the store is not the one before
    the call. *)
Theorem failed_save_leaves_the_query_row :
  let before := fresh_world empty_tables in
  let after :=
    save_query_and_properties no_repr (cache_key scenario_A 1 50)
      [villa_a; villa_overflow] before in
  after.1 = Raise OverflowError /\
  cached_queries (committed after.2) = [(1%Z, cache_key scenario_A 1 50)] /\
  committed after.2 <> committed before /\
  cached_properties (committed after.2) = ∅ /\
  query_property_map (committed after.2) = [].
Proof.
  cbv zeta. repeat split; try (vm_compute; reflexivity).
  intros H. apply (f_equal cached_queries) in H. vm_compute in H. discriminate H.
Qed.

(** After that failure the key counts as cached: the same search is a hit,
    returns no listing and never reaches the listing source. *)
Example failed_save_poisons_the_cache (pf : pydict -> result (list pydict)) :
  let after :=
    (save_query_and_properties no_repr (cache_key scenario_A 1 50)
       [villa_a; villa_overflow] (fresh_world empty_tables)).2 in
  (search_properties no_repr by_property_id pf scenario_A 1 50 after).1 = Ok [] /\
  upstream_calls (search_properties no_repr by_property_id pf scenario_A 1 50 after).2 = 0.
Proof. cbv zeta. split; vm_compute; reflexivity. Qed.

(** ** The search *)

Lemma get_properties_for_query_state ro id w :
  (get_properties_for_query ro id w).2 = w.
Proof. reflexivity. Qed.

Lemma search_unfold lr ro pf filters page limit (w : world) :
  search_properties lr ro pf filters page limit w =
  let cleaned_filters := with_pagination (clean_filters filters) page limit in
  let query_string := cache_key filters page limit in
  match select_query_id query_string (cached_queries (working w)) with
  | Some id =>
      if negb (id =? 0)%Z
      then (let? properties_data := (get_properties_for_query ro id w).1 in
            Ok (paginate properties_data page limit), w)
      else fetch_live lr pf cleaned_filters query_string w
  | None => fetch_live lr pf cleaned_filters query_string w
  end.
Proof.
  unfold search_properties, cache_key, bind at 1, find_cached_query, select at 1.
  cbv zeta.
  destruct (select_query_id _ _) as [id|]; [|reflexivity].
  destruct (negb (id =? 0)%Z); [|reflexivity].
  unfold bind, get_properties_for_query, select, lift, ret. cbn.
  by destruct (mapM _ _).
Qed.

Lemma paginate_valid {A} (data : list A) (page limit : Z) :
  (1 <= page)%Z -> (1 <= limit)%Z ->
  paginate data page limit =
  take (Z.to_nat limit) (drop (Z.to_nat ((page - 1) * limit)) data).
Proof.
  intros Hpage Hlimit. unfold paginate, py_slice, slice_index. cbv zeta.
  set (start := ((page - 1) * limit)%Z).
  assert (0 <= start)%Z as Hstart by (unfold start; nia).
  rewrite !(proj2 (Z.ltb_ge _ 0)) by lia.
  destruct (Z.le_gt_cases (Z.of_nat (length data)) start) as [Hout|Hin].
  - rewrite !drop_ge by lia. by rewrite !take_nil.
  - rewrite (Z.min_l start) by lia.
    destruct (Z.le_gt_cases (start + limit) (Z.of_nat (length data))) as [Hfit|Hclip].
    + rewrite Z.min_l by lia. f_equal. lia.
    + rewrite Z.min_r by lia.
      rewrite !take_ge; [done | |]; rewrite length_drop; lia.
Qed.

(** C9, as the code has it. The cache-hit branch never checks the page
    number or the page size: whatever they are, it returns the Python slice
    [data[start:end]] of the stored rows and raises nothing. For a page
    number and a page size of at least one, that slice starts at
    [(page - 1) * limit], has at most [limit] rows and is clipped to the
    bounds of the stored sequence. *)
Theorem pagination_slices_without_validation lr ro pf (filters : pydict)
    (page limit : Z) (w : world) (id : Z) (data : list pydict) :
  select_query_id (cache_key filters page limit) (cached_queries (working w))
    = Some id ->
  id <> 0%Z ->
  (get_properties_for_query ro id w).1 = Ok data ->
  search_properties lr ro pf filters page limit w
    = (Ok (paginate data page limit), w) /\
  ((1 <= page)%Z -> (1 <= limit)%Z ->
   paginate data page limit =
   take (Z.to_nat limit) (drop (Z.to_nat ((page - 1) * limit)) data)).
Proof.
  intros Hsel Hid Hdata. split; [|apply paginate_valid].
  rewrite search_unfold. cbv zeta. rewrite Hsel.
  rewrite (proj2 (Z.eqb_neq id 0) Hid). cbn [negb]. by rewrite Hdata.
Qed.

Lemma pagination_slices_without_validation_witness :
  search_properties no_repr by_property_id three_villas scenario_A 2 2
    (after_first_search scenario_A 2 2)
  = (Ok (paginate [stored_a; stored_b; stored_c] 2 2),
     after_first_search scenario_A 2 2) /\
  paginate [stored_a; stored_b; stored_c] 2 2 = [stored_c].
Proof.
  destruct (pagination_slices_without_validation no_repr by_property_id three_villas
              scenario_A 2 2 (after_first_search scenario_A 2 2) 1
              [stored_a; stored_b; stored_c])
    as [Hsearch Hslice]; [vm_compute; reflexivity | lia | vm_compute; reflexivity |].
  split; [exact Hsearch|]. rewrite Hslice by lia. reflexivity.
Defined.

(** The claim as stated fails: a page size of [-1] and a page number of [0]
    are accepted, and the search returns a slice of the stored rows (all but
    the last one, and none) instead of failing. *)
Lemma pagination_counterexample :
  (search_properties no_repr by_property_id three_villas scenario_A 1 (-1)
     (after_first_search scenario_A 1 (-1))).1
  = Ok [stored_a; stored_b] /\
  (search_properties no_repr by_property_id three_villas scenario_A 0 50
     (after_first_search scenario_A 0 50)).1
  = Ok [].
Proof. split; vm_compute; reflexivity. Qed.

Lemma fetch_live_unfold lr pf (c : pydict) key (w : world) :
  fetch_live lr pf c key w =
  let c' := upstream_filters c in
  match pf c' with
  | Raise e => (Raise e, count_call w)
  | Ok properties =>
      let saved :=
        if negb (bool_decide (properties = []))
        then save_query_and_properties lr key properties (count_call w)
        else (Ok tt, count_call w) in
      match saved.1 with
      | Raise e => (Raise e, saved.2)
      | Ok _ =>
          (if negb (is_none (get "min_price" c')) || negb (is_none (get "max_price" c'))
           then price_filter (get "min_price" c') (get "max_price" c') properties
           else Ok properties, saved.2)
      end
  end.
Proof.
  unfold fetch_live, bind at 1, call_upstream. cbv zeta. fold (count_call w).
  destruct (pf (upstream_filters c)) as [properties|e]; [|reflexivity].
  unfold bind.
  destruct (negb (bool_decide (properties = []))).
  - destruct (save_query_and_properties lr key properties (count_call w))
      as [[u|e] w']; [|reflexivity].
    cbn [fst snd]. by destruct (_ || _).
  - cbn. by destruct (_ || _).
Qed.

Lemma save_upstream_calls lr key (properties : list pydict) w :
  upstream_calls (save_query_and_properties lr key properties w).2 =
  upstream_calls w.
Proof.
  rewrite save_unfold. cbv zeta.
  destruct (select_query_id key _); [|reflexivity].
  by destruct (loop_tables lr _ properties _) as [[|] ?].
Qed.

(** Every miss costs exactly one call to the listing source. *)
Lemma fetch_live_upstream_calls lr pf (c : pydict) key w :
  upstream_calls (fetch_live lr pf c key w).2 = S (upstream_calls w).
Proof.
  rewrite fetch_live_unfold. cbv zeta.
  destruct (pf _) as [properties|e]; [|reflexivity].
  destruct (negb (bool_decide (properties = []))).
  - pose proof (save_upstream_calls lr key properties (count_call w)) as Hcalls.
    destruct (save_query_and_properties lr key properties (count_call w))
      as [[u|e] w']; exact Hcalls.
  - reflexivity.
Qed.

Lemma price_filter_nil mn mx : price_filter mn mx [] = Ok [].
Proof. reflexivity. Qed.

(** C10. When the lookup misses and the listing source returns no listing,
    the search returns the empty list and writes nothing: the state differs
    from the one before only by the counted call. The same search, issued
    again with whatever answer the listing source then gives, therefore
    misses again and calls the listing source once more. *)
Theorem empty_upstream_result_is_not_cached lr ro pf pf' (filters : pydict)
    (page limit : Z) (w : world) :
  (forall id,
     select_query_id (cache_key filters page limit) (cached_queries (working w))
       = Some id -> id = 0%Z) ->
  pf (upstream_filters (with_pagination (clean_filters filters) page limit))
    = Ok [] ->
  search_properties lr ro pf filters page limit w = (Ok [], count_call w) /\
  committed (count_call w) = committed w /\
  working (count_call w) = working w /\
  upstream_calls (search_properties lr ro pf' filters page limit (count_call w)).2
    = S (S (upstream_calls w)).
Proof.
  intros Hmiss Hempty.
  assert (forall pf0 w0, working w0 = working w ->
            search_properties lr ro pf0 filters page limit w0 =
            fetch_live lr pf0 (with_pagination (clean_filters filters) page limit)
              (cache_key filters page limit) w0) as Hlive.
  { intros pf0 w0 Hw0. rewrite search_unfold. cbv zeta. rewrite Hw0.
    destruct (select_query_id _ _) as [id|] eqn:Hsel; [|reflexivity].
    by rewrite (Hmiss id eq_refl). }
  repeat split.
  - rewrite (Hlive pf w eq_refl), fetch_live_unfold. cbv zeta. rewrite Hempty.
    cbn. by destruct (_ || _).
  - rewrite (Hlive pf' (count_call w) eq_refl).
    by rewrite fetch_live_upstream_calls.
Qed.

Lemma empty_upstream_result_is_not_cached_witness :
  search_properties no_repr by_property_id (fun _ => Ok []) scenario_A 1 50
    (fresh_world empty_tables)
  = (Ok [], count_call (fresh_world empty_tables)) /\
  upstream_calls
    (search_properties no_repr by_property_id three_villas scenario_A 1 50
       (count_call (fresh_world empty_tables))).2 = 2.
Proof.
  destruct (empty_upstream_result_is_not_cached no_repr by_property_id (fun _ => Ok [])
              three_villas scenario_A 1 50 (fresh_world empty_tables))
    as (Hsearch & _ & _ & Hagain); [discriminate | reflexivity |].
  split; [exact Hsearch | exact Hagain].
Defined.

(** The links written for one query, starting from the links [acc] of that
    query: one link per distinct id. *)
Lemma add_links_distinct qid (ids acc : list string) :
  NoDup acc ->
  exists ids',
    foldl (add_link qid) ((fun id => (qid, id)) <$> acc) ids
      = (fun id => (qid, id)) <$> ids' /\
    NoDup ids' /\
    forall x, x ∈ ids' <-> x ∈ acc \/ x ∈ ids.
Proof.
  revert acc. induction ids as [|id ids IH]; intros acc Hacc; simpl.
  - exists acc. split_and!; [done | done |]. intros x. rewrite elem_of_nil. tauto.
  - unfold add_link at 2. case_bool_decide as Hin.
    + destruct (IH acc Hacc) as (ids' & Heq & Hnd & Hel).
      exists ids'. split_and!; [done | done |].
      intros x. rewrite Hel, elem_of_cons.
      apply list_elem_of_fmap in Hin as (i & [= ->] & Hi).
      split; [tauto|]. intros [?|[->|?]]; auto.
    + assert (id ∉ acc) as Hfresh.
      { intros Hid. apply Hin. apply list_elem_of_fmap. eauto. }
      destruct (IH (acc ++ [id])) as (ids' & Heq & Hnd & Hel).
      { apply NoDup_app. split_and!; [done | | apply NoDup_singleton].
        intros x Hx ->%list_elem_of_singleton. done. }
      exists ids'. rewrite fmap_app in Heq. split_and!; [done | done |].
      intros x. rewrite Hel, elem_of_app, list_elem_of_singleton, elem_of_cons.
      tauto.
Qed.

Lemma omap_lookup_ids (m : gmap string row) (links : list (Z * string)) :
  (forall link, link ∈ links -> is_Some (m !! link.2)) ->
  (omap (fun link : Z * string => (fun r => (link.2, r)) <$> m !! link.2) links).*1
  = links.*2.
Proof.
  induction links as [|link links IH]; intros Hall; [done|].
  cbn [omap list_omap]. destruct (Hall link) as [r Hr]; [by left|].
  rewrite Hr. cbn [fmap option_fmap option_map]. rewrite !fmap_cons. f_equal.
  apply IH. intros l Hl. apply Hall. by right.
Qed.

Lemma filter_links_of_query qid (ids : list string) :
  List.filter (fun link : Z * string => bool_decide (link.1 = qid))
    ((fun id => (qid, id)) <$> ids)
  = (fun id => (qid, id)) <$> ids.
Proof.
  induction ids as [|id ids IH]; [done|].
  rewrite fmap_cons. cbn [List.filter fst]. rewrite bool_decide_true by done.
  by rewrite IH.
Qed.

(** Whatever the order of the rows, the join returns one row for each link
    of the query. *)
Lemma select_properties_of_links ro qid (ids : list string) (t : tables) :
  (forall l, ro l ≡ₚ l) ->
  query_property_map t = (fun id => (qid, id)) <$> ids ->
  (forall id, id ∈ ids -> is_Some (cached_properties t !! id)) ->
  (select_properties_of_query ro qid t).*1 ≡ₚ ids.
Proof.
  intros Hro Hlinks Hall. unfold select_properties_of_query.
  rewrite Hlinks, filter_links_of_query.
  rewrite omap_lookup_ids.
  - rewrite (Hro _). clear.
    assert (((fun id => (qid, id)) <$> ids).*2 = ids) as ->; [|done].
    induction ids as [|id ids IH]; [done|]. rewrite !fmap_cons. by f_equal.
  - intros link Hlink. rewrite (Hro _) in Hlink.
    apply list_elem_of_fmap in Hlink as (id & -> & Hid). by apply Hall.
Qed.

Lemma with_image_list_id id r (prop : pydict) :
  with_image_list (dict_of_row id r) = Ok prop -> get "id" prop = Sc (SStr id).
Proof.
  unfold with_image_list.
  destruct (all_image_urls_list _) as [urls|]; simpl; [|done].
  by intros [= <-].
Qed.

Lemma stored_rows_ids (sel : list (string * row)) (rows : list pydict) :
  mapM (fun r : string * row => with_image_list (dict_of_row r.1 r.2)) sel = Ok rows ->
  get "id" <$> rows = (fun id => Sc (SStr id)) <$> sel.*1.
Proof.
  revert rows. induction sel as [|[id r] sel IH]; intros rows; simpl.
  - by intros [= <-].
  - destruct (with_image_list (dict_of_row id r)) as [prop|] eqn:Hprop; simpl; [|done].
    destruct (mapM _ sel) as [rows'|]; simpl; [|done].
    intros [= <-]. rewrite fmap_cons. f_equal.
    + by apply with_image_list_id in Hprop.
    + by apply IH.
Qed.

Lemma lookup_foldl_save_step qid (rs : list (string * row)) t id :
  id ∈ rs.*1 -> is_Some (cached_properties (foldl (save_step qid) t rs) !! id).
Proof.
  intros Hid. rewrite foldl_save_step_properties.
  apply lookup_union_is_Some. left.
  apply elem_of_dom. rewrite dom_list_to_map_L.
  apply elem_of_list_to_set. by rewrite fmap_reverse, elem_of_reverse.
Qed.

(** The state in which a successful first search on an empty cache leaves
    the store. *)
Lemma first_search_state lr ro pf (filters : pydict) (page limit : Z)
    (r1 : list pydict) (w1 : world) :
  search_properties lr ro pf filters page limit (fresh_world empty_tables)
    = (Ok r1, w1) ->
  r1 <> [] ->
  exists properties rs,
    pf (upstream_filters (with_pagination (clean_filters filters) page limit))
      = Ok properties /\
    rows_of lr properties = Ok rs /\
    w1 = set_both (count_call (fresh_world empty_tables))
           (foldl (save_step 1)
              (insert_or_ignore_query (cache_key filters page limit) empty_tables)
              rs).
Proof.
  rewrite search_unfold. cbv zeta. cbn [fresh_world working empty_tables
    cached_queries select_query_id].
  rewrite fetch_live_unfold. cbv zeta.
  destruct (pf _) as [properties|e]; [|done].
  case_bool_decide as Hnil; cbn [negb].
  { subst properties. cbn. destruct (_ || _); intros [= <- _]; done. }
  rewrite save_unfold. cbv zeta.
  change (working (count_call (fresh_world empty_tables))) with empty_tables.
  change (select_query_id (cache_key filters page limit)
            (cached_queries
               (insert_or_ignore_query (cache_key filters page limit) empty_tables)))
    with (if decide (cache_key filters page limit = cache_key filters page limit)
          then Some 1%Z else None).
  rewrite decide_True by done.
  destruct (loop_tables lr 1 properties _) as [[u|e] t2] eqn:Hloop; [|done].
  apply loop_tables_ok in Hloop as (rs & Hrs & ->).
  cbn [fst snd]. intros Hres _.
  exists properties, rs. split_and!; [done | done |].
  by destruct (_ || _); injection Hres as _ <-.
Qed.

(** The second search in general. After a first search on an empty cache
    that returned listings, the same search makes no call to the listing source
    and leaves the state as it is; it returns the page
    [(page - 1) * limit .. page * limit] of the rows stored under the key,
    and, in whatever order the database returns them, those rows are the
    ones saved from the answer of the listing source: exactly one row for
    each distinct id of that answer. *)
Lemma second_search_is_served_from_cache lr ro pf pf' (filters : pydict)
    (page limit : Z) (r1 : list pydict) (w1 : world) :
  (forall links, ro links ≡ₚ links) ->
  search_properties lr ro pf filters page limit (fresh_world empty_tables)
    = (Ok r1, w1) ->
  r1 <> [] ->
  exists properties,
    pf (upstream_filters (with_pagination (clean_filters filters) page limit))
      = Ok properties /\
    upstream_calls w1 = 1 /\
    search_properties lr ro pf' filters page limit w1
      = ((let? rows := (get_properties_for_query ro 1 w1).1 in
          Ok (paginate rows page limit)), w1) /\
    forall rows,
      (get_properties_for_query ro 1 w1).1 = Ok rows ->
      NoDup (get "id" <$> rows) /\
      forall v, v ∈ get "id" <$> rows <->
                exists prop, prop ∈ properties /\
                             v = Sc (SStr (py_str lr (get "id" prop))).
Proof.
  intros Hro Hfirst Hne.
  destruct (first_search_state _ _ _ _ _ _ _ _ Hfirst Hne)
    as (properties & rs & Hpf & Hrs & ->).
  exists properties. split_and!; [done | reflexivity | |].
  - rewrite search_unfold. cbv zeta. cbn [set_both working].
    rewrite (proj1 (foldl_save_step_queries _ _ _)).
    cbn [insert_or_ignore_query empty_tables cached_queries select_query_id app].
    by rewrite decide_True.
  - intros rows Hrows.
    set (t2 := foldl (save_step 1)
                 (insert_or_ignore_query (cache_key filters page limit) empty_tables)
                 rs) in *.
    destruct (add_links_distinct 1 rs.*1 [] (NoDup_nil_2)) as (ids & Hlinks & Hnd & Hel).
    assert (query_property_map t2 = (fun id => (1%Z, id)) <$> ids) as Hmap.
    { unfold t2. rewrite foldl_save_step_links. exact Hlinks. }
    assert ((select_properties_of_query ro 1 t2).*1 ≡ₚ ids) as Hsel.
    { apply select_properties_of_links; [done | done |].
      intros id Hid. apply lookup_foldl_save_step. apply Hel in Hid as [Hid|Hid]; [|done].
      by apply elem_of_nil in Hid. }
    unfold get_properties_for_query, bind, select, lift in Hrows.
    cbn [fst set_both working] in Hrows. fold t2 in Hrows.
    apply stored_rows_ids in Hrows. rewrite Hrows. split.
    + apply NoDup_fmap_2; [by intros x y [= ->]|]. by rewrite Hsel.
    + intros v. rewrite list_elem_of_fmap. setoid_rewrite Hsel. split.
      * intros (id & -> & Hid). apply Hel in Hid as [Hid|Hid];
          [by apply elem_of_nil in Hid|].
        rewrite (rows_of_ids _ _ _ Hrs) in Hid.
        apply list_elem_of_fmap in Hid as (prop & -> & Hprop). eauto.
      * intros (prop & Hprop & ->). eexists. split; [reflexivity|].
        apply Hel. right. rewrite (rows_of_ids _ _ _ Hrs).
        apply list_elem_of_fmap. eauto.
Qed.

(** C2, on the code. With [max_price=10000000], the first search fetches
    three villas, saves all three and returns the two within the bound.
    The same search again is served from the store, without a call to the
    listing source and without a change of state, as the claim says; but it
    returns all three stored rows, the villa of 12000000 among them: the
    hit branch does not apply the price filter that the miss branch
    applied, so the result set is not that of the first call. *)
Theorem repeated_search_skips_the_price_filter :
  let first :=
    search_properties no_repr by_property_id three_villas scenario_A 1 50
      (fresh_world empty_tables) in
  let second :=
    search_properties no_repr by_property_id (fun _ => Raise UpstreamFetchError)
      scenario_A 1 50 first.2 in
  get "max_price" scenario_A = Sc (SInt 10000000) /\
  first.1 = Ok [villa_a; villa_c] /\
  upstream_calls first.2 = 1 /\
  second.2 = first.2 /\
  exists rows,
    second.1 = Ok rows /\
    get "id" <$> rows = [Sc (SStr "7001"); Sc (SStr "7002"); Sc (SStr "7003")] /\
    get "price" <$> rows
    = [Sc (SInt 9500000); Sc (SInt 12000000); Sc (SInt 4000000)].
Proof.
  cbv zeta. split_and!; try (vm_compute; reflexivity).
  exists [stored_a; stored_b; stored_c]. split_and!; vm_compute; reflexivity.
Qed.

(** The two calls differ in a second way: the first returns everything it
    fetched, the second a page. With a page size of two and no price bound
    the first search returns three listings, the second one two rows. *)
Example repeated_search_returns_a_page :
  let first :=
    search_properties no_repr by_property_id three_villas
      [("purpose", Sc (SStr "sale"))] 1 2 (fresh_world empty_tables) in
  let second :=
    search_properties no_repr by_property_id three_villas
      [("purpose", Sc (SStr "sale"))] 1 2 first.2 in
  first.1 = Ok [villa_a; villa_b; villa_c] /\
  second.1 = Ok [stored_a; stored_b].
Proof. cbv zeta. split; vm_compute; reflexivity. Qed.

(** ** The cache key *)

Global Instance item_le_transitive : Transitive item_le.
Proof. intros a b c. unfold item_le. apply transitivity. Qed.

Global Instance item_le_total : Total item_le.
Proof. intros a b. unfold item_le. apply total, _. Qed.

Lemma same_key_same_item (d : pydict) (a b : string * pyval) :
  NoDup d.*1 -> a ∈ d -> b ∈ d -> a.1 = b.1 -> a = b.
Proof.
  induction d as [|c d IH]; intros Hnd Ha Hb Hkey.
  - by apply elem_of_nil in Ha.
  - rewrite fmap_cons in Hnd. apply NoDup_cons in Hnd as [Hc Hnd].
    apply elem_of_cons in Ha as [->|Ha], Hb as [->|Hb]; [done | | |by apply IH].
    + exfalso. apply Hc. rewrite Hkey. by apply list_elem_of_fmap_2.
    + exfalso. apply Hc. rewrite <- Hkey. by apply list_elem_of_fmap_2.
Qed.

(** Two dicts with the same items are sorted into the same list. *)
Lemma sorted_unique (d d' : pydict) :
  NoDup d.*1 -> d ≡ₚ d' -> sorted d = sorted d'.
Proof.
  intros Hnd Hperm. unfold sorted.
  apply (StronglySorted_unique_strong item_le).
  - intros a b Ha Hb Hab Hba.
    apply (same_key_same_item d); [done | | |].
    + by rewrite <- (merge_sort_Permutation item_le d).
    + by rewrite Hperm, <- (merge_sort_Permutation item_le d').
    + unfold item_le in *. by apply (anti_symm String.le).
  - apply StronglySorted_merge_sort; apply _.
  - apply StronglySorted_merge_sort; apply _.
  - by rewrite !merge_sort_Permutation.
Qed.

Lemma dict_del_absent k (d : pydict) : k ∉ d.*1 -> dict_del k d = d.
Proof.
  induction d as [|[k' v] d IH]; [done|]. rewrite fmap_cons, not_elem_of_cons.
  intros [Hne Hd]. unfold dict_del in *. simpl in *.
  rewrite bool_decide_false by congruence. simpl. by rewrite IH.
Qed.

Lemma dict_set_perm k v (d : pydict) :
  NoDup d.*1 -> dict_set k v d ≡ₚ (k, v) :: dict_del k d.
Proof.
  induction d as [|[k' v'] d IH]; intros Hnd; [done|].
  rewrite fmap_cons in Hnd. apply NoDup_cons in Hnd as [Hk' Hnd]. simpl.
  destruct (decide (k = k')) as [->|Hne].
  - unfold dict_del. simpl. rewrite bool_decide_true by done. simpl.
    fold (dict_del k' d). by rewrite dict_del_absent.
  - unfold dict_del. simpl. rewrite bool_decide_false by congruence.
    simpl. fold (dict_del k d). rewrite (IH Hnd). apply perm_swap.
Qed.

Lemma dict_set_keys_NoDup k v (d : pydict) :
  NoDup d.*1 -> NoDup (dict_set k v d).*1.
Proof.
  induction d as [|[k' v'] d IH]; intros Hnd; simpl.
  - apply NoDup_singleton.
  - rewrite fmap_cons in Hnd. apply NoDup_cons in Hnd as [Hk' Hnd].
    destruct (decide (k = k')) as [->|Hne]; rewrite fmap_cons; simpl.
    + by apply NoDup_cons.
    + apply NoDup_cons. split; [|by apply IH].
      intros Hin. apply Hk'.
      clear -Hin Hne. induction d as [|[k'' v''] d IH]; simpl in *.
      * apply list_elem_of_singleton in Hin. congruence.
      * destruct (decide (k = k'')); rewrite fmap_cons in *; simpl in *.
        -- apply elem_of_cons in Hin as [->|Hin]; [done|]. by right.
        -- apply elem_of_cons in Hin as [->|Hin]; [by left|]. right. by apply IH.
Qed.

Lemma dict_del_perm k (d d' : pydict) : d ≡ₚ d' -> dict_del k d ≡ₚ dict_del k d'.
Proof.
  intros Hperm. unfold dict_del.
  induction Hperm as [|x l l' _ IH|x y l|l l' l'' _ IH1 _ IH2]; simpl.
  - done.
  - destruct (negb _); [by apply perm_skip | done].
  - destruct (negb _), (negb _); try done. apply perm_swap.
  - by etrans.
Qed.

Lemma with_pagination_perm (d d' : pydict) page limit :
  NoDup d.*1 -> NoDup d'.*1 -> d ≡ₚ d' ->
  with_pagination d page limit ≡ₚ with_pagination d' page limit.
Proof.
  intros Hnd Hnd' Hperm. unfold with_pagination.
  rewrite (dict_set_perm "limit" _ (dict_set "page" _ d))
    by (by apply dict_set_keys_NoDup).
  rewrite (dict_set_perm "limit" _ (dict_set "page" _ d'))
    by (by apply dict_set_keys_NoDup).
  apply perm_skip, dict_del_perm.
  rewrite (dict_set_perm "page" _ d), (dict_set_perm "page" _ d') by done.
  by apply perm_skip, dict_del_perm.
Qed.

Lemma clean_filters_keys_NoDup (filters : pydict) :
  NoDup filters.*1 -> NoDup (clean_filters filters).*1.
Proof.
  intros Hnd. eapply sublist_NoDup; [exact Hnd|].
  apply fmap_sublist. unfold clean_filters. clear Hnd.
  induction filters as [|kv d IH]; simpl; [done|].
  destruct (_ && _); [by apply sublist_skip | by apply sublist_cons].
Qed.

(** C4. Two filter dicts whose cleaned items are the same, in whatever
    order the keys were inserted, get the same cache key for the same page
    and limit. *)
Theorem cache_key_is_order_insensitive (filtersA filtersB : pydict)
    (page limit : Z) :
  NoDup filtersA.*1 -> NoDup filtersB.*1 ->
  clean_filters filtersA ≡ₚ clean_filters filtersB ->
  cache_key filtersA page limit = cache_key filtersB page limit.
Proof.
  intros HA HB Hperm. unfold cache_key. f_equal.
  apply sorted_unique.
  - unfold with_pagination.
    by apply dict_set_keys_NoDup, dict_set_keys_NoDup, clean_filters_keys_NoDup.
  - apply with_pagination_perm; [by apply clean_filters_keys_NoDup.. | done].
Qed.

Lemma cache_key_is_order_insensitive_witness :
  cache_key
    [("query", Sc (SStr "Victory Heights")); ("purpose", Sc (SStr "sale"));
     ("property_type", Sc (SStr "")); ("beds", Li [SStr "5"; SStr "6"]);
     ("max_price", Sc (SInt 10000000))] 1 50
  = cache_key
      [("max_price", Sc (SInt 10000000)); ("baths", Li [SStr ""]);
       ("beds", Li [SStr "5"; SStr "6"]); ("min_price", PyNone);
       ("purpose", Sc (SStr "sale")); ("query", Sc (SStr "Victory Heights"))] 1 50.
Proof.
  apply cache_key_is_order_insensitive.
  - apply (bool_decide_unpack _). vm_compute. exact I.
  - apply (bool_decide_unpack _). vm_compute. exact I.
  - apply (bool_decide_unpack _). vm_compute. exact I.
Defined.

(** ** The price filter of the search *)

(** Step 7 of [search_properties] drops every listing without a price as
    soon as one price bound is given. *)
Lemma price_in_bounds_without_price mn mx (prop : pydict) :
  get "price" prop = PyNone -> price_in_bounds mn mx prop = Ok false.
Proof. intros Hprice. unfold price_in_bounds. by rewrite Hprice. Qed.

(** C7, on the code. The constraint filter keeps a listing without a price
    under [min_price=2000000], and so does a search served from the cache;
    the search that fetches the same listing live drops it in its own price
    filter. *)
Theorem live_search_drops_listing_without_price :
  let filters := [("min_price", Sc (SInt 2000000))] in
  let source := fun _ : pydict => Ok [villa_unpriced] in
  let live :=
    search_properties no_repr by_property_id source filters 1 50 (fresh_world empty_tables) in
  let cached := search_properties no_repr by_property_id source filters 1 50 live.2 in
  live.1 = Ok [] /\
  _filter_listings_by_constraints [villa_unpriced] filters = Ok [villa_unpriced] /\
  cached.1 = Ok [stored "7005" (Sc (SStr "Price on request")) PyNone
                   (Sc (SInt 4)) PyNone []].
Proof. cbv zeta. split_and!; vm_compute; reflexivity. Qed.

(** * Further properties of the code *)

(** ** The constraint filter as a whole *)

Lemma or_empty_strip_lower_ok v :
  is_text_or_falsy v = true <-> exists s, or_empty_strip_lower v = Ok s.
Proof.
  unfold is_text_or_falsy, or_empty_strip_lower.
  destruct (truthy v) eqn:Htruthy; simpl; [|split; eauto].
  destruct v as [[| | |s]|]; split; try done; eauto;
    intros [? ?]; done.
Qed.

Lemma or_empty_strip_lower_raises v e :
  or_empty_strip_lower v = Raise e ->
  e = AttributeError /\ is_text_or_falsy v = false.
Proof.
  unfold is_text_or_falsy, or_empty_strip_lower.
  destruct (truthy v); simpl; [|done].
  destruct v as [[| | |s]|]; try done; by intros [= <-].
Qed.

Lemma except_pass_lt_ok bound price :
  exists k, except_pass (let? m := py_int bound in py_lt price m) = Ok k.
Proof.
  destruct (py_int bound) as [m|e] eqn:Hb; simpl.
  - unfold py_lt. destruct (as_number price) as [z|e] eqn:Hp; simpl; [eauto|].
    apply as_number_raises in Hp as ->. eauto.
  - destruct (py_int_raises _ _ Hb) as [-> | ->]; eauto.
Qed.

Lemma except_pass_gt_ok bound price :
  exists k, except_pass (let? m := py_int bound in py_gt price m) = Ok k.
Proof.
  destruct (py_int bound) as [m|e] eqn:Hb; simpl.
  - unfold py_gt. destruct (as_number price) as [z|e] eqn:Hp; simpl; [eauto|].
    apply as_number_raises in Hp as ->. eauto.
  - destruct (py_int_raises _ _ Hb) as [-> | ->]; eauto.
Qed.

Lemma except_pass_beds_ok beds rooms :
  exists k, except_pass (let? beds_int := py_int beds in
                         let? rooms_int := py_int rooms in
                         Ok (negb (rooms_int =? beds_int)%Z)) = Ok k.
Proof.
  destruct (py_int beds) as [b|e] eqn:Hb; simpl.
  - destruct (py_int rooms) as [r|e] eqn:Hr; simpl; [eauto|].
    destruct (py_int_raises _ _ Hr) as [-> | ->]; eauto.
  - destruct (py_int_raises _ _ Hb) as [-> | ->]; eauto.
Qed.

(** One listing makes the loop fail only through its purpose. *)
Lemma keeps_ok mn mx beds purpose p lp :
  or_empty_strip_lower (get "purpose" p) = Ok lp ->
  exists k, Filter.keeps mn mx beds purpose p = Ok k.
Proof.
  intros Hp. unfold Filter.keeps. rewrite Hp. simpl.
  destruct (except_pass_lt_ok mn (get "price" p)) as [k1 ->].
  destruct (except_pass_gt_ok mx (get "price" p)) as [k2 ->].
  destruct (except_pass_beds_ok beds (get "rooms" p)) as [k3 ->].
  repeat (match goal with
          | |- context [if ?c then _ else _] => destruct c
          end; simpl; eauto).
Qed.

Lemma keeps_raises mn mx beds purpose p e :
  Filter.keeps mn mx beds purpose p = Raise e ->
  e = AttributeError /\ is_text_or_falsy (get "purpose" p) = false.
Proof.
  destruct (or_empty_strip_lower (get "purpose" p)) as [lp|e'] eqn:Hp.
  - destruct (keeps_ok mn mx beds purpose p lp Hp) as [k ->]. done.
  - unfold Filter.keeps. rewrite Hp. simpl. intros [= <-].
    by apply or_empty_strip_lower_raises in Hp.
Qed.

Lemma loop_ok_iff mn mx beds purpose (ls out : list pydict) :
  Filter.loop mn mx beds purpose ls = Ok out <->
  Forall (fun p => is_text_or_falsy (get "purpose" p) = true) ls /\
  out = List.filter (kept mn mx beds purpose) ls.
Proof.
  revert out. induction ls as [|p ls IH]; intros out; simpl.
  - split; [intros [= <-]; by split | intros [_ ->]; done].
  - destruct (Filter.keeps mn mx beds purpose p) as [k|e] eqn:Hk; simpl.
    + assert (is_text_or_falsy (get "purpose" p) = true) as Hp.
      { destruct (is_text_or_falsy (get "purpose" p)) eqn:Hp; [done|].
        exfalso.
        destruct (or_empty_strip_lower (get "purpose" p)) as [lp|e] eqn:Hlp.
        - assert (is_text_or_falsy (get "purpose" p) = true); [|congruence].
          apply or_empty_strip_lower_ok. eauto.
        - unfold Filter.keeps in Hk. rewrite Hlp in Hk. done. }
      destruct (Filter.loop mn mx beds purpose ls) as [rest|e] eqn:Hrest; simpl.
      * destruct (proj1 (IH rest) eq_refl) as [Hall ->].
        split.
        -- intros [= <-]. split; [by constructor|].
           cbn [List.filter]. assert (kept mn mx beds purpose p = k) as ->; [|done].
           unfold kept. rewrite Hk. by destruct k.
        -- intros [_ ->]. cbn [List.filter].
           assert (kept mn mx beds purpose p = k) as ->; [|done].
           unfold kept. rewrite Hk. by destruct k.
      * split; [done|]. intros [Hall _]. apply Forall_cons in Hall as [_ Hall].
        specialize (IH (List.filter (kept mn mx beds purpose) ls)).
        by pose proof (proj2 IH (conj Hall eq_refl)).
    + split; [done|]. intros [Hall _]. apply Forall_cons in Hall as [Hp _].
      apply keeps_raises in Hk as [_ Hk]. congruence.
Qed.

Lemma loop_raises mn mx beds purpose (ls : list pydict) e :
  Filter.loop mn mx beds purpose ls = Raise e -> e = AttributeError.
Proof.
  induction ls as [|p ls IH]; simpl; [done|].
  destruct (Filter.keeps mn mx beds purpose p) as [k|e'] eqn:Hk; simpl.
  - destruct (Filter.loop mn mx beds purpose ls); simpl; [done|].
    intros [= <-]. by apply IH.
  - intros [= <-]. by apply keeps_raises in Hk as [-> _].
Qed.

(** X1. On the values of the model ([None], booleans, integers, strings and
    lists of these) the constraint filter fails exactly when the purpose of
    the constraints or of some listing is a truthy value that is not a
    string (a number, [True], a non-empty list), and then with
    [AttributeError]; a price, room count or bound that is a text without
    a number in it, or a list, never makes it fail. Floats are outside the
    model: [int] of an infinite float raises [OverflowError], which the
    filter does not catch. *)
Theorem filter_fails_only_on_a_purpose_that_is_not_text
    (listings : list pydict) (constraints : pydict) :
  ((exists out, _filter_listings_by_constraints listings constraints = Ok out) <->
   is_text_or_falsy (get "purpose" constraints) = true /\
   Forall (fun p => is_text_or_falsy (get "purpose" p) = true) listings) /\
  (forall e, _filter_listings_by_constraints listings constraints = Raise e ->
             e = AttributeError).
Proof.
  unfold _filter_listings_by_constraints. cbv zeta. split.
  - destruct (or_empty_strip_lower (get "purpose" constraints)) as [cp|e] eqn:Hc;
      simpl.
    + assert (is_text_or_falsy (get "purpose" constraints) = true) as Hok
        by (apply or_empty_strip_lower_ok; eauto).
      split.
      * intros [out Hout]. apply loop_ok_iff in Hout as [Hall _]. done.
      * intros [_ Hall]. eexists. apply loop_ok_iff. split; [done | reflexivity].
    + apply or_empty_strip_lower_raises in Hc as [_ Hc].
      split; [intros [? ?]; done | intros [? _]; congruence].
  - intros e.
    destruct (or_empty_strip_lower (get "purpose" constraints)) as [cp|e'] eqn:Hc;
      simpl.
    + apply loop_raises.
    + intros [= <-]. by apply or_empty_strip_lower_raises in Hc as [-> _].
Qed.

Lemma filter_ok_spec (ls out : list pydict) (c : pydict) :
  _filter_listings_by_constraints ls c = Ok out ->
  exists cp,
    or_empty_strip_lower (get "purpose" c) = Ok cp /\
    out = List.filter
            (kept (get "min_price" c) (get "max_price" c) (get "beds" c) cp) ls.
Proof.
  unfold _filter_listings_by_constraints. cbv zeta.
  destruct (or_empty_strip_lower (get "purpose" c)) as [cp|]; simpl; [|done].
  intros Hloop%loop_ok_iff. exists cp. by destruct Hloop.
Qed.

Lemma filter_singleton_kept (p c : pydict) cp :
  or_empty_strip_lower (get "purpose" c) = Ok cp ->
  _filter_listings_by_constraints [p] c = Ok [p] <->
  kept (get "min_price" c) (get "max_price" c) (get "beds" c) cp p = true.
Proof.
  intros Hc. rewrite filter_singleton, Hc. simpl. unfold kept.
  destruct (Filter.keeps _ _ _ cp p) as [[]|]; simpl; split; done.
Qed.

Lemma list_filter_sublist {A} (f : A -> bool) (l : list A) :
  List.filter f l `sublist_of` l.
Proof.
  induction l as [|a l IH]; simpl; [done|].
  destruct (f a); [by apply sublist_skip | by apply sublist_cons].
Qed.

Lemma list_filter_idem {A} (f : A -> bool) (l : list A) :
  List.filter f (List.filter f l) = List.filter f l.
Proof.
  induction l as [|a l IH]; simpl; [done|].
  destruct (f a) eqn:Ha; simpl; [|done]. by rewrite Ha, IH.
Qed.

(** X2. What the filter returns is a sub-sequence of what it is given:
    listings are dropped, never added, changed or reordered; and a listing
    is in the output exactly when it is in the input and the filter keeps it
    on its own. *)
Theorem filter_selects_a_subsequence (listings out : list pydict)
    (constraints : pydict) :
  _filter_listings_by_constraints listings constraints = Ok out ->
  out `sublist_of` listings /\
  forall p, p ∈ out <->
            p ∈ listings /\
            _filter_listings_by_constraints [p] constraints = Ok [p].
Proof.
  intros (cp & Hc & ->)%filter_ok_spec. split; [apply list_filter_sublist|].
  intros p. rewrite (filter_singleton_kept p constraints cp Hc).
  rewrite !list_elem_of_In, filter_In. done.
Qed.

Lemma filter_selects_a_subsequence_witness :
  [villa_a; villa_c] `sublist_of` [villa_a; villa_b; villa_c].
Proof.
  apply (filter_selects_a_subsequence [villa_a; villa_b; villa_c]
           [villa_a; villa_c] scenario_A). reflexivity.
Defined.

(** X3. Filtering is idempotent: running the output of the filter through
    the filter again, with the same constraints, returns it unchanged. *)
Theorem filter_is_idempotent (listings out : list pydict) (constraints : pydict) :
  _filter_listings_by_constraints listings constraints = Ok out ->
  _filter_listings_by_constraints out constraints = Ok out.
Proof.
  intros Hout. pose proof Hout as (cp & Hc & ->)%filter_ok_spec.
  unfold _filter_listings_by_constraints in *. cbv zeta in *.
  rewrite Hc in *. simpl in *.
  apply loop_ok_iff. apply loop_ok_iff in Hout as [Hall _]. split.
  - rewrite Forall_forall in Hall |- *. intros p Hp. apply Hall.
    apply list_elem_of_In, filter_In in Hp as [Hp _]. by apply list_elem_of_In.
  - by rewrite list_filter_idem.
Qed.

Lemma filter_is_idempotent_witness :
  _filter_listings_by_constraints [villa_a; villa_c] scenario_A
  = Ok [villa_a; villa_c].
Proof.
  apply (filter_is_idempotent [villa_a; villa_b; villa_c]). reflexivity.
Defined.

Lemma as_number_not_none v z : as_number v = Ok z -> is_none v = false.
Proof. by destruct v as [[]|]. Qed.

Lemma keeps_min_price mn mx beds purpose p z m :
  as_number (get "price" p) = Ok z ->
  py_int mn = Ok m ->
  Filter.keeps mn mx beds purpose p =
  let? k := Filter.keeps PyNone mx beds purpose p in Ok (k && (m <=? z)%Z).
Proof.
  intros Hz Hm. unfold Filter.keeps.
  rewrite (py_int_not_none _ _ Hm), (as_number_not_none _ _ Hz), Hm. simpl.
  unfold py_lt at 1. rewrite Hz. simpl.
  destruct (or_empty_strip_lower (get "purpose" p)) as [lp|]; simpl; [|done].
  rewrite (Z.leb_antisym z m).
  destruct (z <? m)%Z; simpl.
  - destruct (except_pass_gt_ok mx (get "price" p)) as [k2 Hk2].
    destruct (is_none mx); simpl; [|rewrite Hk2; simpl; destruct k2; simpl];
      try done;
      destruct (except_pass_beds_ok beds (get "rooms" p)) as [k3 Hk3];
      (destruct (negb (is_none beds) && negb (is_none (get "rooms" p)));
       [rewrite Hk3; simpl; destruct k3; simpl|simpl]); try done;
      repeat (match goal with
              | |- context [if ?c then _ else _] => destruct c
              end; simpl); reflexivity.
  - repeat (match goal with
            | |- context [rbind ?x _] => destruct x as [[]|]
            end; simpl; try reflexivity);
      repeat (match goal with
              | |- context [if ?c then _ else _] => destruct c
              end; simpl); reflexivity.
Qed.

Lemma keeps_max_price mn mx beds purpose p z m :
  as_number (get "price" p) = Ok z ->
  py_int mx = Ok m ->
  Filter.keeps mn mx beds purpose p =
  let? k := Filter.keeps mn PyNone beds purpose p in Ok (k && (z <=? m)%Z).
Proof.
  intros Hz Hm. unfold Filter.keeps.
  rewrite (py_int_not_none _ _ Hm), (as_number_not_none _ _ Hz), Hm. simpl.
  unfold py_gt at 1. rewrite Hz. simpl.
  destruct (or_empty_strip_lower (get "purpose" p)) as [lp|]; simpl; [|done].
  rewrite (Z.leb_antisym m z).
  destruct (except_pass_lt_ok mn (get "price" p)) as [k1 Hk1].
  destruct (is_none mn); simpl; [|rewrite Hk1; simpl; destruct k1; simpl];
    try done;
    (destruct (m <? z)%Z; simpl;
     [ destruct (except_pass_beds_ok beds (get "rooms" p)) as [k3 Hk3];
       (destruct (negb (is_none beds) && negb (is_none (get "rooms" p)));
        [rewrite Hk3; simpl; destruct k3; simpl|simpl]); try done;
       repeat (match goal with
               | |- context [if ?c then _ else _] => destruct c
               end; simpl); reflexivity
     | repeat (match goal with
               | |- context [rbind ?x _] => destruct x as [[]|]
               end; simpl; try reflexivity);
       repeat (match goal with
               | |- context [if ?c then _ else _] => destruct c
               end; simpl); reflexivity ]).
Qed.

Lemma filter_with_extra_test (p c c' : pydict) (test : bool)
    (mn mx beds mn' mx' beds' : pyval) :
  get "purpose" c' = get "purpose" c ->
  get "min_price" c = mn -> get "max_price" c = mx -> get "beds" c = beds ->
  get "min_price" c' = mn' -> get "max_price" c' = mx' -> get "beds" c' = beds' ->
  (forall purpose,
     Filter.keeps mn mx beds purpose p =
     let? k := Filter.keeps mn' mx' beds' purpose p in Ok (k && test)) ->
  _filter_listings_by_constraints [p] c = Ok [p] <->
  test = true /\ _filter_listings_by_constraints [p] c' = Ok [p].
Proof.
  intros Hpurpose <- <- <- <- <- <- Hkeeps. rewrite !filter_singleton, Hpurpose.
  destruct (or_empty_strip_lower (get "purpose" c)) as [cp|]; simpl;
    [|split; [done | intros [_ ?]; done]].
  rewrite Hkeeps.
  destruct (Filter.keeps _ _ _ cp p) as [k|]; simpl;
    [|split; [done | intros [_ ?]; done]].
  destruct k, test; simpl; split; try done; intros [? ?]; done.
Qed.

(** X4. The price bounds are inclusive and compare numbers: for a listing
    with a numeric price and a [min_price] (a [max_price]) that [int]
    accepts, the filter keeps the listing if and only if the price is at
    least (at most) the bound and the remaining constraints keep it. *)
Theorem price_bounds_are_inclusive (p c : pydict) (z : Z) :
  as_number (get "price" p) = Ok z ->
  (forall m, py_int (get "min_price" c) = Ok m ->
     (_filter_listings_by_constraints [p] c = Ok [p] <->
      (m <= z)%Z /\
      _filter_listings_by_constraints [p] (dict_del "min_price" c) = Ok [p])) /\
  (forall m, py_int (get "max_price" c) = Ok m ->
     (_filter_listings_by_constraints [p] c = Ok [p] <->
      (z <= m)%Z /\
      _filter_listings_by_constraints [p] (dict_del "max_price" c) = Ok [p])).
Proof.
  intros Hz. split; intros m Hm.
  - rewrite <- Z.leb_le.
    apply (filter_with_extra_test p c (dict_del "min_price" c) (m <=? z)%Z
             (get "min_price" c) (get "max_price" c) (get "beds" c)
             PyNone (get "max_price" c) (get "beds" c));
      rewrite ?get_dict_del_eq, ?get_dict_del_ne by done; try reflexivity.
    intros purpose. by apply keeps_min_price.
  - rewrite <- Z.leb_le.
    apply (filter_with_extra_test p c (dict_del "max_price" c) (z <=? m)%Z
             (get "min_price" c) (get "max_price" c) (get "beds" c)
             (get "min_price" c) PyNone (get "beds" c));
      rewrite ?get_dict_del_eq, ?get_dict_del_ne by done; try reflexivity.
    intros purpose. by apply keeps_max_price.
Qed.

Lemma price_bounds_are_inclusive_witness :
  _filter_listings_by_constraints [villa_b] [("max_price", Sc (SStr "12_000_000"))]
  = Ok [villa_b].
Proof.
  apply (proj2 (price_bounds_are_inclusive villa_b
                  [("max_price", Sc (SStr "12_000_000"))] 12000000%Z eq_refl)
           12000000%Z eq_refl).
  split; [lia | reflexivity].
Defined.

(** ** The live branch of the search *)

Lemma get_dict_set_eq k v (d : pydict) : get k (dict_set k v d) = v.
Proof.
  induction d as [|[k' v'] d IH]; simpl.
  - by rewrite decide_True.
  - destruct (decide (k = k')) as [->|Hne]; simpl.
    + by rewrite decide_True.
    + by rewrite decide_False.
Qed.

Lemma get_dict_set_ne k k' v (d : pydict) :
  k <> k' -> get k (dict_set k' v d) = get k d.
Proof.
  intros Hne. induction d as [|[k'' v''] d IH]; simpl.
  - by rewrite decide_False.
  - destruct (decide (k' = k'')) as [->|Hne']; simpl.
    + by rewrite !decide_False.
    + by destruct (decide (k = k'')).
Qed.

Lemma keys_dict_del k (d : pydict) : k ∉ (dict_del k d).*1.
Proof.
  unfold dict_del. intros (kv & -> & Hkv)%list_elem_of_fmap.
  apply list_elem_of_In, filter_In in Hkv as [_ Hkv].
  by rewrite bool_decide_true in Hkv.
Qed.

Lemma keys_dict_set k k' v (d : pydict) :
  k ∈ (dict_set k' v d).*1 <-> k = k' \/ k ∈ d.*1.
Proof.
  induction d as [|[k'' v''] d IH]; simpl.
  - rewrite list_elem_of_singleton, elem_of_nil. tauto.
  - destruct (decide (k' = k'')) as [->|Hne]; rewrite !fmap_cons, !elem_of_cons; simpl.
    + tauto.
    + rewrite IH. tauto.
Qed.

(** X5. What reaches the listing source. The dict handed to it never has a
    [query] entry: the location text travels as [location_query]; and it
    always carries the [page] and [limit] of the call. *)
Theorem upstream_receives_location_query_page_and_limit (filters : pydict)
    (page limit : Z) :
  let cleaned := with_pagination (clean_filters filters) page limit in
  let sent := upstream_filters cleaned in
  has_key "query" sent = false /\
  (has_key "query" cleaned = true ->
   get "location_query" sent = get "query" cleaned) /\
  get "page" sent = Sc (SInt page) /\
  get "limit" sent = Sc (SInt limit).
Proof.
  cbv zeta. unfold upstream_filters.
  set (cleaned := with_pagination (clean_filters filters) page limit).
  assert (get "page" cleaned = Sc (SInt page)) as Hpage.
  { unfold cleaned, with_pagination. rewrite get_dict_set_ne by done.
    apply get_dict_set_eq. }
  assert (get "limit" cleaned = Sc (SInt limit)) as Hlimit.
  { unfold cleaned, with_pagination. apply get_dict_set_eq. }
  destruct (has_key "query" cleaned) eqn:Hq.
  - split_and!.
    + unfold has_key. apply bool_decide_eq_false. rewrite keys_dict_set.
      intros [?|?]; [done|]. by eapply keys_dict_del.
    + intros _. apply get_dict_set_eq.
    + by rewrite get_dict_set_ne, get_dict_del_ne.
    + by rewrite get_dict_set_ne, get_dict_del_ne.
  - done.
Qed.

Lemma search_miss lr ro pf (filters : pydict) (page limit : Z) (w : world) :
  misses (cache_key filters page limit) (working w) ->
  search_properties lr ro pf filters page limit w =
  fetch_live lr pf (with_pagination (clean_filters filters) page limit)
    (cache_key filters page limit) w.
Proof.
  intros Hmiss. rewrite search_unfold. cbv zeta.
  destruct (select_query_id _ _) as [id|] eqn:Hsel; [|reflexivity].
  by rewrite (Hmiss id Hsel).
Qed.

Lemma price_filter_ok mn mx (properties r : list pydict) :
  price_filter mn mx properties = Ok r ->
  r `sublist_of` properties /\
  forall p, p ∈ r -> price_in_bounds mn mx p = Ok true.
Proof.
  revert r. induction properties as [|prop rest IH]; intros r; simpl.
  - intros [= <-]. split; [done|]. by intros p Hp%elem_of_nil.
  - destruct (price_in_bounds mn mx prop) as [k|] eqn:Hk; simpl; [|done].
    destruct (price_filter mn mx rest) as [r'|]; simpl; [|done].
    destruct (IH r' eq_refl) as [Hsub Hall].
    intros [= <-]. destruct k.
    + split; [by apply sublist_skip|].
      intros p [->|Hp]%elem_of_cons; [done | by apply Hall].
    + split; [by apply sublist_cons | done].
Qed.

Lemma py_less_int_bound price (m : Z) :
  py_less price (Sc (SInt m)) = Ok false ->
  exists z, as_number price = Ok z /\ (m <= z)%Z.
Proof.
  destruct price as [[| b | z | s]|]; simpl; try done.
  - intros [= H%Z.ltb_ge]. eauto.
  - intros [= H%Z.ltb_ge]. eauto.
Qed.

Lemma py_less_int_bound_r price (m : Z) :
  py_less (Sc (SInt m)) price = Ok false ->
  exists z, as_number price = Ok z /\ (z <= m)%Z.
Proof.
  destruct price as [[| b | z | s]|]; simpl; try done.
  - intros [= H%Z.ltb_ge]. eauto.
  - intros [= H%Z.ltb_ge]. eauto.
Qed.

Lemma price_in_bounds_true mn mx (p : pydict) :
  price_in_bounds mn mx p = Ok true ->
  (is_none mn = false -> py_less (get "price" p) mn = Ok false) /\
  (is_none mx = false -> py_less mx (get "price" p) = Ok false).
Proof.
  unfold price_in_bounds.
  destruct (is_none (get "price" p)); simpl; [done|].
  destruct (is_none mn), (is_none mx); simpl.
  - done.
  - destruct (py_less mx (get "price" p)) as [[]|]; simpl; try done.
  - destruct (py_less (get "price" p) mn) as [[]|]; simpl; try done.
  - destruct (py_less (get "price" p) mn) as [[]|]; simpl; try done.
    destruct (py_less mx (get "price" p)) as [[]|]; simpl; try done.
Qed.

(** X6. A search that fetches live returns a sub-sequence of what the
    listing source answered; and with an integer [min_price] ([max_price])
    among its filters, every listing it returns has a numeric price of at
    least (at most) that bound. *)
Theorem live_search_keeps_listings_within_integer_bounds lr ro pf
    (filters : pydict) (page limit : Z) (w w' : world) (r : list pydict) :
  misses (cache_key filters page limit) (working w) ->
  search_properties lr ro pf filters page limit w = (Ok r, w') ->
  exists properties,
    pf (live_filters filters page limit) = Ok properties /\
    r `sublist_of` properties /\
    (forall m, get "min_price" (live_filters filters page limit) = Sc (SInt m) ->
       forall p, p ∈ r ->
         exists z, as_number (get "price" p) = Ok z /\ (m <= z)%Z) /\
    (forall m, get "max_price" (live_filters filters page limit) = Sc (SInt m) ->
       forall p, p ∈ r ->
         exists z, as_number (get "price" p) = Ok z /\ (z <= m)%Z).
Proof.
  intros Hmiss. rewrite (search_miss _ _ _ _ _ _ _ Hmiss), fetch_live_unfold.
  cbv zeta. fold (live_filters filters page limit).
  destruct (pf (live_filters filters page limit)) as [properties|]; [|done].
  set (saved := if negb (bool_decide (properties = [])) then _ else _).
  destruct (saved.1); [|done].
  set (mn := get "min_price" (live_filters filters page limit)).
  set (mx := get "max_price" (live_filters filters page limit)).
  destruct (negb (is_none mn) || negb (is_none mx)) eqn:Hbounds.
  - intros [= Hr _]. apply price_filter_ok in Hr as [Hsub Hall].
    exists properties. split_and!; [done | done | |].
    + intros m Hm p Hp. apply py_less_int_bound.
      rewrite <- Hm. apply (price_in_bounds_true mn mx p (Hall p Hp)).
      by rewrite Hm.
    + intros m Hm p Hp. apply py_less_int_bound_r.
      rewrite <- Hm. apply (price_in_bounds_true mn mx p (Hall p Hp)).
      by rewrite Hm.
  - intros [= <- _]. exists properties. split_and!; [done | done | |].
    + intros m Hm. rewrite Hm in Hbounds. done.
    + intros m Hm. rewrite Hm in Hbounds. simpl in Hbounds.
      by rewrite orb_true_r in Hbounds.
Qed.

Lemma live_search_keeps_listings_within_integer_bounds_witness :
  exists z, as_number (get "price" villa_c) = Ok z /\ (z <= 10000000)%Z.
Proof.
  destruct (live_search_keeps_listings_within_integer_bounds no_repr
              by_property_id three_villas scenario_A 1 50
              (fresh_world empty_tables) (after_first_search scenario_A 1 50)
              [villa_a; villa_c])
    as (properties & _ & _ & _ & Hmax);
    [discriminate | vm_compute; reflexivity |].
  apply (Hmax 10000000%Z); [reflexivity|]. right. by left.
Defined.

(** X7. A failure of the listing source surfaces unchanged: on a miss the
    search raises the exception of the call and writes nothing; only the
    call is counted. *)
Theorem upstream_failure_surfaces_and_writes_nothing lr ro pf
    (filters : pydict) (page limit : Z) (w : world) (e : exn) :
  misses (cache_key filters page limit) (working w) ->
  pf (live_filters filters page limit) = Raise e ->
  search_properties lr ro pf filters page limit w = (Raise e, count_call w).
Proof.
  intros Hmiss Hpf. rewrite (search_miss _ _ _ _ _ _ _ Hmiss), fetch_live_unfold.
  cbv zeta. fold (live_filters filters page limit). by rewrite Hpf.
Qed.

Lemma upstream_failure_surfaces_and_writes_nothing_witness :
  search_properties no_repr by_property_id (fun _ => Raise UpstreamFetchError)
    scenario_A 1 50 (fresh_world empty_tables)
  = (Raise UpstreamFetchError, count_call (fresh_world empty_tables)).
Proof.
  apply upstream_failure_surfaces_and_writes_nothing; [discriminate | reflexivity].
Defined.

Lemma paginate_nil {A} (page limit : Z) : paginate (@nil A) page limit = [].
Proof. unfold paginate, py_slice. cbv zeta. by rewrite drop_nil, take_nil. Qed.

Lemma row_order_nil (ro : list (Z * string) -> list (Z * string)) :
  (forall links, ro links ≡ₚ links) -> ro [] = [].
Proof. intros Hro. by apply Permutation_nil_r. Qed.

(** X8. A save that fails inside a live search poisons the key. When the
    cache is empty, the listing source answers with listings and one of
    them cannot be stored, the search raises the exception of the save; from
    then on the same search is a cache hit that returns no listing and never
    calls the listing source again. *)
Theorem failed_save_in_a_search_poisons_the_key lr ro pf pf'
    (filters : pydict) (page limit : Z) (properties : list pydict) (e : exn) :
  (forall links, ro links ≡ₚ links) ->
  pf (live_filters filters page limit) = Ok properties ->
  properties <> [] ->
  rows_of lr properties = Raise e ->
  exists w1,
    search_properties lr ro pf filters page limit (fresh_world empty_tables)
      = (Raise e, w1) /\
    upstream_calls w1 = 1 /\
    search_properties lr ro pf' filters page limit w1 = (Ok [], w1).
Proof.
  intros Hro Hpf Hne Hrows.
  set (key := cache_key filters page limit).
  set (t1 := insert_or_ignore_query key empty_tables).
  exists (set_both (count_call (fresh_world empty_tables)) t1).
  assert (select_query_id key (cached_queries t1) = Some 1%Z) as Hsel.
  { unfold t1, insert_or_ignore_query. cbn. by rewrite decide_True. }
  split_and!; [|reflexivity|].
  - rewrite search_miss by (intros id; discriminate).
    rewrite fetch_live_unfold. cbv zeta.
    fold (live_filters filters page limit). rewrite Hpf.
    rewrite bool_decide_false by done. cbn [negb].
    rewrite save_unfold. cbv zeta.
    change (working (count_call (fresh_world empty_tables))) with empty_tables.
    fold key. fold t1. rewrite Hsel.
    pose proof (loop_tables_result lr 1 properties t1) as Hres.
    rewrite Hrows in Hres. cbn in Hres.
    destruct (loop_tables lr 1 properties t1) as [res t2]. cbn in Hres.
    subst res. reflexivity.
  - rewrite search_unfold. cbv zeta. cbn [set_both working]. fold key.
    rewrite Hsel. cbn [negb Z.eqb].
    unfold get_properties_for_query, bind, select, lift. cbn [fst].
    change (working (set_both (count_call (fresh_world empty_tables)) t1))
      with t1.
    assert (select_properties_of_query ro 1 t1 = []) as ->.
    { unfold select_properties_of_query.
      change (query_property_map t1) with (@nil (Z * string)).
      cbn [List.filter]. by rewrite (row_order_nil ro Hro). }
    cbn. by rewrite paginate_nil.
Qed.

Lemma failed_save_in_a_search_poisons_the_key_witness :
  exists w1,
    search_properties no_repr by_property_id
      (fun _ => Ok [villa_a; villa_overflow]) scenario_A 1 50
      (fresh_world empty_tables) = (Raise OverflowError, w1) /\
    upstream_calls w1 = 1 /\
    search_properties no_repr by_property_id three_villas scenario_A 1 50 w1
      = (Ok [], w1).
Proof.
  apply (failed_save_in_a_search_poisons_the_key no_repr by_property_id
           (fun _ => Ok [villa_a; villa_overflow]) three_villas scenario_A 1 50
           [villa_a; villa_overflow] OverflowError).
  - apply merge_sort_Permutation.
  - reflexivity.
  - discriminate.
  - reflexivity.
Defined.

(** ** The store: what a save succeeds on, and what it keeps *)

Lemma bind_param_ok v : bindable v = true <-> exists x, bind_param v = Ok x.
Proof.
  destruct v as [[| b | z | s]|]; simpl; try (split; [eauto | done]).
  - destruct (_ && _)%Z; split; eauto; try done. by intros [? ?].
  - split; [done | by intros [? ?]].
Qed.

Lemma mapM_ok_iff {A B} (f : A -> result B) (l : list A) :
  (exists bs, mapM f l = Ok bs) <-> Forall (fun a => exists b, f a = Ok b) l.
Proof.
  induction l as [|a l IH]; simpl.
  - split; [by constructor | eauto].
  - rewrite Forall_cons, <- IH. split.
    + intros [bs Hbs]. destruct (f a) as [b|]; simpl in Hbs; [|done].
      destruct (mapM f l) as [bs'|]; simpl in Hbs; [|done]. eauto.
    + intros [[b ->] [bs ->]]. simpl. eauto.
Qed.

Lemma mapM_bind_column_ok prop (columns : list (string * affinity)) :
  (exists r, mapM (bind_column prop) columns = Ok r) <->
  forallb (fun column : string * affinity => bindable (get column.1 prop))
    columns = true.
Proof.
  rewrite mapM_ok_iff, forallb_forall, Forall_forall.
  split; intros H column Hc.
  - apply list_elem_of_In in Hc. destruct (H column Hc) as [b Hb].
    apply bind_param_ok. unfold bind_column in Hb.
    destruct (bind_param (get column.1 prop)); [eauto | done].
  - apply list_elem_of_In in Hc. specialize (H column Hc).
    apply bind_param_ok in H as [x Hx]. unfold bind_column. rewrite Hx.
    simpl. eauto.
Qed.

Lemma join_urls_ok (l : list scalar) :
  (exists s, join_urls l = Ok s) <-> forallb is_str l = true.
Proof.
  unfold join_urls. split.
  - intros [s Hs]. destruct (mapM as_str l) as [strs|] eqn:Hm; [|done].
    clear Hs. revert strs Hm. induction l as [|x l IH]; intros strs; simpl;
      [done|].
    destruct x; simpl; try done.
    destruct (mapM as_str l) as [strs'|]; simpl; [|done]. intros _. by eapply IH.
  - intros Hall. assert (exists strs, mapM as_str l = Ok strs) as [strs ->];
      [|simpl; eauto].
    induction l as [|x l IH]; simpl; [eauto|].
    apply andb_true_iff in Hall as [Hx Hl]. destruct x; try done. simpl.
    destruct (IH Hl) as [strs ->]. simpl. eauto.
Qed.

Lemma all_image_urls_str_scalar prop v :
  all_image_urls_str prop = Ok v -> exists x, v = Sc x.
Proof.
  unfold all_image_urls_str.
  destruct (if has_key _ _ then _ else _) as [x|l]; [intros [= <-]; eauto|].
  destruct (truthy (Li l)); [|intros [= <-]; eauto].
  destruct (join_urls l); simpl; [intros [= <-]; eauto | done].
Qed.

Lemma property_row_parts (prop : pydict) :
  (exists r, property_row prop = Ok r) <->
  (exists s i, all_image_urls_str prop = Ok s /\ bind_param s = Ok i) /\
  (exists b, mapM (bind_column prop) columns_before_images = Ok b) /\
  (exists a, mapM (bind_column prop) columns_after_images = Ok a).
Proof.
  unfold property_row.
  generalize (mapM (bind_column prop) columns_before_images) as before.
  generalize (mapM (bind_column prop) columns_after_images) as after.
  intros after before.
  destruct (all_image_urls_str prop) as [s|]; cbn [rbind].
  - destruct before as [b|]; cbn [rbind].
    + destruct (bind_param s) as [i|] eqn:Hi; cbn [rbind].
      * destruct after as [a|]; cbn [rbind].
        -- split; [intros _; split_and!; eauto | eauto].
        -- split; [by intros [? ?] | by intros (_ & _ & [? ?])].
      * split; [by intros [? ?]|].
        intros ((? & ? & [= <-] & ?) & _). congruence.
    + split; [by intros [? ?] | by intros (_ & [? ?] & _)].
  - split; [by intros [? ?] | by intros ((? & ? & ? & _) & _)].
Qed.

Lemma image_urls_bindable (prop : pydict) :
  (exists s i, all_image_urls_str prop = Ok s /\ bind_param s = Ok i) <->
  (if has_key "all_image_urls" prop
   then match get "all_image_urls" prop with
        | Li l => forallb is_str l
        | v => bindable v
        end
   else true) = true.
Proof.
  unfold all_image_urls_str.
  destruct (has_key "all_image_urls" prop).
  - destruct (get "all_image_urls" prop) as [x|l].
    + rewrite bind_param_ok. split.
      * intros (s & i & [= <-] & Hi). eauto.
      * intros [i Hi]. eauto.
    + rewrite <- join_urls_ok. destruct (truthy (Li l)) eqn:Htruthy.
      * split.
        -- intros (s & i & Hs & _). destruct (join_urls l); [eauto | done].
        -- intros [s ->]. cbn. eauto.
      * assert (l = []) as ->.
        { simpl in Htruthy. apply negb_false_iff, bool_decide_eq_true in Htruthy.
          done. }
        split; [intros _; by exists "" | intros _; cbn; eauto].
  - split; [done | intros _; cbn; eauto].
Qed.

Lemma property_row_ok_iff (prop : pydict) :
  (exists r, property_row prop = Ok r) <-> storable prop = true.
Proof.
  rewrite property_row_parts. unfold storable.
  rewrite forallb_app, !andb_true_iff.
  by rewrite <- !mapM_bind_column_ok, image_urls_bindable.
Qed.

Lemma rows_of_ok_iff lr (properties : list pydict) :
  (exists rs, rows_of lr properties = Ok rs) <->
  forallb storable properties = true.
Proof.
  unfold rows_of. rewrite mapM_ok_iff, forallb_forall, Forall_forall.
  split; intros H prop Hprop.
  - apply list_elem_of_In in Hprop. destruct (H prop Hprop) as [b Hb].
    apply property_row_ok_iff. destruct (property_row prop); [eauto | done].
  - apply list_elem_of_In in Hprop. specialize (H prop Hprop).
    apply property_row_ok_iff in H as [r ->]. simpl. eauto.
Qed.

(** X9. A save succeeds exactly when every listing of its list can be
    stored: image URLs that are all strings, and no other field that is a
    list or an integer beyond 64 bits. Neither the state of the store nor
    the key nor the ids of the listings can make it fail. *)
Theorem save_succeeds_iff_every_listing_is_storable lr (key : string)
    (properties : list pydict) (w : world) :
  (save_query_and_properties lr key properties w).1 = Ok tt <->
  forallb storable properties = true.
Proof.
  rewrite <- (rows_of_ok_iff lr). rewrite save_unfold. cbv zeta.
  destruct (select_after_insert key (working w)) as [qid ->].
  pose proof (loop_tables_result lr qid properties
                (insert_or_ignore_query key (working w))) as Hres.
  destruct (loop_tables lr qid properties _) as [res t2]. cbn [fst] in Hres.
  subst res. destruct (rows_of lr properties) as [rs|e]; simpl.
  - split; eauto.
  - split; [done | by intros [? ?]].
Qed.

Lemma select_query_id_None key (qs : list (Z * string)) :
  select_query_id key qs = None <-> key ∉ qs.*2.
Proof.
  induction qs as [|[id s] qs IH].
  - split; [intros _; apply not_elem_of_nil | done].
  - rewrite fmap_cons, not_elem_of_cons. simpl.
    destruct (decide (s = key)) as [->|Hne]; [split; [done | tauto]|].
    rewrite IH. split; [intros ?; split; congruence | tauto].
Qed.

Lemma select_query_id_Some key (qs : list (Z * string)) id :
  select_query_id key qs = Some id -> (id, key) ∈ qs.
Proof.
  induction qs as [|[id' s] qs IH]; simpl; [done|].
  destruct (decide (s = key)) as [->|Hne].
  - intros [= ->]. by left.
  - intros H. right. by apply IH.
Qed.

Lemma foldr_max_ge (s : Z) (l : list Z) :
  (s <= foldr Z.max s l)%Z /\ Forall (fun x => (x <= foldr Z.max s l)%Z) l.
Proof.
  induction l as [|x l [IHs IHl]]; simpl; [split; [lia | constructor]|].
  split; [lia|]. constructor; [lia|].
  eapply Forall_impl; [exact IHl|]. intros y Hy. simpl in Hy. lia.
Qed.

Lemma store_ok_insert_query key (t : tables) :
  store_ok t -> store_ok (insert_or_ignore_query key t).
Proof.
  intros [Hpos Hseq Hids Hstrs Hlinks Hlq Hlp Hrows].
  destruct (foldr_max_ge (cached_queries_seq t) (cached_queries t).*1)
    as [Hge_seq Hge_ids].
  unfold insert_or_ignore_query.
  destruct (select_query_id key (cached_queries t)) as [id|] eqn:Hsel;
    split; cbn; try done; try lia.
  - apply Forall_app. split; [done|]. constructor; [simpl; lia | constructor].
  - rewrite fmap_app. apply NoDup_app. split_and!; [done | | apply NoDup_singleton].
    intros x Hx Hx'. apply list_elem_of_singleton in Hx'. simpl in Hx'.
    rewrite Forall_forall in Hge_ids. specialize (Hge_ids _ Hx). lia.
  - rewrite fmap_app. apply NoDup_app. split_and!; [done | | apply NoDup_singleton].
    intros x Hx Hx'. apply list_elem_of_singleton in Hx'. simpl in Hx'. subst x.
    by apply select_query_id_None in Hsel.
  - intros link Hlink. rewrite fmap_app, elem_of_app. left. by apply Hlq.
Qed.

Lemma mapM_bind_column_names prop (columns : list (string * affinity)) r :
  mapM (bind_column prop) columns = Ok r -> r.*1 = columns.*1.
Proof.
  revert r. induction columns as [|c columns IH]; intros r; simpl.
  - by intros [= <-].
  - unfold bind_column at 1. destruct (bind_param (get c.1 prop)); simpl; [|done].
    destruct (mapM (bind_column prop) columns) as [r'|]; simpl; [|done].
    intros [= <-]. rewrite !fmap_cons. f_equal. by apply IH.
Qed.

Lemma get_of_row_app k (v : sqlval) (before after : row) :
  k ∉ before.*1 ->
  get k ((fun cv : string * sqlval => (cv.1, of_sqlval cv.2))
           <$> (before ++ [(k, v)] ++ after)) = of_sqlval v.
Proof.
  induction before as [|[k' v'] before IH]; intros Hk.
  - cbn. by rewrite decide_True.
  - rewrite fmap_cons, not_elem_of_cons in Hk. destruct Hk as [Hne Hk].
    cbn. rewrite decide_False by done. by apply IH.
Qed.

Lemma get_dict_of_row_app id k (v : sqlval) (before after : row) :
  k <> "id" -> k ∉ before.*1 ->
  get k (dict_of_row id (before ++ [(k, v)] ++ after)) = of_sqlval v.
Proof.
  intros Hid Hk. unfold dict_of_row. cbn [get]. rewrite decide_False by done.
  by apply get_of_row_app.
Qed.

Lemma stored_text_is_text (v : sqlval) :
  is_text_or_falsy (of_sqlval (store_as TEXT v)) = true.
Proof.
  destruct v; unfold is_text_or_falsy; cbn [store_as of_sqlval];
    [done | apply orb_true_r | apply orb_true_r].
Qed.

(** Every row that a save writes has an image column that can be read. *)
Lemma property_row_row_ok (prop : pydict) (r : row) :
  property_row prop = Ok r -> row_ok r.
Proof.
  unfold property_row, row_ok.
  destruct (all_image_urls_str prop) as [s|]; cbn [rbind]; [|done].
  destruct (mapM (bind_column prop) columns_before_images) as [before|] eqn:Hb;
    cbn [rbind]; [|done].
  destruct (bind_param s) as [images|]; cbn [rbind]; [|done].
  destruct (mapM (bind_column prop) columns_after_images) as [after|];
    cbn [rbind]; [|done].
  intros Heq.
  assert (r = before ++ [("all_image_urls", store_as TEXT images)] ++ after)
    as -> by congruence.
  rewrite get_dict_of_row_app; [apply stored_text_is_text | done |].
  rewrite (mapM_bind_column_names _ _ _ Hb). vm_compute.
  intros H. repeat (apply elem_of_cons in H as [H|H]; [discriminate H|]).
  by apply elem_of_nil in H.
Qed.

Lemma add_link_NoDup qid id (links : list (Z * string)) :
  NoDup links -> NoDup (add_link qid links id).
Proof.
  intros Hnd. unfold add_link. case_bool_decide as Hin; [done|].
  apply NoDup_app. split_and!; [done | | apply NoDup_singleton].
  by intros x Hx ->%list_elem_of_singleton.
Qed.

Lemma store_ok_save_step qid (t : tables) (ir : string * row) :
  store_ok t -> qid ∈ (cached_queries t).*1 -> row_ok ir.2 ->
  store_ok (save_step qid t ir).
Proof.
  intros [Hpos Hseq Hids Hstrs Hlinks Hlq Hlp Hrows] Hqid Hrow.
  destruct ir as [id r]. split; cbn; try done.
  - by apply (add_link_NoDup qid id).
  - intros link. case_bool_decide; [by apply Hlq|].
    intros [?| ->%list_elem_of_singleton]%elem_of_app; [by apply Hlq | done].
  - intros link Hlink. rewrite lookup_insert_is_Some.
    destruct (decide (id = link.2)); [by left | right; split; [done|]].
    apply Hlp. case_bool_decide; [done|].
    apply elem_of_app in Hlink as [?| ->%list_elem_of_singleton]; done.
  - intros id' r'. rewrite lookup_insert_Some.
    intros [[_ <-]|[_ ?]]; [done | by eapply Hrows].
Qed.

Lemma rows_of_rows_ok lr (properties : list pydict) rs :
  rows_of lr properties = Ok rs -> Forall (fun ir => row_ok ir.2) rs.
Proof.
  unfold rows_of. revert rs.
  induction properties as [|prop rest IH]; intros rs; simpl.
  - intros [= <-]. constructor.
  - destruct (property_row prop) as [r|] eqn:Hr; simpl; [|done].
    destruct (mapM _ rest) as [rs'|]; simpl; [|done].
    intros [= <-]. constructor; [by apply property_row_row_ok in Hr | by apply IH].
Qed.

Lemma store_ok_foldl qid (rs : list (string * row)) (t : tables) :
  store_ok t -> qid ∈ (cached_queries t).*1 ->
  Forall (fun ir => row_ok ir.2) rs ->
  store_ok (foldl (save_step qid) t rs).
Proof.
  revert t. induction rs as [|ir rs IH]; intros t Hok Hqid Hall; [done|].
  apply Forall_cons in Hall as [Hrow Hall]. simpl.
  apply IH; [by apply store_ok_save_step | by destruct ir | done].
Qed.

Lemma save_store_ok lr (key : string) (properties : list pydict) (w : world) :
  store_ok (working w) ->
  store_ok (working (save_query_and_properties lr key properties w).2).
Proof.
  intros Hok. rewrite save_unfold. cbv zeta.
  pose proof (store_ok_insert_query key _ Hok) as Hok1.
  destruct (select_query_id key _) as [qid|] eqn:Hsel; [|done].
  destruct (loop_tables lr qid properties _) as [[u|e] t2] eqn:Hloop; [|done].
  apply loop_tables_ok in Hloop as (rs & Hrs & ->).
  apply store_ok_foldl; [done | | by eapply rows_of_rows_ok].
  apply select_query_id_Some in Hsel.
  by apply (list_elem_of_fmap_2 fst) in Hsel.
Qed.

Lemma save_leaves_nothing_pending lr (key : string) (properties : list pydict)
    (w : world) :
  committed (save_query_and_properties lr key properties w).2
  = working (save_query_and_properties lr key properties w).2.
Proof.
  rewrite save_unfold. cbv zeta.
  destruct (select_query_id key _) as [qid|]; [|done].
  by destruct (loop_tables lr qid properties _) as [[u|e] t2].
Qed.

(** X10. A save keeps the store well formed, whether it succeeds or fails:
    ids stay positive and unique, query strings and link pairs stay unique,
    every link still points to a stored query and a stored property, and
    every property row has an image column that can be read back. Nothing
    is left uncommitted. *)
Theorem save_keeps_the_store_well_formed lr (key : string)
    (properties : list pydict) (w : world) :
  store_ok (working w) ->
  store_ok (working (save_query_and_properties lr key properties w).2) /\
  committed (save_query_and_properties lr key properties w).2
  = working (save_query_and_properties lr key properties w).2.
Proof.
  intros Hok. split; [by apply save_store_ok | apply save_leaves_nothing_pending].
Qed.

Lemma store_ok_empty : store_ok empty_tables.
Proof.
  split; cbn; try done; try constructor.
  - intros link Hlink. by apply elem_of_nil in Hlink.
  - intros link Hlink. by apply elem_of_nil in Hlink.
Qed.

Lemma save_keeps_the_store_well_formed_witness :
  store_ok (working (save_query_and_properties no_repr "page=1"
                       [villa_a; villa_overflow] (fresh_world empty_tables)).2).
Proof.
  apply (save_keeps_the_store_well_formed no_repr "page=1"
           [villa_a; villa_overflow] (fresh_world empty_tables)).
  apply store_ok_empty.
Defined.

(** ** Reading the cache *)

Lemma get_image_column_of_row id (r : row) :
  get "all_image_urls" (dict_of_row id r) = get "all_image_urls" (dict_of_row "" r).
Proof. unfold dict_of_row. cbn [get]. by rewrite !decide_False by done. Qed.

Lemma all_image_urls_list_ok (v : pyval) :
  is_text_or_falsy v = true -> exists l, all_image_urls_list v = Ok (Li l).
Proof.
  unfold is_text_or_falsy, all_image_urls_list.
  destruct (truthy v); [|by eexists].
  destruct v as [[| | |s]|]; cbn; try done. by eexists.
Qed.

Lemma with_image_list_ok id (r : row) :
  row_ok r ->
  exists prop, with_image_list (dict_of_row id r) = Ok prop /\
               exists l, get "all_image_urls" prop = Li l.
Proof.
  intros Hr. unfold with_image_list. rewrite get_image_column_of_row.
  destruct (all_image_urls_list_ok _ Hr) as [l ->]. cbn [rbind].
  eexists. split; [reflexivity|]. exists l. apply get_dict_set_eq.
Qed.

Lemma mapM_with_image_list_ok (sel : list (string * row)) :
  Forall (fun ir => row_ok ir.2) sel ->
  exists rows,
    mapM (fun r : string * row => with_image_list (dict_of_row r.1 r.2)) sel = Ok rows /\
    Forall (fun prop => exists l, get "all_image_urls" prop = Li l) rows.
Proof.
  induction 1 as [|[id r] sel Hr _ (rows & Hrows & Hall)]; simpl.
  - exists []. by split.
  - destruct (with_image_list_ok id r Hr) as (prop & -> & Hl). rewrite Hrows.
    exists (prop :: rows). split; [done | by constructor].
Qed.

Lemma select_properties_rows_ok ro qid (t : tables) :
  (forall id r, cached_properties t !! id = Some r -> row_ok r) ->
  Forall (fun ir : string * row => row_ok ir.2) (select_properties_of_query ro qid t).
Proof.
  intros Hrows. unfold select_properties_of_query.
  apply Forall_forall. intros [id r] Hin.
  apply list_elem_of_omap in Hin as (link & _ & Hlink).
  destruct (cached_properties t !! link.2) as [r'|] eqn:Hr; [|done].
  injection Hlink as <- <-. by eapply Hrows.
Qed.

Lemma get_properties_ok ro qid (w : world) :
  store_ok (working w) ->
  exists rows,
    get_properties_for_query ro qid w = (Ok rows, w) /\
    Forall (fun prop => exists l, get "all_image_urls" prop = Li l) rows.
Proof.
  intros Hok.
  destruct (mapM_with_image_list_ok _
              (select_properties_rows_ok ro qid _ (rows_ok _ Hok)))
    as (rows & Hrows & Hall).
  exists rows. split; [|done].
  unfold get_properties_for_query, bind, select, lift. by rewrite Hrows.
Qed.


(** ** The search as a whole *)

Lemma fetch_live_store_ok lr pf (c : pydict) key (w : world) :
  store_ok (working w) -> store_ok (working (fetch_live lr pf c key w).2).
Proof.
  intros Hok. rewrite fetch_live_unfold. cbv zeta.
  destruct (pf _) as [properties|e]; [|done].
  destruct (negb (bool_decide (properties = []))).
  - pose proof (save_store_ok lr key properties (count_call w) Hok) as Hok'.
    by destruct (save_query_and_properties lr key properties (count_call w))
      as [[u|e] w'].
  - done.
Qed.

Lemma search_store_ok lr ro pf (filters : pydict) (page limit : Z) (w : world) :
  store_ok (working w) ->
  store_ok (working (search_properties lr ro pf filters page limit w).2).
Proof.
  intros Hok. rewrite search_unfold. cbv zeta.
  destruct (select_query_id _ _) as [id|]; [|by apply fetch_live_store_ok].
  destruct (negb (id =? 0)%Z); [done | by apply fetch_live_store_ok].
Qed.

(** X11. On a well-formed store the read of a query's listings never
    raises, whatever the query id and whatever the order in which the
    database returns the rows; it changes nothing, and every listing comes
    back with a list under [all_image_urls]. *)
Theorem cached_read_never_fails ro (query_id : Z) (w : world) :
  store_ok (working w) ->
  exists rows,
    get_properties_for_query ro query_id w = (Ok rows, w) /\
    Forall (fun prop => exists l, get "all_image_urls" prop = Li l) rows.
Proof. apply get_properties_ok. Qed.

Lemma cached_read_never_fails_witness :
  exists rows,
    get_properties_for_query by_property_id 1 (after_first_search scenario_A 1 50)
      = (Ok rows, after_first_search scenario_A 1 50) /\
    Forall (fun prop => exists l, get "all_image_urls" prop = Li l) rows.
Proof.
  apply (cached_read_never_fails by_property_id 1 (after_first_search scenario_A 1 50)).
  apply search_store_ok, store_ok_empty.
Defined.

(** X12. A search keeps the store well formed, whatever the listing source
    answers and whether the search succeeds or raises. *)
Theorem search_keeps_the_store_well_formed lr ro pf (filters : pydict)
    (page limit : Z) (w : world) :
  store_ok (working w) ->
  store_ok (working (search_properties lr ro pf filters page limit w).2).
Proof. apply search_store_ok. Qed.

Lemma search_keeps_the_store_well_formed_witness :
  store_ok (working (search_properties no_repr by_property_id
                       (fun _ => Ok [villa_a; villa_overflow]) scenario_A 1 50
                       (fresh_world empty_tables)).2).
Proof.
  apply (search_keeps_the_store_well_formed no_repr by_property_id
           (fun _ => Ok [villa_a; villa_overflow]) scenario_A 1 50
           (fresh_world empty_tables)).
  apply store_ok_empty.
Defined.

Lemma select_query_id_is_Some key (qs : list (Z * string)) :
  key ∈ qs.*2 -> is_Some (select_query_id key qs).
Proof.
  intros Hin. destruct (select_query_id key qs) eqn:Hsel; [done|].
  by apply select_query_id_None in Hsel.
Qed.

Lemma search_hit lr ro pf (filters : pydict) (page limit : Z) (w : world) :
  store_ok (working w) ->
  cache_key filters page limit ∈ (cached_queries (working w)).*2 ->
  exists id rows,
    select_query_id (cache_key filters page limit) (cached_queries (working w))
      = Some id /\
    get_properties_for_query ro id w = (Ok rows, w) /\
    search_properties lr ro pf filters page limit w
      = (Ok (paginate rows page limit), w).
Proof.
  intros Hok Hkey.
  destruct (select_query_id_is_Some _ _ Hkey) as [id Hsel].
  destruct (get_properties_ok ro id w Hok) as (rows & Hrows & _).
  exists id, rows. split_and!; [done | done |].
  rewrite search_unfold. cbv zeta. rewrite Hsel.
  pose proof (ids_positive _ Hok) as Hpos. rewrite Forall_forall in Hpos.
  apply select_query_id_Some in Hsel. specialize (Hpos _ Hsel). simpl in Hpos.
  destruct (id =? 0)%Z eqn:Hz; [lia|]. cbn [negb]. by rewrite Hrows.
Qed.

(** X13. On a well-formed store, a search whose key is in [cached_queries]
    never raises, makes no call to the listing source and changes nothing:
    it returns the requested slice of the rows linked to the key. *)
Theorem cached_key_is_served_from_the_store lr ro pf (filters : pydict)
    (page limit : Z) (w : world) :
  store_ok (working w) ->
  cache_key filters page limit ∈ (cached_queries (working w)).*2 ->
  exists id rows,
    select_query_id (cache_key filters page limit) (cached_queries (working w))
      = Some id /\
    get_properties_for_query ro id w = (Ok rows, w) /\
    search_properties lr ro pf filters page limit w
      = (Ok (paginate rows page limit), w).
Proof. apply search_hit. Qed.

Lemma cached_key_is_served_from_the_store_witness :
  exists id rows,
    select_query_id (cache_key scenario_A 1 50)
      (cached_queries (working (after_first_search scenario_A 1 50))) = Some id /\
    get_properties_for_query by_property_id id (after_first_search scenario_A 1 50)
      = (Ok rows, after_first_search scenario_A 1 50) /\
    search_properties no_repr by_property_id (fun _ => Raise UpstreamFetchError)
      scenario_A 1 50 (after_first_search scenario_A 1 50)
    = (Ok (paginate rows 1 50), after_first_search scenario_A 1 50).
Proof.
  apply (cached_key_is_served_from_the_store no_repr by_property_id
           (fun _ => Raise UpstreamFetchError) scenario_A 1 50
           (after_first_search scenario_A 1 50)).
  - apply search_store_ok, store_ok_empty.
  - vm_compute. by left.
Defined.

Lemma save_caches_the_key lr (key : string) (properties : list pydict) (w : world) :
  key ∈ (cached_queries (working (save_query_and_properties lr key properties w).2)).*2.
Proof.
  assert (key ∈ (cached_queries (insert_or_ignore_query key (working w))).*2) as Hin.
  { destruct (select_after_insert key (working w)) as [id Hid].
    apply select_query_id_Some in Hid. by apply (list_elem_of_fmap_2 snd) in Hid. }
  rewrite save_unfold. cbv zeta.
  destruct (select_query_id key _) as [qid|]; [|done].
  destruct (loop_tables lr qid properties _) as [[u|e] t2] eqn:Hloop; [|done].
  apply loop_tables_ok in Hloop as (rs & _ & ->). cbn [snd set_both working].
  by rewrite (proj1 (foldl_save_step_queries _ _ _)).
Qed.

(** X14. Once a save has been attempted for the key of a search, whether
    it succeeded or failed, that search is served from the store: it no
    longer reaches the listing source. *)
Theorem a_saved_key_is_never_fetched_again lr ro pf (filters : pydict)
    (page limit : Z) (properties : list pydict) (w : world) :
  store_ok (working w) ->
  let w' := (save_query_and_properties lr (cache_key filters page limit)
               properties w).2 in
  exists rows,
    search_properties lr ro pf filters page limit w' = (Ok rows, w').
Proof.
  intros Hok w'.
  destruct (search_hit lr ro pf filters page limit w') as (id & rows & _ & _ & ->).
  - by apply save_store_ok.
  - apply save_caches_the_key.
  - by eexists.
Qed.

Lemma a_saved_key_is_never_fetched_again_witness :
  exists rows,
    search_properties no_repr by_property_id (fun _ => Raise UpstreamFetchError)
      scenario_A 1 50
      (save_query_and_properties no_repr (cache_key scenario_A 1 50)
         [villa_a; villa_overflow] (fresh_world empty_tables)).2
    = (Ok rows,
       (save_query_and_properties no_repr (cache_key scenario_A 1 50)
          [villa_a; villa_overflow] (fresh_world empty_tables)).2).
Proof.
  apply (a_saved_key_is_never_fetched_again no_repr by_property_id
           (fun _ => Raise UpstreamFetchError) scenario_A 1 50
           [villa_a; villa_overflow] (fresh_world empty_tables)).
  apply store_ok_empty.
Defined.

(** ** What a save adds *)

Lemma add_links_prefix qid (ids : list string) (links : list (Z * string)) :
  links `prefix_of` foldl (add_link qid) links ids.
Proof.
  revert links. induction ids as [|id ids IH]; intros links; simpl; [done|].
  etrans; [|apply IH]. unfold add_link. case_bool_decide; [done|].
  by apply prefix_app_r.
Qed.

Lemma insert_query_prefix key (t : tables) :
  cached_queries t `prefix_of` cached_queries (insert_or_ignore_query key t).
Proof.
  unfold insert_or_ignore_query. cbn.
  destruct (select_query_id key (cached_queries t)); [done|].
  by apply prefix_app_r.
Qed.

(** X15. A save never removes or rewrites anything it was not given: the
    query rows and the links present before the call are still there, in
    the same order and in front of the new ones; every link it adds belongs
    to the query of the key; and the row of a property id that is not the
    [str] of the id of one of the listings is left as it was. This holds
    whether the save succeeds or fails. *)
Theorem save_only_adds lr (key : string) (properties : list pydict) (w : world) :
  let t := working w in
  let t' := working (save_query_and_properties lr key properties w).2 in
  cached_queries t `prefix_of` cached_queries t' /\
  query_property_map t `prefix_of` query_property_map t' /\
  (forall link, link ∈ query_property_map t' -> link ∉ query_property_map t ->
                select_query_id key (cached_queries t') = Some link.1) /\
  (forall id, id ∉ (fun prop => py_str lr (get "id" prop)) <$> properties ->
              cached_properties t' !! id = cached_properties t !! id).
Proof.
  cbv zeta. rewrite save_unfold. cbv zeta.
  pose proof (insert_query_prefix key (working w)) as Hq.
  destruct (select_query_id key _) as [qid|] eqn:Hsel; [|by split_and!].
  destruct (loop_tables lr qid properties _) as [[u|e] t2] eqn:Hloop;
    [|by split_and!].
  apply loop_tables_ok in Hloop as (rs & Hrs & ->). cbn [snd set_both working].
  rewrite (proj1 (foldl_save_step_queries _ _ _)), foldl_save_step_links.
  split_and!; [done | apply add_links_prefix | |].
  - intros link Hin Hnew. apply add_links_elem_of in Hin as [?|(id & _ & ->)]; done.
  - intros id Hid. rewrite lookup_foldl_save_step_other; [done|].
    by rewrite (rows_of_ids _ _ _ Hrs).
Qed.

(** X16. When several listings of one save have ids with the same [str],
    they share one row, and the row left in the store is that of the last
    of them: after a successful save, the row stored under the [str] of
    the id of a listing that no later listing shadows holds the values
    bound for exactly that listing. *)
Theorem last_listing_with_an_id_wins lr (key : string) (l1 l2 : list pydict)
    (prop : pydict) (w w' : world) :
  save_query_and_properties lr key (l1 ++ prop :: l2) w = (Ok tt, w') ->
  Forall (fun p => py_str lr (get "id" p) <> py_str lr (get "id" prop)) l2 ->
  exists r, property_row prop = Ok r /\
            cached_properties (committed w') !! py_str lr (get "id" prop) = Some r.
Proof. apply save_last_wins. Qed.

Lemma last_listing_with_an_id_wins_witness :
  exists r, property_row villa_a_repriced = Ok r /\
            cached_properties
              (committed (save_query_and_properties no_repr "page=1"
                            [villa_a; villa_a_repriced; villa_b]
                            (fresh_world empty_tables)).2) !! "7001" = Some r.
Proof.
  apply (last_listing_with_an_id_wins no_repr "page=1" [villa_a] [villa_b]
           villa_a_repriced (fresh_world empty_tables)).
  - vm_compute. reflexivity.
  - repeat constructor. vm_compute. discriminate.
Defined.

(** ** What is read back from a row *)

Lemma mapM_bind_column_elem prop (columns : list (string * affinity)) r c a :
  mapM (bind_column prop) columns = Ok r ->
  (c, a) ∈ columns ->
  exists v, bind_param (get c prop) = Ok v /\ (c, store_as a v) ∈ r.
Proof.
  revert r. induction columns as [|col columns IH]; intros r; simpl.
  - intros _ Hin. by apply elem_of_nil in Hin.
  - unfold bind_column at 1.
    destruct (bind_param (get col.1 prop)) as [v|] eqn:Hv; simpl; [|done].
    destruct (mapM (bind_column prop) columns) as [r'|]; simpl; [|done].
    intros [= <-] [Heq|Hin]%elem_of_cons; [subst col|].
    + exists v. split; [done | by left].
    + destruct (IH r' eq_refl Hin) as (v' & Hv' & Hin'). exists v'.
      split; [done | by right].
Qed.

Lemma get_of_row_elem (r : row) c v :
  NoDup r.*1 -> (c, v) ∈ r ->
  get c ((fun cv : string * sqlval => (cv.1, of_sqlval cv.2)) <$> r) = of_sqlval v.
Proof.
  induction r as [|[c' v'] r IH]; intros Hnd Hin; [by apply elem_of_nil in Hin|].
  rewrite fmap_cons in Hnd. apply NoDup_cons in Hnd as [Hc' Hnd].
  cbn. apply elem_of_cons in Hin as [[= -> ->]|Hin].
  - by rewrite decide_True.
  - rewrite decide_False; [by apply IH|].
    intros ->. apply Hc'. by apply (list_elem_of_fmap_2 fst) in Hin.
Qed.

Lemma read_back_spec a v x y :
  bind_param v = Ok x -> read_back a v = Some y -> of_sqlval (store_as a x) = y.
Proof.
  destruct v as [[|b|z|s]|l]; simpl.
  - intros [= <-]. by destruct a; intros [= <-].
  - intros [= <-]. by destruct a; intros [= <-].
  - destruct (_ && _); [|done]. intros [= <-]. by destruct a; intros [= <-].
  - intros [= <-]. by destruct a; intros [= <-].
  - done.
Qed.

Lemma keys_of_dict_of_row id (r : row) : (dict_of_row id r).*1 = "id" :: r.*1.
Proof.
  unfold dict_of_row. rewrite fmap_cons. f_equal.
  rewrite <- list_fmap_compose. by apply list_fmap_ext.
Qed.

Lemma keys_dict_set_present k v (d : pydict) :
  k ∈ d.*1 -> (dict_set k v d).*1 = d.*1.
Proof.
  induction d as [|[k' v'] d IH]; intros Hin; [by apply elem_of_nil in Hin|].
  simpl. destruct (decide (k = k')) as [->|Hne]; [done|].
  rewrite !fmap_cons. f_equal. apply IH.
  apply elem_of_cons in Hin as [?|?]; done.
Qed.

Lemma property_row_columns (prop : pydict) (r : row) :
  property_row prop = Ok r ->
  "id" :: r.*1 = schema_columns /\
  forall c a, (c, a) ∈ columns_before_images ++ columns_after_images ->
              exists v, bind_param (get c prop) = Ok v /\ (c, store_as a v) ∈ r.
Proof.
  unfold property_row.
  destruct (all_image_urls_str prop) as [s|]; cbn [rbind]; [|done].
  destruct (mapM (bind_column prop) columns_before_images) as [before|] eqn:Hb;
    cbn [rbind]; [|done].
  destruct (bind_param s) as [images|]; cbn [rbind]; [|done].
  destruct (mapM (bind_column prop) columns_after_images) as [after|] eqn:Ha;
    cbn [rbind]; [|done].
  intros Heq.
  assert (r = before ++ [("all_image_urls", store_as TEXT images)] ++ after)
    as -> by congruence.
  split.
  - rewrite !fmap_app, (mapM_bind_column_names _ _ _ Hb),
      (mapM_bind_column_names _ _ _ Ha). reflexivity.
  - intros c a [Hin|Hin]%elem_of_app.
    + destruct (mapM_bind_column_elem _ _ _ _ _ Hb Hin) as (v & Hv & Hin').
      exists v. split; [done|]. apply elem_of_app. by left.
    + destruct (mapM_bind_column_elem _ _ _ _ _ Ha Hin) as (v & Hv & Hin').
      exists v. split; [done|]. rewrite !elem_of_app. right. by right.
Qed.

Lemma schema_columns_NoDup : NoDup schema_columns.
Proof. apply (bool_decide_unpack _). vm_compute. exact I. Qed.

Lemma read_back_keys (prop : pydict) (r : row) (id : string) (d : pydict) :
  property_row prop = Ok r ->
  with_image_list (dict_of_row id r) = Ok d ->
  d.*1 = schema_columns.
Proof.
  intros Hr Hd. destruct (property_row_columns _ _ Hr) as [Hkeys _].
  unfold with_image_list in Hd.
  destruct (all_image_urls_list _) as [urls|]; cbn [rbind] in Hd; [|done].
  assert (d = dict_set "all_image_urls" urls (dict_of_row id r)) as ->
    by congruence.
  rewrite keys_dict_set_present.
  - by rewrite keys_of_dict_of_row.
  - rewrite keys_of_dict_of_row, Hkeys. vm_compute.
    do 12 right. by left.
Qed.

(** X17. What a listing looks like when it is read back. If the values of
    a listing can be bound, the dict read back from its row has each of the
    eighteen columns that the save writes among its keys, whatever keys the
    listing had; its id is the key of the row; and each plain column holds
    the value of the listing's field as the column's affinity stores it:
    [None] for [None] and for a missing field, the same text for a [str]
    in a text column, the decimal text for a number in a text column, the
    same integer in an integer column, 0 or 1 for a [bool]. The column
    [created_at], which the database fills in and the model leaves out, is
    a further key of the dict that the code returns. *)
Theorem stored_fields_read_back (prop : pydict) (r : row) (id : string)
    (d : pydict) :
  property_row prop = Ok r ->
  with_image_list (dict_of_row id r) = Ok d ->
  (forall c, c ∈ schema_columns -> has_key c d = true) /\
  get "id" d = Sc (SStr id) /\
  forall c a v,
    (c, a) ∈ columns_before_images ++ columns_after_images ->
    read_back a (get c prop) = Some v ->
    get c d = v.
Proof.
  intros Hr Hd. destruct (property_row_columns _ _ Hr) as [Hkeys Hcols].
  pose proof schema_columns_NoDup as Hnd. rewrite <- Hkeys in Hnd.
  split_and!.
  - intros c Hc. unfold has_key. apply bool_decide_eq_true.
    by rewrite (read_back_keys _ _ _ _ Hr Hd).
  - by eapply with_image_list_id.
  - intros c a v Hin Hback.
    destruct (Hcols c a Hin) as (x & Hx & Hin').
    assert (c <> "id" /\ c <> "all_image_urls") as [Hid Himg].
    { clear -Hin. unfold columns_before_images, columns_after_images in Hin.
      cbn [app] in Hin.
      repeat (apply elem_of_cons in Hin as [[= -> _]|Hin]; [by split|]).
      by apply elem_of_nil in Hin. }
    unfold with_image_list in Hd.
    destruct (all_image_urls_list _) as [urls|]; cbn [rbind] in Hd; [|done].
    assert (d = dict_set "all_image_urls" urls (dict_of_row id r)) as ->
      by congruence.
    rewrite get_dict_set_ne by done.
    unfold dict_of_row. cbn [get]. rewrite decide_False by done.
    rewrite (get_of_row_elem r c (store_as a x)); [|by eapply NoDup_cons_1_2 | done].
    by eapply read_back_spec.
Qed.

Lemma stored_fields_read_back_witness :
  has_key "whatsapp_number" stored_a = true /\
  get "id" stored_a = Sc (SStr "7001") /\
  get "price" stored_a = Sc (SInt 9500000) /\
  get "mobile_number" stored_a = PyNone.
Proof.
  destruct (stored_fields_read_back villa_a
              [("title", Text "Villa in Victory Heights"); ("price", Integer 9500000);
               ("area", Null); ("rooms", Integer 5); ("baths", Null);
               ("purpose", Text "For Sale"); ("completion_status", Null);
               ("latitude", Null); ("longitude", Null); ("location_name", Null);
               ("cover_photo_url", Null);
               ("all_image_urls",
                Text "https://img.example/7001/1.jpg,https://img.example/7001/2.jpg");
               ("agency_name", Null); ("contact_name", Null);
               ("mobile_number", Null); ("whatsapp_number", Null);
               ("down_payment_percentage", Null)]
              "7001" stored_a) as (Hkeys & Hid & Hcols).
  - vm_compute. reflexivity.
  - vm_compute. reflexivity.
  - split_and!; [|exact Hid | |].
    + apply Hkeys. vm_compute. do 16 right. by left.
    + apply (Hcols "price" INTEGER); [vm_compute; do 1 right; by left | reflexivity].
    + apply (Hcols "mobile_number" TEXT); [vm_compute; do 13 right; by left | reflexivity].
Defined.

(** ** The detail route *)

Lemma api_property_detail_unfold (property_id : Z) (w : world) :
  api_property_detail property_id w =
  (match cached_properties (working w) !! pretty property_id with
   | None => Ok (Abort 404)
   | Some r =>
       let? property_dict := with_image_list (dict_of_row (pretty property_id) r) in
       Ok (Json property_dict)
   end, w).
Proof.
  unfold api_property_detail, bind, select. cbn [py_str_scalar].
  destruct (cached_properties (working w) !! pretty property_id) as [r|];
    [|reflexivity].
  unfold lift, ret. by destruct (with_image_list _).
Qed.

Lemma detail_on_store_ok (property_id : Z) (w : world) :
  store_ok (working w) ->
  (cached_properties (working w) !! pretty property_id = None /\
   api_property_detail property_id w = (Ok (Abort 404), w)) \/
  (exists d l,
     api_property_detail property_id w = (Ok (Json d), w) /\
     get "id" d = Sc (SStr (pretty property_id)) /\
     get "all_image_urls" d = Li l).
Proof.
  intros Hok. rewrite api_property_detail_unfold.
  destruct (cached_properties (working w) !! pretty property_id) as [r|] eqn:Hr;
    [right | by left].
  destruct (with_image_list_ok (pretty property_id) r (rows_ok _ Hok _ _ Hr))
    as (d & Hd & l & Hl).
  exists d, l. rewrite Hd. split_and!; [done | | done].
  by eapply with_image_list_id.
Qed.



(** X19. Every listing of a successful save whose id is a non-negative
    integer, or the decimal text of one, can be fetched through the detail
    route under that number; the answer carries the decimal text as its
    id. The converter of the route accepts unsigned digits only, so a
    negative number never reaches the view. *)
Theorem detail_route_finds_a_saved_listing lr (key : string)
    (properties : list pydict) (prop : pydict) (property_id : Z) (w w' : world) :
  (0 <= property_id)%Z ->
  store_ok (working w) ->
  save_query_and_properties lr key properties w = (Ok tt, w') ->
  prop ∈ properties ->
  py_str lr (get "id" prop) = pretty property_id ->
  exists d, api_property_detail property_id w' = (Ok (Json d), w') /\
            get "id" d = Sc (SStr (pretty property_id)).
Proof.
  intros _ Hok Hsave Hprop Hid.
  pose proof (save_store_ok lr key properties w Hok) as Hok'.
  rewrite Hsave in Hok'. cbn [snd] in Hok'.
  destruct (detail_on_store_ok property_id w' Hok')
    as [[Hnone _]|(d & l & Hd & Hdid & _)]; [|by exists d].
  exfalso. revert Hsave. rewrite save_unfold. cbv zeta.
  destruct (select_query_id key _) as [qid|]; [|done].
  destruct (loop_tables lr qid properties _) as [[u|e] t2] eqn:Hloop; [|done].
  apply loop_tables_ok in Hloop as (rs & Hrs & ->). intros [= <-].
  cbn [set_both working] in Hnone.
  destruct (lookup_foldl_save_step qid rs
              (insert_or_ignore_query key (working w)) (pretty property_id))
    as [r Hr]; [|congruence].
  rewrite (rows_of_ids _ _ _ Hrs), <- Hid. apply list_elem_of_fmap. eauto.
Qed.

Lemma detail_route_finds_a_saved_listing_witness :
  exists d,
    api_property_detail 7001
      (save_query_and_properties no_repr "page=1" [villa_a_repriced; villa_b]
         (fresh_world empty_tables)).2
    = (Ok (Json d),
       (save_query_and_properties no_repr "page=1" [villa_a_repriced; villa_b]
          (fresh_world empty_tables)).2) /\
    get "id" d = Sc (SStr "7001").
Proof.
  apply (detail_route_finds_a_saved_listing no_repr "page=1"
           [villa_a_repriced; villa_b] villa_a_repriced 7001
           (fresh_world empty_tables)).
  - lia.
  - apply store_ok_empty.
  - vm_compute. reflexivity.
  - by left.
  - vm_compute. reflexivity.
Defined.

(** ** The search route *)

Lemma search_depends_on_the_cleaned_filters lr ro pf (filters filters' : pydict)
    (page limit : Z) (w : world) :
  with_pagination (clean_filters filters) page limit
  = with_pagination (clean_filters filters') page limit ->
  search_properties lr ro pf filters page limit w
  = search_properties lr ro pf filters' page limit w.
Proof.
  intros Heq. rewrite !search_unfold. cbv zeta. unfold cache_key. by rewrite Heq.
Qed.

Lemma clean_filters_app (d d' : pydict) :
  clean_filters (d ++ d') = clean_filters d ++ clean_filters d'.
Proof. unfold clean_filters. apply List.filter_app. Qed.

Lemma dict_set_app_absent k v (d d' : pydict) :
  k ∉ d.*1 -> dict_set k v (d ++ d') = d ++ dict_set k v d'.
Proof.
  induction d as [|[k' v'] d IH]; intros Hk; [done|].
  rewrite fmap_cons, not_elem_of_cons in Hk. destruct Hk as [Hne Hk].
  simpl. rewrite decide_False by done. by rewrite IH.
Qed.

Lemma clean_filters_keys (d : pydict) k : k ∈ (clean_filters d).*1 -> k ∈ d.*1.
Proof.
  unfold clean_filters. intros Hk.
  apply list_elem_of_fmap in Hk as (kv & -> & Hkv).
  apply list_elem_of_In, List.filter_In in Hkv as [Hkv _].
  apply list_elem_of_fmap. exists kv. split; [done | by apply list_elem_of_In].
Qed.

(** The [page] entry of the filters is overwritten by the [page] argument
    before anything reads it. *)
Lemma page_entry_is_overwritten (before after : pydict) (v v' : pyval)
    (page limit : Z) :
  "page" ∉ before.*1 ->
  truthy v = true -> v <> Li [SStr ""] ->
  truthy v' = true -> v' <> Li [SStr ""] ->
  with_pagination (clean_filters (before ++ ("page", v) :: after)) page limit
  = with_pagination (clean_filters (before ++ ("page", v') :: after)) page limit.
Proof.
  intros Hk Hv Hv1 Hv' Hv1'. unfold with_pagination. f_equal.
  rewrite !clean_filters_app.
  assert ("page" ∉ (clean_filters before).*1) as Hk'
    by (intros H; by apply Hk, clean_filters_keys).
  rewrite !dict_set_app_absent by done. f_equal.
  unfold clean_filters. cbn [List.filter snd].
  rewrite Hv, Hv'. rewrite !bool_decide_false by done. cbn [negb andb dict_set].
  by rewrite !decide_True.
Qed.

(** X20. The [page] parameter of [/api/search] has no effect: the route
    calls the search with its default [page=1], which overwrites the
    [page] entry of the filters, so two requests that differ only in a
    non-zero page number get the same answer and leave the same state. *)
Theorem api_search_ignores_the_page_parameter lr ro pf (args : search_args)
    (page page' : Z) (w : world) :
  page <> 0%Z -> page' <> 0%Z ->
  api_search lr ro pf (with_page args page) w
  = api_search lr ro pf (with_page args page') w.
Proof.
  intros Hp Hp'. unfold api_search.
  rewrite (search_depends_on_the_cleaned_filters lr ro pf
             (api_search_filters (with_page args page))
             (api_search_filters (with_page args page'))); [done|].
  apply (page_entry_is_overwritten
           [("query", _); ("purpose", _); ("property_type", _); ("beds", _);
            ("baths", _)]).
  - cbn. intros H.
    repeat (apply elem_of_cons in H as [H|H]; [discriminate H|]).
    by apply elem_of_nil in H.
  - cbn. by destruct (page =? 0)%Z eqn:E; [lia|].
  - done.
  - cbn. by destruct (page' =? 0)%Z eqn:E; [lia|].
  - done.
Qed.

Lemma api_search_ignores_the_page_parameter_witness :
  api_search no_repr by_property_id three_villas (with_page request_A 1)
    (fresh_world empty_tables)
  = api_search no_repr by_property_id three_villas (with_page request_A 2)
      (fresh_world empty_tables).
Proof.
  apply (api_search_ignores_the_page_parameter no_repr by_property_id three_villas
           request_A 1 2 (fresh_world empty_tables)); lia.
Defined.

(** ** [int(str(n))] *)

Lemma all_chars_rev_app P (s1 s2 : string) :
  all_chars P (String.rev_app s1 s2) = all_chars P s1 && all_chars P s2.
Proof.
  revert s2. induction s1 as [|c s1 IH]; intros s2; simpl; [done|].
  rewrite IH. simpl. by destruct (P c), (all_chars P s1), (all_chars P s2).
Qed.

Lemma rev_app_rev_app (s1 s2 s3 : string) :
  String.rev_app (String.rev_app s1 s2) s3 = String.rev_app s2 (s1 +:+ s3).
Proof.
  revert s2 s3. induction s1 as [|c s1 IH]; intros s2 s3; simpl; [done|].
  by rewrite IH.
Qed.

Lemma lstrip_by_none space (s : string) :
  all_chars (fun c => negb (space c)) s = true -> lstrip_by space s = s.
Proof. destruct s as [|c s]; simpl; [done|]. by destruct (space c). Qed.

Lemma strip_by_none space (s : string) :
  all_chars (fun c => negb (space c)) s = true -> strip_by space s = s.
Proof.
  intros Hs. unfold strip_by. rewrite (lstrip_by_none _ _ Hs).
  rewrite lstrip_by_none.
  - unfold String.rev. rewrite rev_app_rev_app. cbn [String.rev_app].
    clear. induction s as [|c s IH]; [done|].
    change (String c s +:+ "") with (String c (s +:+ "")). by rewrite IH.
  - unfold String.rev. by rewrite all_chars_rev_app, Hs.
Qed.

Lemma digit_of_pretty_N_char (d : N) :
  (d < 10)%N -> digit_of (pretty_N_char d) = Some (Z.of_N d).
Proof.
  intros Hd.
  destruct d as [|[[[|[]|]|[[]|[]|]|]|[[|[]|]|[[]|[]|]|]|]]; try lia; reflexivity.
Qed.

Lemma parse_digits_pretty_N_go (x : N) (acc : Z) (prev : bool) (s : string) :
  (0 < x)%N ->
  exists m : Z,
    parse_digits acc prev (pretty_N_go x s) = parse_digits (acc * m + Z.of_N x) true s.
Proof.
  revert acc prev s. induction (N.lt_wf_0 x) as [x _ IH]. intros acc prev s Hx.
  rewrite pretty_N_go_step by done.
  destruct (N.eq_0_gt_0_cases (x `div` 10)) as [Hq|Hq].
  - rewrite Hq, pretty_N_go_0. cbn [parse_digits].
    rewrite digit_of_pretty_N_char by (apply N.mod_lt; lia).
    exists 10%Z. f_equal.
    assert (x `mod` 10 = x)%N as -> by (apply N.mod_small; apply N.div_small_iff; lia).
    lia.
  - destruct (IH (x `div` 10)%N) with (acc := acc) (prev := prev)
      (s := String (pretty_N_char (x `mod` 10)) s) as [m Hm];
      [apply N.div_lt; lia | done |].
    rewrite Hm. cbn [parse_digits].
    rewrite digit_of_pretty_N_char by (apply N.mod_lt; lia).
    exists (10 * m)%Z. f_equal.
    pose proof (N.div_mod x 10 ltac:(lia)) as Hdm. lia.
Qed.

Lemma all_digits_pretty_N_go (x : N) (s : string) :
  all_chars is_digit s = true -> all_chars is_digit (pretty_N_go x s) = true.
Proof.
  revert s. induction (N.lt_wf_0 x) as [x _ IH]. intros s Hs.
  assert (x = 0 \/ 0 < x)%N as [->|Hx] by lia; [by rewrite pretty_N_go_0|].
  rewrite pretty_N_go_step by done. apply IH; [apply N.div_lt; lia|].
  simpl. rewrite Hs. unfold is_digit.
  by rewrite digit_of_pretty_N_char by (apply N.mod_lt; lia).
Qed.

Lemma is_digit_not_space c : is_digit c = true -> negb (is_c_space c) = true.
Proof.
  destruct c as [[] [] [] [] [] [] [] []]; vm_compute; congruence.
Qed.

Lemma all_chars_impl (P Q : ascii -> bool) (s : string) :
  (forall c, P c = true -> Q c = true) ->
  all_chars P s = true -> all_chars Q s = true.
Proof.
  intros HPQ. induction s as [|c s IH]; simpl; [done|].
  intros [Hc Hs]%andb_true_iff. by rewrite (HPQ _ Hc), IH.
Qed.

Lemma int_of_digits (s : string) (z : Z) :
  all_chars is_digit s = true ->
  parse_digits 0 false s = Some z ->
  int_of_str s = Ok z /\ int_of_str (String "-" s) = Ok (- z)%Z.
Proof.
  intros Hs Hz. unfold int_of_str.
  rewrite !strip_by_none.
  - split.
    + destruct s as [|c s]; [done|]. simpl in Hs.
      apply andb_true_iff in Hs as [Hc _].
      assert (c <> "-"%char /\ c <> "+"%char) as [Hm Hp].
      { split; intros ->; vm_compute in Hc; congruence. }
      destruct c as [[] [] [] [] [] [] [] []]; try done; by rewrite Hz.
    + by rewrite Hz.
  - cbn [all_chars]. apply andb_true_iff. split; [done|].
    apply (all_chars_impl is_digit); [apply is_digit_not_space | done].
  - apply (all_chars_impl is_digit); [apply is_digit_not_space | done].
Qed.

Lemma int_of_pretty_pos (p : positive) :
  all_chars is_digit (pretty (N.pos p)) = true /\
  parse_digits 0 false (pretty (N.pos p)) = Some (Z.pos p).
Proof.
  unfold pretty, pretty_N. rewrite decide_False by done. split.
  - by apply all_digits_pretty_N_go.
  - destruct (parse_digits_pretty_N_go (N.pos p) 0 false "") as [m ->]; [lia|].
    simpl. done.
Qed.

(** [int(str(n)) == n]. *)
Lemma int_of_str_pretty (z : Z) : int_of_str (pretty z) = Ok z.
Proof.
  destruct z as [|p|p].
  - reflexivity.
  - destruct (int_of_pretty_pos p) as [Hd Hp].
    by apply (int_of_digits _ _ Hd Hp).
  - destruct (int_of_pretty_pos p) as [Hd Hp].
    by apply (int_of_digits _ _ Hd Hp).
Qed.

(** ** The search tool *)

Lemma has_key_get (k : string) (d : pydict) :
  is_none (get k d) = false -> has_key k d = true.
Proof.
  unfold has_key. induction d as [|[k' v] d IH]; simpl; [done|].
  destruct (decide (k = k')) as [->|Hne]; intros Hv.
  - apply bool_decide_eq_true. by left.
  - apply bool_decide_eq_true. right. apply (bool_decide_eq_true _). by apply IH.
Qed.

Lemma get_rename_key_ne (k old new : string) (d : pydict) :
  k <> old -> k <> new -> get k (rename_key old new d) = get k d.
Proof.
  intros Ho Hn. unfold rename_key. destruct (has_key old d); [|done].
  by rewrite get_dict_set_ne, get_dict_del_ne.
Qed.

Lemma get_beds_renamed (filters : pydict) :
  get "beds" (rename_key "location_query" "query"
                (rename_key "location" "query" filters))
  = get "beds" filters.
Proof. by rewrite !get_rename_key_ne. Qed.

Lemma normalize_filters_spec (filters : pydict) :
  normalize_filters filters =
  let renamed :=
    rename_key "location_query" "query" (rename_key "location" "query" filters) in
  if is_none (get "beds" filters) then Ok renamed
  else let? n := py_int (get "beds" filters) in
       Ok (dict_set "beds" (Sc (SStr (pretty n))) renamed).
Proof.
  unfold normalize_filters. cbv zeta. rewrite get_beds_renamed.
  destruct (is_none (get "beds" filters)) eqn:Hb; [by rewrite andb_false_r|].
  rewrite has_key_get; [done|]. by rewrite get_beds_renamed.
Qed.

Lemma property_search_tool_unfold lr ro pf (filters : pydict) (w : world) :
  property_search_tool lr ro pf filters w =
  match normalize_filters filters with
  | Raise e => (Raise e, w)
  | Ok normalized_filters =>
      match search_properties lr ro pf normalized_filters 1 50 w with
      | (Ok results, w') =>
          (Ok match _filter_listings_by_constraints results normalized_filters with
              | Ok filtered_results =>
                  Success (length filtered_results) filtered_results
              | Raise e => Error e
              end, w')
      | (Raise e, w') => (Ok (Error e), w')
      end
  end.
Proof.
  unfold property_search_tool, bind at 1, lift at 1.
  destruct (normalize_filters filters) as [nf|e]; [|done].
  unfold try_except, bind at 1.
  destruct (search_properties lr ro pf nf 1 50 w) as [[results|e] w']; [|done].
  unfold bind, lift, ret.
  by destruct (_filter_listings_by_constraints results nf).
Qed.

(** X21. The tool can raise only through the conversion of [beds], which
    stands before the [try]. When [beds] is absent, [None], or a value that
    [int] accepts, the tool always hands back a result, whatever goes wrong
    in the search or the filter; and when it does raise, a [beds] value was
    given and nothing has been started: the state is untouched. *)
Theorem tool_raises_only_through_beds lr ro pf (filters : pydict) (w : world) :
  (is_none (get "beds" filters) = true \/
   (exists z, py_int (get "beds" filters) = Ok z) ->
   exists r w', property_search_tool lr ro pf filters w = (Ok r, w')) /\
  (forall e w',
     property_search_tool lr ro pf filters w = (Raise e, w') ->
     is_none (get "beds" filters) = false /\ w' = w).
Proof.
  rewrite property_search_tool_unfold, normalize_filters_spec. cbv zeta. split.
  - intros Hbeds.
    assert (exists nf,
              (if is_none (get "beds" filters)
               then Ok (rename_key "location_query" "query"
                          (rename_key "location" "query" filters))
               else let? n := py_int (get "beds" filters) in
                    Ok (dict_set "beds" (Sc (SStr (pretty n)))
                          (rename_key "location_query" "query"
                             (rename_key "location" "query" filters))))
              = Ok nf) as [nf ->].
    { destruct Hbeds as [-> | [z Hz]]; [by eexists|].
      rewrite Hz. destruct (is_none _); by eexists. }
    destruct (search_properties lr ro pf nf 1 50 w) as [[results|e] w1];
      by eexists _, _.
  - intros e w'. destruct (is_none (get "beds" filters)).
    + by destruct (search_properties _ _ _ _ _ _ _) as [[results|e'] w''].
    + destruct (py_int (get "beds" filters)) as [n|e']; cbn [rbind].
      * by destruct (search_properties _ _ _ _ _ _ _) as [[results|e'] w''].
      * by intros [= _ <-].
Qed.

Lemma tool_raises_only_through_beds_witness :
  exists r w',
    property_search_tool no_repr by_property_id (fun _ => Raise UpstreamFetchError)
      [("location", Sc (SStr "Victory Heights")); ("beds", Sc (SStr " 5 "))]
      (fresh_world empty_tables)
    = (Ok r, w').
Proof.
  apply (tool_raises_only_through_beds no_repr by_property_id
           (fun _ => Raise UpstreamFetchError)
           [("location", Sc (SStr "Victory Heights")); ("beds", Sc (SStr " 5 "))]
           (fresh_world empty_tables)).
  right. by exists 5%Z.
Defined.

Lemma kept_beds mn mx beds purpose p r b :
  py_int (get "rooms" p) = Ok r ->
  py_int beds = Ok b ->
  kept mn mx beds purpose p = true -> r = b.
Proof.
  intros Hr Hb. unfold kept. rewrite (keeps_beds _ _ _ _ _ _ _ Hr Hb).
  destruct (Filter.keeps mn mx PyNone purpose p) as [k|]; simpl; [|done].
  destruct (Z.eqb_spec r b); [done|]. by rewrite andb_false_r.
Qed.

(** X22. What the tool returns on success was selected from the result of
    the search on the normalised filters, in its order, and [count] is its
    length. When [beds] is given, every returned listing whose room count
    can be read has exactly that many rooms: the conversion to
    [str(int(beds))] keeps the number. *)
Theorem tool_returns_listings_with_the_requested_rooms lr ro pf
    (filters : pydict) (b : Z) (w w' : world) (count : nat)
    (listings : list pydict) :
  property_search_tool lr ro pf filters w = (Ok (Success count listings), w') ->
  py_int (get "beds" filters) = Ok b ->
  count = length listings /\
  (exists normalized_filters results,
     normalize_filters filters = Ok normalized_filters /\
     search_properties lr ro pf normalized_filters 1 50 w = (Ok results, w') /\
     listings `sublist_of` results) /\
  forall p r, p ∈ listings -> py_int (get "rooms" p) = Ok r -> r = b.
Proof.
  rewrite property_search_tool_unfold. intros Htool Hb.
  pose proof (normalize_filters_spec filters) as Hnf. cbv zeta in Hnf.
  rewrite (py_int_not_none _ _ Hb), Hb in Hnf. cbn [rbind] in Hnf.
  rewrite Hnf in Htool |- *.
  set (nf := dict_set "beds" _ _) in *.
  destruct (search_properties lr ro pf nf 1 50 w) as [[results|e] w1] eqn:Hsearch;
    [|done].
  destruct (_filter_listings_by_constraints results nf) as [out|e] eqn:Hout; [|done].
  injection Htool as <- <- <-.
  apply filter_ok_spec in Hout as (cp & _ & ->).
  split_and!; [done | | ].
  - exists nf, results. split_and!; [done | done | apply list_filter_sublist].
  - intros p r Hp Hr. apply list_elem_of_In, filter_In in Hp as [_ Hp].
    apply (kept_beds _ _ _ _ _ r b Hr) in Hp; [done|].
    unfold nf. rewrite get_dict_set_eq. apply int_of_str_pretty.
Qed.

Lemma tool_returns_listings_with_the_requested_rooms_witness :
  3 = length [villa_a; villa_b; villa_c] /\
  (exists normalized_filters results,
     normalize_filters
       [("location", Sc (SStr "Victory Heights")); ("beds", Sc (SInt 5))]
     = Ok normalized_filters /\
     search_properties no_repr by_property_id three_villas normalized_filters 1 50
       (fresh_world empty_tables)
     = (Ok results,
        (search_properties no_repr by_property_id three_villas
           [("beds", Sc (SStr "5")); ("query", Sc (SStr "Victory Heights"))] 1 50
           (fresh_world empty_tables)).2) /\
     [villa_a; villa_b; villa_c] `sublist_of` results) /\
  forall p r, p ∈ [villa_a; villa_b; villa_c] ->
              py_int (get "rooms" p) = Ok r -> r = 5%Z.
Proof.
  apply (tool_returns_listings_with_the_requested_rooms no_repr by_property_id
           three_villas [("location", Sc (SStr "Victory Heights")); ("beds", Sc (SInt 5))]
           5 (fresh_world empty_tables)
           (search_properties no_repr by_property_id three_villas
              [("beds", Sc (SStr "5")); ("query", Sc (SStr "Victory Heights"))] 1 50
              (fresh_world empty_tables)).2 3).
  - vm_compute. reflexivity.
  - reflexivity.
Defined.

Lemma dict_set_dict_set_eq k v v' (d : pydict) :
  dict_set k v' (dict_set k v d) = dict_set k v' d.
Proof.
  induction d as [|[k' u] d IH]; simpl.
  - by rewrite decide_True.
  - destruct (decide (k = k')) as [->|Hne]; simpl.
    + by rewrite decide_True.
    + rewrite decide_False by done. by rewrite IH.
Qed.

Lemma dict_set_comm_present k b v u (d : pydict) :
  k <> b -> k ∈ d.*1 ->
  dict_set b u (dict_set k v d) = dict_set k v (dict_set b u d).
Proof.
  intros Hkb. induction d as [|[k' x] d IH]; intros Hk;
    [by apply elem_of_nil in Hk|].
  cbn [dict_set].
  destruct (decide (k = k')) as [Hk'|Hk'], (decide (b = k')) as [Hb'|Hb'];
    cbn [dict_set]; try congruence;
    repeat match goal with
           | |- context [decide ?P] => destruct (decide P); try congruence
           end.
  f_equal. apply IH.
  rewrite fmap_cons in Hk. apply elem_of_cons in Hk as [?|?]; done.
Qed.

Lemma dict_del_dict_set_ne k a v (d : pydict) :
  k <> a -> dict_del a (dict_set k v d) = dict_set k v (dict_del a d).
Proof.
  intros Hka. unfold dict_del. induction d as [|[k' x] d IH]; simpl.
  - by rewrite bool_decide_false.
  - destruct (decide (k = k')) as [->|Hne]; simpl.
    + rewrite bool_decide_false by done. simpl. by rewrite decide_True.
    + case_bool_decide; simpl; [done|]. rewrite decide_False by done.
      by rewrite IH.
Qed.

Lemma keys_dict_del_ne k a (d : pydict) :
  k <> a -> k ∈ d.*1 -> k ∈ (dict_del a d).*1.
Proof.
  intros Hka Hk. apply list_elem_of_fmap in Hk as ([k' x] & -> & Hin).
  apply list_elem_of_fmap. exists (k', x). split; [done|].
  unfold dict_del. apply list_elem_of_In, filter_In. split.
  - by apply list_elem_of_In.
  - simpl. by rewrite bool_decide_false.
Qed.

Lemma has_key_dict_set_ne a k v (d : pydict) :
  a <> k -> has_key a (dict_set k v d) = has_key a d.
Proof.
  intros Hak. unfold has_key. apply bool_decide_ext.
  rewrite keys_dict_set. split; [intros [?|?]; done | auto].
Qed.

Lemma rename_key_dict_set k old new v (d : pydict) :
  k <> old -> k <> new -> k ∈ d.*1 ->
  rename_key old new (dict_set k v d) = dict_set k v (rename_key old new d).
Proof.
  intros Ho Hn Hk. unfold rename_key.
  rewrite has_key_dict_set_ne by done. destruct (has_key old d); [|done].
  rewrite get_dict_set_ne by done. rewrite dict_del_dict_set_ne by done.
  apply dict_set_comm_present; [done|]. by apply keys_dict_del_ne.
Qed.

Lemma keys_rename_key k old new (d : pydict) :
  k <> old -> k ∈ d.*1 -> k ∈ (rename_key old new d).*1.
Proof.
  intros Ho Hk. unfold rename_key. destruct (has_key old d); [|done].
  apply keys_dict_set. right. by apply keys_dict_del_ne.
Qed.

Lemma normalize_filters_beds (filters : pydict) (v : pyval) (z : Z) :
  py_int v = Ok z ->
  normalize_filters (dict_set "beds" v filters)
  = normalize_filters (dict_set "beds" (Sc (SStr (pretty z))) filters).
Proof.
  intros Hv. rewrite !normalize_filters_spec. cbv zeta.
  rewrite !get_dict_set_eq. rewrite (py_int_not_none _ _ Hv). cbn [is_none].
  rewrite Hv. change (py_int (Sc (SStr (pretty z)))) with (int_of_str (pretty z)).
  rewrite int_of_str_pretty. cbn [rbind]. f_equal.
  set (d0 := dict_set "beds" v filters).
  assert ("beds" ∈ d0.*1) as Hin by (apply keys_dict_set; by left).
  assert (dict_set "beds" (Sc (SStr (pretty z))) filters
          = dict_set "beds" (Sc (SStr (pretty z))) d0) as ->
    by (unfold d0; by rewrite dict_set_dict_set_eq).
  rewrite (rename_key_dict_set "beds" "location" "query") by done.
  rewrite (rename_key_dict_set "beds" "location_query" "query")
    by (try done; by apply keys_rename_key).
  by rewrite dict_set_dict_set_eq.
Qed.

(** X23. Only the number in [beds] matters to the tool: two filter dicts
    that differ in the spelling of the same number of bedrooms (5, "5",
    " 5 ", "+5") are normalised to the same dict, so the tool gives the same
    answer and leaves the same state for both. *)
Theorem tool_reads_beds_as_a_number lr ro pf (filters : pydict) (v v' : pyval)
    (z : Z) (w : world) :
  py_int v = Ok z -> py_int v' = Ok z ->
  property_search_tool lr ro pf (dict_set "beds" v filters) w
  = property_search_tool lr ro pf (dict_set "beds" v' filters) w.
Proof.
  intros Hv Hv'. rewrite !property_search_tool_unfold.
  by rewrite (normalize_filters_beds _ _ _ Hv), (normalize_filters_beds _ _ _ Hv').
Qed.

Lemma tool_reads_beds_as_a_number_witness :
  property_search_tool no_repr by_property_id three_villas
    [("location", Sc (SStr "Victory Heights")); ("beds", Sc (SInt 5))]
    (fresh_world empty_tables)
  = property_search_tool no_repr by_property_id three_villas
      [("location", Sc (SStr "Victory Heights")); ("beds", Sc (SStr " +5 "))]
      (fresh_world empty_tables).
Proof.
  apply (tool_reads_beds_as_a_number no_repr by_property_id three_villas
           [("location", Sc (SStr "Victory Heights")); ("beds", PyNone)]
           (Sc (SInt 5)) (Sc (SStr " +5 ")) 5 (fresh_world empty_tables));
    reflexivity.
Defined.

(** ** The listing source: removal of duplicates *)

Lemma existsb_scalar_eqb x (seen : list scalar) :
  existsb (scalar_eqb x) seen = true <-> exists s, s ∈ seen /\ scalar_eqb x s = true.
Proof.
  rewrite existsb_exists. split; intros (s & Hs & Heq); exists s;
    (split; [by apply list_elem_of_In | done]).
Qed.

Lemma unique_listings_spec (seen : list scalar) (all out : list pydict) :
  unique_listings seen all = Ok out ->
  out `sublist_of` all /\
  Forall (fun q => exists y, get "id" q = Sc y /\ truthy (Sc y) = true /\
                             existsb (scalar_eqb y) seen = false) out /\
  (forall i j p q, (i < j)%nat -> out !! i = Some p -> out !! j = Some q ->
                   same_id q p = false) /\
  (forall p x, p ∈ all -> get "id" p = Sc x -> truthy (Sc x) = true ->
               existsb (scalar_eqb x) seen = true \/
               exists q, q ∈ out /\ same_id p q = true).
Proof.
  revert seen out. induction all as [|listing rest IH]; intros seen out;
    cbn [unique_listings].
  - intros [= <-]. split_and!; [done | constructor | |].
    + intros i j p q _ Hp. by rewrite lookup_nil in Hp.
    + intros p x Hp. by apply elem_of_nil in Hp.
  - destruct (truthy (get "id" listing)) eqn:Htruthy.
    + destruct (get "id" listing) as [x|l] eqn:Hid; [|done].
      destruct (existsb (scalar_eqb x) seen) eqn:Hseen.
      * intros (Hsub & Hall & Hdist & Hcomplete)%IH.
        split_and!; [by apply sublist_cons | done | done |].
        intros p x' [->|Hp]%elem_of_cons Hx' Ht'; [|by eauto].
        left. congruence.
      * destruct (unique_listings (x :: seen) rest) as [unique|] eqn:Hrest;
          cbn [rbind]; [|done].
        intros [= <-].
        destruct (IH _ _ Hrest) as (Hsub & Hall & Hdist & Hcomplete).
        assert (Forall (fun q => exists y, get "id" q = Sc y /\
                                   truthy (Sc y) = true /\
                                   scalar_eqb y x = false /\
                                   existsb (scalar_eqb y) seen = false) unique)
          as Hall'.
        { eapply Forall_impl; [exact Hall|]. intros q (y & Hy & Hty & Hex).
          cbn [existsb] in Hex. apply orb_false_iff in Hex as [? ?]. eauto 6. }
        split_and!.
        -- by apply sublist_skip.
        -- constructor; [eauto|].
           eapply Forall_impl; [exact Hall'|]. intros q (y & ? & ? & ? & ?). eauto.
        -- intros [|i] [|j] p q Hij Hp Hq; try lia.
           ++ injection Hp as <-. cbn in Hq.
              rewrite Forall_forall in Hall'.
              destruct (Hall' q) as (y & Hy & _ & Hne & _);
                [by eapply list_elem_of_lookup_2|].
              unfold same_id. by rewrite Hy, Hid.
           ++ cbn in Hp, Hq. eapply Hdist; [|done..]. lia.
        -- intros p x' [->|Hp]%elem_of_cons Hx' Ht'.
           ++ right. exists listing. split; [by left|].
              unfold same_id. rewrite Hid. rewrite Hid in Hx'. injection Hx' as <-.
              clear. destruct x as [|b|z|s]; cbn; try done.
              ** by destruct b.
              ** apply Z.eqb_refl.
              ** by apply bool_decide_eq_true.
           ++ destruct (Hcomplete p x' Hp Hx' Ht') as [Hex|(q & Hq & Hsame)].
              ** cbn [existsb] in Hex. apply orb_true_iff in Hex as [Hex|Hex];
                   [|by left].
                 right. exists listing. split; [by left|].
                 unfold same_id. by rewrite Hx', Hid.
              ** right. exists q. split; [by right | done].
    + intros (Hsub & Hall & Hdist & Hcomplete)%IH.
      split_and!; [by apply sublist_cons | done | done |].
      intros p x' [->|Hp]%elem_of_cons Hx' Ht'; [|by eauto].
      rewrite Hx' in Htruthy. congruence.
Qed.

(** X24. The removal of duplicates keeps, in their order, the first listing
    of every id: its result is a sub-sequence of the listings fetched,
    every listing in it has a truthy id, no two of them have equal ids, and
    every fetched listing with a truthy id is represented by a listing with
    an equal id. Listings without an id are dropped. *)
Theorem duplicates_are_removed_by_id (all_listings unique : list pydict) :
  unique_listings [] all_listings = Ok unique ->
  unique `sublist_of` all_listings /\
  Forall (fun q => truthy (get "id" q) = true) unique /\
  (forall i j p q, (i < j)%nat -> unique !! i = Some p -> unique !! j = Some q ->
                   same_id q p = false) /\
  (forall p, p ∈ all_listings -> truthy (get "id" p) = true ->
             exists q, q ∈ unique /\ same_id p q = true).
Proof.
  intros Hu. pose proof Hu as (Hsub & Hall & Hdist & Hcomplete)%unique_listings_spec.
  split_and!; [done | | done |].
  - eapply Forall_impl; [exact Hall|]. intros q (y & -> & Hy & _). done.
  - intros p Hp Ht. destruct (get "id" p) as [x|l] eqn:Hid.
    + destruct (Hcomplete p x Hp Hid Ht) as [Hex|?]; [done | done].
    + exfalso. clear -Hu Hp Hid Ht. revert unique Hu. generalize (@nil scalar).
      induction all_listings as [|listing rest IH]; intros seen unique;
        [by apply elem_of_nil in Hp|].
      apply elem_of_cons in Hp as [<-|Hp]; cbn [unique_listings].
      * by rewrite Hid, Ht.
      * destruct (truthy (get "id" listing)); [|by eauto].
        destruct (get "id" listing); [|done].
        destruct (existsb _ seen); [by eauto|].
        destruct (unique_listings _ rest) eqn:Hrest; [|done]. intros _. eauto.
Qed.

Lemma duplicates_are_removed_by_id_witness :
  [villa_a; villa_b; villa_c]
    `sublist_of` [villa_a; villa_b; villa_anonymous; villa_b_again; villa_c].
Proof.
  apply (duplicates_are_removed_by_id
           [villa_a; villa_b; villa_anonymous; villa_b_again; villa_c]
           [villa_a; villa_b; villa_c]).
  reflexivity.
Defined.

(** ** The listing source: what is sent *)

Lemma agree_except_refl keys (d : pydict) : agree_except keys d d.
Proof. induction d; constructor; [by split | done]. Qed.

Lemma agree_except_keys keys (d d' : pydict) :
  agree_except keys d d' -> d.*1 = d'.*1.
Proof.
  induction 1 as [|a b d d' [Hk _] _ IH]; [done|].
  rewrite !fmap_cons. by f_equal.
Qed.

Lemma agree_except_has_key keys k (d d' : pydict) :
  agree_except keys d d' -> has_key k d = has_key k d'.
Proof. intros H. unfold has_key. by rewrite (agree_except_keys _ _ _ H). Qed.

Lemma agree_except_get keys k (d d' : pydict) :
  agree_except keys d d' -> k ∉ keys -> get k d = get k d'.
Proof.
  intros H Hk. induction H as [|[k1 v1] [k2 v2] d d' [Hk12 Hv] _ IH]; [done|].
  simpl in *. subst k2. destruct (decide (k = k1)) as [->|]; [by apply Hv | done].
Qed.

Lemma agree_except_dict_set keys k v (d d' : pydict) :
  agree_except keys d d' -> agree_except keys (dict_set k v d) (dict_set k v d').
Proof.
  induction 1 as [|[k1 v1] [k2 v2] d d' [Hk12 Hv] Hrest IH]; simpl in *.
  - constructor; [by split | constructor].
  - subst k2. destruct (decide (k = k1)) as [->|].
    + constructor; [by split | done].
    + constructor; [by split | done].
Qed.

Lemma agree_except_dict_set_listed keys k v v' (d d' : pydict) :
  k ∈ keys -> agree_except keys d d' ->
  agree_except keys (dict_set k v d) (dict_set k v' d').
Proof.
  intros Hk. induction 1 as [|[k1 v1] [k2 v2] d d' [Hk12 Hv] Hrest IH]; simpl in *.
  - constructor; [by split | constructor].
  - subst k2. destruct (decide (k = k1)) as [->|].
    + constructor; [by split | done].
    + constructor; [by split | done].
Qed.

Lemma agree_except_dict_del keys k (d d' : pydict) :
  agree_except keys d d' -> agree_except keys (dict_del k d) (dict_del k d').
Proof.
  unfold dict_del.
  induction 1 as [|[k1 v1] [k2 v2] d d' [Hk12 Hv] Hrest IH]; simpl in *;
    [constructor|].
  subst k2. case_bool_decide; simpl; [done|]. constructor; [by split | done].
Qed.

Lemma agree_except_rename_key keys old new (d d' : pydict) :
  old ∉ keys -> agree_except keys d d' ->
  agree_except keys (rename_key old new d) (rename_key old new d').
Proof.
  intros Hold H. unfold rename_key.
  rewrite <- (agree_except_has_key _ old _ _ H).
  destruct (has_key old d); [|done].
  rewrite <- (agree_except_get _ old _ _ H Hold).
  by apply agree_except_dict_set, agree_except_dict_del.
Qed.

Lemma agree_except_absent k keys (d d' : pydict) :
  k ∉ d.*1 -> agree_except (k :: keys) d d' -> agree_except keys d d'.
Proof.
  intros Hk H. induction H as [|[k1 v1] [k2 v2] d d' [Hk12 Hv] Hrest IH];
    [constructor|].
  rewrite fmap_cons, not_elem_of_cons in Hk. destruct Hk as [Hne Hk].
  simpl in *. constructor; [|by apply IH].
  split; [done|]. simpl. intros Hkeys. apply Hv.
  rewrite not_elem_of_cons. split; [congruence | done].
Qed.

(** Overwriting a key takes it off the list of exceptions. *)
Lemma agree_except_overwrite k keys v (d d' : pydict) :
  NoDup d.*1 -> agree_except (k :: keys) d d' ->
  agree_except keys (dict_set k v d) (dict_set k v d').
Proof.
  intros Hnd H. induction H as [|[k1 v1] [k2 v2] d d' [Hk12 Hv] Hrest IH].
  - constructor; [by split | constructor].
  - rewrite fmap_cons in Hnd. apply NoDup_cons in Hnd as [Hk1 Hnd].
    simpl in *. subst k2. destruct (decide (k = k1)) as [->|Hne].
    + constructor; [by split|]. by eapply agree_except_absent.
    + constructor; [|by apply IH]. split; [done|]. simpl. intros Hkeys.
      apply Hv. rewrite not_elem_of_cons. split; [congruence | done].
Qed.

Lemma api_param_step_limit (api_params : pydict) (v : pyval) :
  api_param_step api_params ("limit", v) = Ok api_params.
Proof. reflexivity. Qed.

Lemma api_params_loop_agree (api_params : pydict) (d d' : pydict) :
  agree_except ["limit"] d d' ->
  api_params_loop api_params d = api_params_loop api_params d'.
Proof.
  intros H. revert api_params.
  induction H as [|[k1 v1] [k2 v2] d d' [Hk12 Hv] Hrest IH]; intros api_params;
    [done|].
  simpl in *. subst k2. destruct (decide (k1 = "limit")) as [->|Hne].
  - rewrite !api_param_step_limit. apply IH.
  - rewrite Hv by (by apply not_elem_of_cons; split; [|apply not_elem_of_nil]).
    destruct (api_param_step api_params (k1, v2)); [apply IH | done].
Qed.

Lemma initialise_params_agree (d d' : pydict) :
  agree_except ["page"; "limit"] d d' ->
  initialise_params d = initialise_params d'.
Proof.
  intros H. unfold initialise_params.
  rewrite !(agree_except_has_key _ _ _ _ H).
  assert (forall k, k <> "page" -> k <> "limit" -> get k d = get k d') as Hget.
  { intros k Hp Hl. apply (agree_except_get _ _ _ _ H).
    rewrite !not_elem_of_cons. split_and!; [done | done | apply not_elem_of_nil]. }
  by rewrite !Hget.
Qed.

Lemma dict_del_keys_NoDup k (d : pydict) : NoDup d.*1 -> NoDup (dict_del k d).*1.
Proof.
  intros Hnd. eapply sublist_NoDup; [exact Hnd|].
  apply fmap_sublist. apply list_filter_sublist.
Qed.

Lemma rename_key_keys_NoDup old new (d : pydict) :
  NoDup d.*1 -> NoDup (rename_key old new d).*1.
Proof.
  intros Hnd. unfold rename_key. destruct (has_key old d); [|done].
  by apply dict_set_keys_NoDup, dict_del_keys_NoDup.
Qed.

Lemma live_filters_keys_NoDup (filters : pydict) (page limit : Z) :
  NoDup filters.*1 -> NoDup (live_filters filters page limit).*1.
Proof.
  intros Hnd. apply (rename_key_keys_NoDup "query" "location_query").
  by apply dict_set_keys_NoDup, dict_set_keys_NoDup, clean_filters_keys_NoDup.
Qed.

Lemma live_filters_agree (filters : pydict) (page limit page' limit' : Z) :
  agree_except ["page"; "limit"]
    (live_filters filters page limit) (live_filters filters page' limit').
Proof.
  apply (agree_except_rename_key _ "query" "location_query").
  { rewrite !not_elem_of_cons. split_and!; [done | done | apply not_elem_of_nil]. }
  apply agree_except_dict_set_listed; [by right; left|].
  apply agree_except_dict_set_listed; [by left|].
  apply agree_except_refl.
Qed.

Section Source_facts.

Variable find_location : pyval -> result pyval.
Variable build_id_of : pydict -> result pyval.
Variable listings_of : pyval -> pydict -> result (list pydict).

Lemma fetch_pages_agree (d d' : pydict) (build_id : pyval) (pages : list Z) :
  NoDup d.*1 -> agree_except ["page"; "limit"] d d' ->
  fetch_pages listings_of d build_id pages
  = fetch_pages listings_of d' build_id pages.
Proof.
  intros Hnd H. induction pages as [|page_num rest IH]; [done|].
  cbn [fetch_pages]. unfold fetch_propertyfinder_listings, api_params_of.
  rewrite (api_params_loop_agree _ _ _
             (agree_except_overwrite "page" ["limit"] (Sc (SInt page_num)) d d' Hnd H)).
  by rewrite IH.
Qed.

Lemma property_finder_search_agree (d d' : pydict) :
  NoDup d.*1 -> agree_except ["page"; "limit"] d d' ->
  property_finder_search find_location build_id_of listings_of d
  = property_finder_search find_location build_id_of listings_of d'.
Proof.
  intros Hnd H. unfold property_finder_search.
  rewrite <- (agree_except_has_key _ "location_query" _ _ H).
  rewrite <- (agree_except_get _ "location_query" _ _ H)
    by (rewrite !not_elem_of_cons; split_and!; [done | done | apply not_elem_of_nil]).
  destruct (find_location _) as [location_id|]; cbn [rbind]; [|done].
  set (f := if negb (truthy location_id) then d
            else dict_set "location_id" location_id d).
  set (f' := if negb (truthy location_id) then d'
             else dict_set "location_id" location_id d').
  assert (NoDup f.*1) as Hndf.
  { unfold f. destruct (negb _); [done | by apply dict_set_keys_NoDup]. }
  assert (agree_except ["page"; "limit"] f f') as Hf.
  { unfold f, f'. destruct (negb _); [done | by apply agree_except_dict_set]. }
  unfold initialise. rewrite (initialise_params_agree _ _ Hf).
  destruct (initialise_params f') as [url_params|]; cbn [rbind]; [|done].
  destruct (build_id_of url_params) as [build_id|]; cbn [rbind]; [|done].
  destruct (negb (truthy build_id)); [done|].
  unfold search_properties_with_pagination.
  by rewrite (fetch_pages_agree _ _ _ _ Hndf Hf).
Qed.

End Source_facts.

(** X25. The page and the limit of a search never reach Property Finder.
    On a miss, the location lookup, the request for the build id and the
    requests for the pages of listings are the same whatever [page] and
    [limit] the search was called with: the source always fetches its own
    pages 1 to 10, so searches that differ only in page or limit store the
    same listings under different keys. *)
Theorem the_source_is_asked_the_same_for_every_page
    (find_location : pyval -> result pyval)
    (build_id_of : pydict -> result pyval)
    (listings_of : pyval -> pydict -> result (list pydict))
    (filters : pydict) (page limit page' limit' : Z) :
  NoDup filters.*1 ->
  property_finder_search find_location build_id_of listings_of
    (live_filters filters page limit)
  = property_finder_search find_location build_id_of listings_of
      (live_filters filters page' limit').
Proof.
  intros Hnd. apply property_finder_search_agree.
  - by apply live_filters_keys_NoDup.
  - apply live_filters_agree.
Qed.

Lemma the_source_is_asked_the_same_for_every_page_witness :
  property_finder_search one_location a_build_id two_pages
    (live_filters scenario_A 1 50)
  = property_finder_search one_location a_build_id two_pages
      (live_filters scenario_A 2 20).
Proof.
  apply (the_source_is_asked_the_same_for_every_page one_location a_build_id
           two_pages scenario_A 1 50 2 20).
  apply (bool_decide_unpack _). vm_compute. exact I.
Defined.

Lemma fixed_params_dict_set k v (api_params : pydict) :
  k ∉ ["ob"; "fu"; "c"; "filter[min_price]"; "filter[max_price]"] ->
  fixed_params api_params -> fixed_params (dict_set k v api_params).
Proof.
  rewrite !not_elem_of_cons. intros (Hob & Hfu & Hc & Hmin & Hmax & _).
  intros (? & ? & ? & ? & ?). unfold fixed_params.
  rewrite !get_dict_set_ne, !has_key_dict_set_ne by congruence. done.
Qed.

Lemma fixed_params_category v (api_params : pydict) :
  fixed_params api_params -> fixed_params (dict_set "c" (category v) api_params).
Proof.
  intros (? & ? & ? & ? & ?). unfold fixed_params.
  rewrite !get_dict_set_ne, !has_key_dict_set_ne by done.
  rewrite get_dict_set_eq. split_and!; try done.
  unfold category. case_bool_decide; auto.
Qed.

Lemma FILTERS_MAP_keys key api_key :
  map_get key FILTERS_MAP = Some api_key ->
  key <> "min_price" -> key <> "max_price" ->
  api_key ∉ ["ob"; "fu"; "c"; "filter[min_price]"; "filter[max_price]"].
Proof.
  unfold FILTERS_MAP. cbn [map_get]. intros Hget Hmin Hmax.
  repeat match type of Hget with
         | (if decide (?a = ?b) then _ else _) = _ =>
             destruct (decide (a = b));
             [try congruence; injection Hget as <-;
              apply (bool_decide_unpack _); vm_compute; exact I|]
         end.
  done.
Qed.

Lemma api_param_step_fixed (api_params api_params' : pydict) item :
  fixed_params api_params ->
  api_param_step api_params item = Ok api_params' ->
  fixed_params api_params'.
Proof.
  intros Hfix. unfold api_param_step.
  destruct (decide (item.1 = "property_type")).
  { destruct (property_type_id item.2) as [[id|]|]; cbn [rbind]; [| |done].
    - intros [= <-]. apply fixed_params_dict_set; [|done].
      apply (bool_decide_unpack _). vm_compute. exact I.
    - by intros [= <-]. }
  destruct (decide (item.1 = "purpose")).
  { intros [= <-]. by apply fixed_params_category. }
  destruct (decide (item.1 = "page")).
  { intros [= <-]. apply fixed_params_dict_set; [|done].
    apply (bool_decide_unpack _). vm_compute. exact I. }
  destruct (decide (item.1 = "location_id")).
  { intros [= <-]. apply fixed_params_dict_set; [|done].
    apply (bool_decide_unpack _). vm_compute. exact I. }
  destruct (bool_decide (item.1 = "min_price")) eqn:Hmin; [by intros [= <-]|].
  destruct (bool_decide (item.1 = "max_price")) eqn:Hmax; [by intros [= <-]|].
  cbn [orb]. apply bool_decide_eq_false in Hmin, Hmax.
  destruct (map_get item.1 FILTERS_MAP) as [api_key|] eqn:Hkey; [|by intros [= <-]].
  pose proof (FILTERS_MAP_keys _ _ Hkey Hmin Hmax) as Hsafe.
  destruct (negb (is_none item.2)); [|by intros [= <-]].
  destruct item.2; intros [= <-]; by apply fixed_params_dict_set.
Qed.

Lemma api_params_loop_fixed (api_params api_params' : pydict) (items : pydict) :
  fixed_params api_params ->
  api_params_loop api_params items = Ok api_params' ->
  fixed_params api_params'.
Proof.
  revert api_params. induction items as [|item rest IH]; intros api_params Hfix;
    cbn [api_params_loop].
  - by intros [= <-].
  - destruct (api_param_step api_params item) as [p|] eqn:Hstep; cbn [rbind];
      [|done].
    apply IH. by eapply api_param_step_fixed.
Qed.

(** X26. Whatever the filters, a request for a page of listings is sent
    with the sort order [mr] and [fu=0], with a category that is 1 or 2,
    and without a price bound: [min_price] and [max_price] are never passed
    on, and the [sort] entry of the filters does not change [ob]. *)
Theorem requests_carry_no_price_bound (filters api_params : pydict) :
  api_params_of filters = Ok api_params ->
  fixed_params api_params.
Proof.
  apply api_params_loop_fixed. unfold fixed_params. split_and!; try done. by left.
Qed.

Lemma requests_carry_no_price_bound_witness :
  has_key "filter[max_price]"
    [("ob", Sc (SStr "mr")); ("fu", Sc (SStr "0")); ("c", Sc (SStr "1"));
     ("filter[number_of_bedrooms]", Sc (SStr "5"));
     ("page[number]", Sc (SInt 1))] = false.
Proof.
  apply (requests_carry_no_price_bound (live_filters scenario_A 1 50)).
  reflexivity.
Defined.

Lemma api_param_step_ok_iff (api_params : pydict) (item : string * pyval) :
  (exists api_params', api_param_step api_params item = Ok api_params') <->
  (item.1 = "property_type" -> is_text item.2 = true).
Proof.
  destruct item as [key value]. unfold api_param_step. cbn [fst snd].
  destruct (decide (key = "property_type")) as [Hk|Hk].
  - destruct value as [[| |z|s]|l]; cbn [property_type_id rbind is_text].
    + split; [intros [? ?]; done | intros H; by specialize (H Hk)].
    + split; [intros [? ?]; done | intros H; by specialize (H Hk)].
    + split; [intros [? ?]; done | intros H; by specialize (H Hk)].
    + split; [done|]. intros _.
      destruct (map_get (lower s) PROPERTY_TYPE_MAP); eauto.
    + split; [intros [? ?]; done | intros H; by specialize (H Hk)].
  - split; [done|]. intros _.
    repeat match goal with
           | |- context [if ?c then _ else _] => destruct c
           | |- context [match ?x with _ => _ end] => destruct x
           end; eauto.
Qed.

Lemma api_param_step_raises (api_params : pydict) item e :
  api_param_step api_params item = Raise e -> e = AttributeError.
Proof.
  destruct item as [key value]. unfold api_param_step. cbn [fst snd].
  destruct (decide (key = "property_type")).
  - destruct value as [[| |z|s]|l]; cbn [property_type_id rbind];
      try (by intros [= <-]).
    by destruct (map_get (lower s) PROPERTY_TYPE_MAP).
  - repeat match goal with
           | |- context [if ?c then _ else _] => destruct c
           | |- context [match ?x with _ => _ end] => destruct x
           end; done.
Qed.

Lemma api_params_loop_ok_iff (api_params : pydict) (items : pydict) :
  (exists api_params', api_params_loop api_params items = Ok api_params') <->
  Forall (fun item : string * pyval =>
            item.1 = "property_type" -> is_text item.2 = true) items.
Proof.
  revert api_params. induction items as [|item rest IH]; intros api_params;
    cbn [api_params_loop].
  - split; [constructor | eauto].
  - rewrite Forall_cons, <- (api_param_step_ok_iff api_params item).
    destruct (api_param_step api_params item) as [p|]; cbn [rbind].
    + rewrite IH. split; [intros ?; split; eauto | tauto].
    + split; [intros [? ?]; done | intros [[? ?] _]; done].
Qed.

Lemma api_params_loop_raises (api_params : pydict) (items : pydict) e :
  api_params_loop api_params items = Raise e -> e = AttributeError.
Proof.
  revert api_params. induction items as [|item rest IH]; intros api_params;
    cbn [api_params_loop]; [done|].
  destruct (api_param_step api_params item) as [p|e'] eqn:Hstep; cbn [rbind].
  - apply IH.
  - intros [= <-]. by eapply api_param_step_raises.
Qed.

(** X27. Building the request for a page of listings fails in exactly one
    case: a [property_type] that is not a [str], which has no [lower]; the
    failure is an [AttributeError], raised outside the [try] that guards
    the request itself. No other entry of the filters can make it fail. *)
Theorem request_fails_only_on_a_property_type_that_is_not_text (filters : pydict) :
  ((exists api_params, api_params_of filters = Ok api_params) <->
   Forall (fun item : string * pyval =>
             item.1 = "property_type" -> is_text item.2 = true) filters) /\
  (forall e, api_params_of filters = Raise e -> e = AttributeError).
Proof.
  split; [apply api_params_loop_ok_iff | apply api_params_loop_raises].
Qed.

(** ** A miss, for every page *)

Lemma select_after_fresh_insert key (t : tables) :
  key ∉ (cached_queries t).*2 ->
  select_query_id key (cached_queries (insert_or_ignore_query key t))
  = Some (1 + foldr Z.max (cached_queries_seq t) (cached_queries t).*1)%Z.
Proof.
  intros Hkey%select_query_id_None. unfold insert_or_ignore_query.
  cbn [cached_queries]. rewrite Hkey, select_query_id_snoc. by rewrite Hkey.
Qed.

Lemma save_rows_do_not_depend_on_the_key lr (key key' : string)
    (properties : list pydict) (w : world) :
  key ∉ (cached_queries (working w)).*2 ->
  key' ∉ (cached_queries (working w)).*2 ->
  let s := save_query_and_properties lr key properties w in
  let s' := save_query_and_properties lr key' properties w in
  s.1 = s'.1 /\
  cached_properties (working s.2) = cached_properties (working s'.2) /\
  query_property_map (working s.2) = query_property_map (working s'.2) /\
  upstream_calls s.2 = upstream_calls s'.2.
Proof.
  intros Hkey Hkey'. cbv zeta. rewrite !save_unfold. cbv zeta.
  rewrite !select_after_fresh_insert by done.
  set (qid := (1 + _)%Z).
  pose proof (loop_tables_result lr qid properties
                (insert_or_ignore_query key (working w))) as Hr.
  pose proof (loop_tables_result lr qid properties
                (insert_or_ignore_query key' (working w))) as Hr'.
  cbv zeta in Hr, Hr'.
  destruct (loop_tables lr qid properties (insert_or_ignore_query key (working w)))
    as [[u|e] t2] eqn:Hloop;
    destruct (loop_tables lr qid properties (insert_or_ignore_query key' (working w)))
    as [[u'|e'] t2'] eqn:Hloop'; cbn [fst] in Hr, Hr'.
  - apply loop_tables_ok in Hloop as (rs & Hrs & ->).
    apply loop_tables_ok in Hloop' as (rs' & Hrs' & ->).
    assert (rs' = rs) as -> by congruence.
    cbn [fst snd set_both working upstream_calls].
    rewrite !foldl_save_step_properties, !foldl_save_step_links.
    by destruct u, u'.
  - destruct (rows_of lr properties); cbn [rbind] in Hr, Hr'; congruence.
  - destruct (rows_of lr properties); cbn [rbind] in Hr, Hr'; congruence.
  - cbn [fst snd set_both working upstream_calls]. split_and!; try done.
    destruct (rows_of lr properties); cbn [rbind] in Hr, Hr'; congruence.
Qed.

Lemma fetch_live_for_every_page lr
    (find_location : pyval -> result pyval)
    (build_id_of : pydict -> result pyval)
    (listings_of : pyval -> pydict -> result (list pydict))
    (filters : pydict) (page limit page' limit' : Z) (w : world) :
  NoDup filters.*1 ->
  cache_key filters page limit ∉ (cached_queries (working w)).*2 ->
  cache_key filters page' limit' ∉ (cached_queries (working w)).*2 ->
  let pf := property_finder_search find_location build_id_of listings_of in
  let r := fetch_live lr pf (with_pagination (clean_filters filters) page limit)
             (cache_key filters page limit) w in
  let r' := fetch_live lr pf (with_pagination (clean_filters filters) page' limit')
              (cache_key filters page' limit') w in
  r.1 = r'.1 /\
  cached_properties (working r.2) = cached_properties (working r'.2) /\
  query_property_map (working r.2) = query_property_map (working r'.2) /\
  upstream_calls r.2 = upstream_calls r'.2.
Proof.
  intros Hnd Hkey Hkey'. cbv zeta. rewrite !fetch_live_unfold. cbv zeta.
  fold (live_filters filters page limit) (live_filters filters page' limit').
  pose proof (live_filters_agree filters page limit page' limit') as Hagree.
  rewrite <- (property_finder_search_agree find_location build_id_of listings_of
                _ _ (live_filters_keys_NoDup filters page limit Hnd) Hagree).
  assert (forall k, k <> "page" -> k <> "limit" ->
            get k (live_filters filters page' limit')
            = get k (live_filters filters page limit)) as Hget.
  { intros k Hp Hl. symmetry. apply (agree_except_get _ _ _ _ Hagree).
    rewrite !not_elem_of_cons. split_and!; [done | done | apply not_elem_of_nil]. }
  rewrite !Hget by done.
  destruct (property_finder_search _ _ _ _) as [properties|e]; [|done].
  destruct (negb (bool_decide (properties = []))); [|done].
  destruct (save_rows_do_not_depend_on_the_key lr _ _ properties (count_call w)
              Hkey Hkey') as (Hres & Hprops & Hlinks & Hcalls).
  destruct (save_query_and_properties lr (cache_key filters page limit) _ _)
    as [[u|e] w1];
    destruct (save_query_and_properties lr (cache_key filters page' limit') _ _)
    as [[u'|e'] w1']; cbn [fst snd] in *; try done.
  injection Hres as ->. by split_and!.
Qed.

(** X28. With Property Finder as the listing source, the page and the
    limit of a search make no difference on a miss: two searches for the
    same filters whose keys are both absent from the cache return the same
    listings (all that pass the price bounds, not a page of them), store
    the same property rows and the same links, and cost one call each.
    Only the key under which the rows are cached differs. *)
Theorem a_miss_is_the_same_for_every_page lr ro
    (find_location : pyval -> result pyval)
    (build_id_of : pydict -> result pyval)
    (listings_of : pyval -> pydict -> result (list pydict))
    (filters : pydict) (page limit page' limit' : Z) (w : world) :
  NoDup filters.*1 ->
  cache_key filters page limit ∉ (cached_queries (working w)).*2 ->
  cache_key filters page' limit' ∉ (cached_queries (working w)).*2 ->
  let pf := property_finder_search find_location build_id_of listings_of in
  let r := search_properties lr ro pf filters page limit w in
  let r' := search_properties lr ro pf filters page' limit' w in
  r.1 = r'.1 /\
  cached_properties (working r.2) = cached_properties (working r'.2) /\
  query_property_map (working r.2) = query_property_map (working r'.2) /\
  upstream_calls r.2 = upstream_calls r'.2.
Proof.
  intros Hnd Hkey Hkey'. cbv zeta.
  rewrite !search_miss.
  - by apply fetch_live_for_every_page.
  - intros id Hid%select_query_id_Some. exfalso. apply Hkey'.
    by apply (list_elem_of_fmap_2 snd) in Hid.
  - intros id Hid%select_query_id_Some. exfalso. apply Hkey.
    by apply (list_elem_of_fmap_2 snd) in Hid.
Qed.

Lemma a_miss_is_the_same_for_every_page_witness :
  (search_properties no_repr by_property_id
     (property_finder_search one_location a_build_id two_pages) scenario_A 1 50
     (fresh_world empty_tables)).1
  = (search_properties no_repr by_property_id
       (property_finder_search one_location a_build_id two_pages) scenario_A 3 2
       (fresh_world empty_tables)).1.
Proof.
  apply (a_miss_is_the_same_for_every_page no_repr by_property_id one_location
           a_build_id two_pages scenario_A 1 50 3 2 (fresh_world empty_tables)).
  - apply (bool_decide_unpack _). vm_compute. exact I.
  - apply not_elem_of_nil.
  - apply not_elem_of_nil.
Defined.

(** The villas of the two pages, fetched once each: the second page's
    copy of [villa_b] is dropped, and the listing over the bound is
    filtered out of the answer, though not out of the store. *)
Example search_through_property_finder :
  (search_properties no_repr by_property_id
     (property_finder_search one_location a_build_id two_pages) scenario_A 1 50
     (fresh_world empty_tables)).1
  = Ok [villa_a; villa_c].
Proof. vm_compute. reflexivity. Qed.

(** ** The cache key: what it tells apart *)

Section merge_sort_related.

Context {A : Type} (R : relation A) `{!RelDecision R} (S : relation A).
Hypothesis R_respects :
  forall a a' b b', S a a' -> S b b' -> (R a b <-> R a' b').

Lemma list_merge_related (l1 l1' l2 l2' : list A) :
  Forall2 S l1 l1' -> Forall2 S l2 l2' ->
  Forall2 S (list_merge R l1 l2) (list_merge R l1' l2').
Proof.
  intros H1. revert l2 l2'.
  induction H1 as [|a a' l1 l1' Ha H1 IH1]; intros l2 l2' H2.
  - destruct H2; cbn; [constructor | by constructor].
  - induction H2 as [|b b' l2 l2' Hb H2 IH2]; [cbn; by constructor|].
    cbn [list_merge].
    destruct (decide (R a b)) as [Hab|Hab], (decide (R a' b')) as [Hab'|Hab'].
    + constructor; [done|]. apply IH1. by constructor.
    + exfalso. by apply Hab', (R_respects a a' b b').
    + exfalso. by apply Hab, (R_respects a a' b b').
    + constructor; [done|]. apply IH2.
Qed.

Lemma merge_list_to_stack_related (st st' : list (option (list A))) (l l' : list A) :
  Forall2 (option_Forall2 (Forall2 S)) st st' -> Forall2 S l l' ->
  Forall2 (option_Forall2 (Forall2 S))
    (merge_list_to_stack R st l) (merge_list_to_stack R st' l').
Proof.
  intros Hst. revert l l'.
  induction Hst as [|o o' st st' Ho Hst IH]; intros l l' Hl; cbn.
  - by repeat constructor.
  - destruct Ho as [m m' Hm|].
    + constructor; [constructor|]. apply IH. by apply list_merge_related.
    + by repeat constructor.
Qed.

Lemma merge_stack_related (st st' : list (option (list A))) :
  Forall2 (option_Forall2 (Forall2 S)) st st' ->
  Forall2 S (merge_stack R st) (merge_stack R st').
Proof.
  induction 1 as [|o o' st st' Ho Hst IH]; cbn; [constructor|].
  destruct Ho as [m m' Hm|]; [by apply list_merge_related | done].
Qed.

Lemma merge_sort_aux_related (st st' : list (option (list A))) (l l' : list A) :
  Forall2 (option_Forall2 (Forall2 S)) st st' -> Forall2 S l l' ->
  Forall2 S (merge_sort_aux R st l) (merge_sort_aux R st' l').
Proof.
  intros Hst Hl. revert st st' Hst.
  induction Hl as [|a a' l l' Ha Hl IH]; intros st st' Hst; cbn.
  - by apply merge_stack_related.
  - apply IH. apply merge_list_to_stack_related; [done|]. by repeat constructor.
Qed.

Lemma merge_sort_related (l l' : list A) :
  Forall2 S l l' -> Forall2 S (merge_sort R l) (merge_sort R l').
Proof. intros Hl. apply merge_sort_aux_related; [constructor | done]. Qed.

End merge_sort_related.

Lemma urlencode_item_texts (k : string) (v : pyval) :
  urlencode_item (k, v)
  = (fun t => quote_plus k +:+ "=" +:+ quote_plus t) <$> texts_of v.
Proof.
  unfold urlencode_item, texts_of. destruct v as [x|l]; cbn [fst snd]; [done|].
  by rewrite <- list_fmap_compose.
Qed.

Lemma dict_set_same_encoding k v (d d' : pydict) :
  Forall2 (fun a b : string * pyval =>
             a.1 = b.1 /\ urlencode_item a = urlencode_item b) d d' ->
  Forall2 (fun a b : string * pyval =>
             a.1 = b.1 /\ urlencode_item a = urlencode_item b)
    (dict_set k v d) (dict_set k v d').
Proof.
  induction 1 as [|[k1 v1] [k2 v2] d d' [Hk Hv] Hrest IH]; simpl in *.
  - by repeat constructor.
  - subst k2. destruct (decide (k = k1)); constructor; done.
Qed.

Lemma same_encoding_urlencode (d d' : pydict) :
  Forall2 (fun a b : string * pyval =>
             a.1 = b.1 /\ urlencode_item a = urlencode_item b) d d' ->
  urlencode d = urlencode d'.
Proof.
  intros H. unfold urlencode. f_equal. f_equal.
  induction H as [|a b d d' [_ Hab] _ IH]; [done|].
  rewrite !fmap_cons. by f_equal.
Qed.

Lemma sorted_same_encoding (d d' : pydict) :
  Forall2 (fun a b : string * pyval =>
             a.1 = b.1 /\ urlencode_item a = urlencode_item b) d d' ->
  Forall2 (fun a b : string * pyval =>
             a.1 = b.1 /\ urlencode_item a = urlencode_item b)
    (sorted d) (sorted d').
Proof.
  apply merge_sort_related. intros a a' b b' [Ha _] [Hb _].
  unfold item_le. by rewrite Ha, Hb.
Qed.

Lemma same_encoding_refl (d : pydict) :
  Forall2 (fun a b : string * pyval =>
             a.1 = b.1 /\ urlencode_item a = urlencode_item b) d d.
Proof. induction d; constructor; done. Qed.

Lemma clean_filters_cons (a : string * pyval) (d : pydict) :
  clean_filters (a :: d)
  = if is_kept a.2 then a :: clean_filters d else clean_filters d.
Proof. reflexivity. Qed.

(** X29. The cache key reads every value as text: it does not tell a
    number from its decimal text, nor a scalar from the one-element list
    that holds it. Two filter dicts that differ in one such value (beds 5,
    "5" or ["5"]) have the same key, so searches that reach the engine
    through different routes share their cache entries. *)
Theorem cache_key_reads_values_as_text (before after : pydict) (k : string)
    (v v' : pyval) (page limit : Z) :
  is_kept v = true -> is_kept v' = true ->
  texts_of v = texts_of v' ->
  cache_key (before ++ (k, v) :: after) page limit
  = cache_key (before ++ (k, v') :: after) page limit.
Proof.
  intros Hv Hv' Htexts. unfold cache_key.
  apply same_encoding_urlencode, sorted_same_encoding.
  unfold with_pagination. do 2 apply dict_set_same_encoding.
  rewrite !clean_filters_app. apply Forall2_app; [apply same_encoding_refl|].
  rewrite !clean_filters_cons. cbn [snd]. rewrite Hv, Hv'.
  constructor; [|apply same_encoding_refl].
  split; [done|]. by rewrite !urlencode_item_texts, Htexts.
Qed.

Lemma cache_key_reads_values_as_text_witness :
  cache_key [("query", Sc (SStr "Victory Heights")); ("beds", Sc (SInt 5))] 1 50
  = cache_key [("query", Sc (SStr "Victory Heights")); ("beds", Li [SStr "5"])] 1 50.
Proof.
  apply (cache_key_reads_values_as_text [("query", Sc (SStr "Victory Heights"))] []
           "beds" (Sc (SInt 5)) (Li [SStr "5"]) 1 50); reflexivity.
Defined.

(** *** Keys for different pages *)

Lemma all_chars_app P (s t : string) :
  all_chars P (s +:+ t) = all_chars P s && all_chars P t.
Proof.
  induction s as [|c s IH]; [done|].
  change (String c s +:+ t) with (String c (s +:+ t)). cbn [all_chars].
  rewrite IH. by destruct (P c).
Qed.

Lemma no_ampersand_quote_char (c : ascii) : no_ampersand (quote_char c) = true.
Proof. destruct c as [[] [] [] [] [] [] [] []]; vm_compute; reflexivity. Qed.

Lemma no_ampersand_quote_plus (s : string) : no_ampersand (quote_plus s) = true.
Proof.
  unfold no_ampersand. induction s as [|c s IH]; [done|].
  cbn [quote_plus]. rewrite all_chars_app, IH.
  pose proof (no_ampersand_quote_char c) as Hc. unfold no_ampersand in Hc.
  by rewrite Hc.
Qed.

Lemma no_ampersand_segment (k t : string) :
  no_ampersand (quote_plus k +:+ "=" +:+ quote_plus t) = true.
Proof.
  pose proof (no_ampersand_quote_plus k) as Hk.
  pose proof (no_ampersand_quote_plus t) as Ht.
  unfold no_ampersand in *. rewrite !all_chars_app. by rewrite Hk, Ht.
Qed.

Lemma no_ampersand_urlencode_item (kv : string * pyval) :
  Forall (fun s => no_ampersand s = true) (urlencode_item kv).
Proof.
  destruct kv as [k v]. rewrite urlencode_item_texts.
  apply Forall_fmap, Forall_true. intros t. apply no_ampersand_segment.
Qed.

(** Two texts without [&], each followed by nothing or by [&] and more,
    are equal when the whole strings are. *)
Lemma segment_inj (s s' t t' : string) :
  no_ampersand s = true -> no_ampersand s' = true ->
  (t = "" \/ exists r, t = String "&" r) ->
  (t' = "" \/ exists r, t' = String "&" r) ->
  s +:+ t = s' +:+ t' -> s = s' /\ t = t'.
Proof.
  revert s'. induction s as [|c s IH]; intros [|c' s'] Hs Hs' Ht Ht' Heq.
  - done.
  - exfalso. cbn in Hs'. apply andb_true_iff in Hs' as [Hc' _].
    change ("" +:+ t) with t in Heq.
    change (String c' s' +:+ t') with (String c' (s' +:+ t')) in Heq.
    destruct Ht as [->|[r ->]]; [done|]. injection Heq as <- _. done.
  - exfalso. cbn in Hs. apply andb_true_iff in Hs as [Hc _].
    change ("" +:+ t') with t' in Heq.
    change (String c s +:+ t) with (String c (s +:+ t)) in Heq.
    destruct Ht' as [->|[r ->]]; [done|]. injection Heq as -> _. done.
  - change (String c s +:+ t) with (String c (s +:+ t)) in Heq.
    change (String c' s' +:+ t') with (String c' (s' +:+ t')) in Heq.
    injection Heq as -> Heq.
    cbn in Hs, Hs'. apply andb_true_iff in Hs as [_ Hs], Hs' as [_ Hs'].
    destruct (IH s' Hs Hs' Ht Ht' Heq) as [-> ->]. done.
Qed.

Lemma join_cons (sep s : string) (l : list string) :
  join sep (s :: l) = s +:+ (match l with [] => "" | _ => sep +:+ join sep l end).
Proof.
  destruct l; cbn [join]; [|done].
  induction s as [|c s IH]; [done|].
  change (String c s +:+ "") with (String c (s +:+ "")). by rewrite <- IH.
Qed.

Lemma join_ampersand_inj (l l' : list string) :
  Forall (fun s => no_ampersand s = true) l ->
  Forall (fun s => no_ampersand s = true) l' ->
  length l = length l' ->
  join "&" l = join "&" l' -> l = l'.
Proof.
  intros Hl. revert l'. induction Hl as [|s l Hs Hl IH]; intros [|s' l'] Hl' Hlen;
    try done.
  apply Forall_cons in Hl' as [Hs' Hl']. rewrite !join_cons. intros Heq.
  apply segment_inj in Heq as [-> Heq]; try done.
  - f_equal. apply IH; [done | by injection Hlen |].
    destruct l, l'; try done. by injection Heq.
  - destruct l; [by left | right; by eexists].
  - destruct l'; [by left | right; by eexists].
Qed.

Lemma quote_plus_unreserved (s : string) :
  all_chars is_unreserved s = true -> quote_plus s = s.
Proof.
  induction s as [|c s IH]; [done|]. cbn [all_chars quote_plus].
  intros [Hc Hs]%andb_true_iff. unfold quote_char. rewrite Hc, (IH Hs). done.
Qed.

Lemma is_digit_unreserved c : is_digit c = true -> is_unreserved c = true.
Proof. destruct c as [[] [] [] [] [] [] [] []]; vm_compute; congruence. Qed.

(** [str] of an integer is left alone by [quote_plus]. *)
Lemma quote_plus_pretty (z : Z) : quote_plus (pretty z) = pretty z.
Proof.
  apply quote_plus_unreserved. destruct z as [|p|p].
  - reflexivity.
  - apply (all_chars_impl is_digit); [apply is_digit_unreserved|].
    apply int_of_pretty_pos.
  - change (pretty (Z.neg p)) with (String "-" (pretty (N.pos p))).
    cbn [all_chars]. apply andb_true_iff. split; [reflexivity|].
    apply (all_chars_impl is_digit); [apply is_digit_unreserved|].
    apply int_of_pretty_pos.
Qed.

Lemma urlencode_item_int_inj (k : string) (z z' : Z) :
  urlencode_item (k, Sc (SInt z)) = urlencode_item (k, Sc (SInt z')) -> z = z'.
Proof.
  unfold urlencode_item. cbn [fst snd py_str_scalar]. rewrite !quote_plus_pretty.
  intros [= Heq]. apply (inj _) in Heq. apply (inj _) in Heq. by apply (inj pretty).
Qed.

Lemma elem_of_dict_set_eq k v (d : pydict) : (k, v) ∈ dict_set k v d.
Proof.
  induction d as [|[k' v'] d IH]; simpl; [by left|].
  destruct (decide (k = k')); [by left | by right].
Qed.

Lemma elem_of_dict_set_ne k v (a : string * pyval) (d : pydict) :
  a ∈ d -> a.1 <> k -> a ∈ dict_set k v d.
Proof.
  induction d as [|[k' v'] d IH]; intros Ha Hne; [by apply elem_of_nil in Ha|].
  simpl. apply elem_of_cons in Ha as [->|Ha].
  - simpl in Hne. rewrite decide_False by congruence. by left.
  - destruct (decide (k = k')); right; [done | by apply IH].
Qed.

Lemma sorted_agree_except keys (d d' : pydict) :
  agree_except keys d d' -> agree_except keys (sorted d) (sorted d').
Proof.
  apply merge_sort_related. intros a a' b b' [Ha _] [Hb _].
  unfold item_le. by rewrite Ha, Hb.
Qed.

Lemma items_of_related (L L' : pydict) :
  Forall2 (fun a b : string * pyval =>
             length (urlencode_item a) = length (urlencode_item b)) L L' ->
  concat (urlencode_item <$> L) = concat (urlencode_item <$> L') ->
  Forall2 (fun a b => urlencode_item a = urlencode_item b) L L'.
Proof.
  induction 1 as [|a b L L' Hlen _ IH]; [constructor|].
  rewrite !fmap_cons. cbn [concat]. intros Heq.
  apply app_inj_1 in Heq as [Hab Hrest]; [|done].
  constructor; [done | by apply IH].
Qed.

Lemma concat_lengths_related (L L' : pydict) :
  Forall2 (fun a b : string * pyval =>
             length (urlencode_item a) = length (urlencode_item b)) L L' ->
  length (concat (urlencode_item <$> L)) = length (concat (urlencode_item <$> L')).
Proof.
  induction 1 as [|a b L L' Hlen _ IH]; [done|].
  rewrite !fmap_cons. cbn [concat]. rewrite !length_app. lia.
Qed.

Lemma no_ampersand_urlencode (L : pydict) :
  Forall (fun s => no_ampersand s = true) (concat (urlencode_item <$> L)).
Proof.
  induction L as [|a L IH]; [constructor|].
  rewrite fmap_cons. cbn [concat]. apply Forall_app. split; [|done].
  apply no_ampersand_urlencode_item.
Qed.

Lemma cache_key_inj_page_limit (filters : pydict) (page limit page' limit' : Z) :
  NoDup filters.*1 ->
  cache_key filters page limit = cache_key filters page' limit' ->
  page = page' /\ limit = limit'.
Proof.
  intros Hnd. unfold cache_key.
  set (c := clean_filters filters).
  assert (NoDup c.*1) as Hc by (by apply clean_filters_keys_NoDup).
  set (d := with_pagination c page limit).
  set (d' := with_pagination c page' limit').
  assert (NoDup d.*1 /\ NoDup d'.*1) as [Hd Hd']
    by (split; by apply dict_set_keys_NoDup, dict_set_keys_NoDup).
  assert (("page", Sc (SInt page)) ∈ d /\ ("limit", Sc (SInt limit)) ∈ d /\
          ("page", Sc (SInt page')) ∈ d' /\ ("limit", Sc (SInt limit')) ∈ d')
    as (Hp & Hl & Hp' & Hl').
  { unfold d, d', with_pagination. split_and!;
      try apply elem_of_dict_set_eq;
      (apply elem_of_dict_set_ne; [apply elem_of_dict_set_eq | done]). }
  assert (agree_except ["page"; "limit"] (sorted d) (sorted d')) as Hagree.
  { apply sorted_agree_except. unfold d, d', with_pagination.
    apply agree_except_dict_set_listed; [by right; left|].
    apply agree_except_dict_set_listed; [by left|].
    apply agree_except_refl. }
  assert (forall a, a ∈ sorted d <-> a ∈ d) as Hin
    by (intros a; unfold sorted; by rewrite merge_sort_Permutation).
  assert (forall a, a ∈ sorted d' <-> a ∈ d') as Hin'
    by (intros a; unfold sorted; by rewrite merge_sort_Permutation).
  assert (forall i a b, sorted d !! i = Some a -> sorted d' !! i = Some b ->
            a = b \/
            (a = ("page", Sc (SInt page)) /\ b = ("page", Sc (SInt page'))) \/
            (a = ("limit", Sc (SInt limit)) /\ b = ("limit", Sc (SInt limit'))))
    as Hentries.
  { intros i a b Ha Hb.
    destruct (Forall2_lookup_lr _ _ _ _ _ _ Hagree Ha Hb) as [Hk Hv].
    destruct (decide (a.1 = "page")) as [Hpage|Hnpage].
    { right. left. split.
      - apply (same_key_same_item d); [done | | done | done].
        apply Hin. by eapply list_elem_of_lookup_2.
      - apply (same_key_same_item d'); [done | | done | by rewrite <- Hk].
        apply Hin'. by eapply list_elem_of_lookup_2. }
    destruct (decide (a.1 = "limit")) as [Hlimit|Hnlimit].
    { right. right. split.
      - apply (same_key_same_item d); [done | | done | done].
        apply Hin. by eapply list_elem_of_lookup_2.
      - apply (same_key_same_item d'); [done | | done | by rewrite <- Hk].
        apply Hin'. by eapply list_elem_of_lookup_2. }
    left. destruct a, b. simpl in *. f_equal; [done|]. apply Hv.
    rewrite !not_elem_of_cons. split_and!; [done | done | apply not_elem_of_nil]. }
  assert (Forall2 (fun a b : string * pyval =>
                     length (urlencode_item a) = length (urlencode_item b))
            (sorted d) (sorted d')) as Hlens.
  { apply Forall2_same_length_lookup_2; [by eapply Forall2_length|].
    intros i a b Ha Hb.
    destruct (Hentries i a b Ha Hb) as [->|[[-> ->]|[-> ->]]]; done. }
  intros Hkey. unfold urlencode in Hkey.
  apply join_ampersand_inj in Hkey;
    [| apply no_ampersand_urlencode | apply no_ampersand_urlencode
     | by apply concat_lengths_related].
  pose proof (items_of_related _ _ Hlens Hkey) as Hitems.
  assert (forall k z z', (k, Sc (SInt z)) ∈ d -> (k, Sc (SInt z')) ∈ d' ->
            (k = "page" \/ k = "limit") -> z = z') as Hsame.
  { intros k z z' Hz Hz' Hk.
    apply Hin, list_elem_of_lookup in Hz as [i Hi].
    destruct (Forall2_lookup_l _ _ _ _ _ Hagree Hi) as (b & Hb & Hkb & _).
    pose proof (Forall2_lookup_lr _ _ _ _ _ _ Hitems Hi Hb) as Hitem.
    assert (b = (k, Sc (SInt z'))) as ->.
    { apply (same_key_same_item d'); [done | | done | by rewrite <- Hkb].
      apply Hin'. by eapply list_elem_of_lookup_2. }
    by apply urlencode_item_int_inj in Hitem. }
  split; [by apply (Hsame "page"); auto | by apply (Hsame "limit"); auto].
Qed.

(** X30. Searches for the same filters with a different page or a
    different limit never share a cache entry: their keys differ. *)
Theorem different_pages_have_different_keys (filters : pydict)
    (page limit page' limit' : Z) :
  NoDup filters.*1 ->
  (page, limit) <> (page', limit') ->
  cache_key filters page limit <> cache_key filters page' limit'.
Proof.
  intros Hnd Hne Hkey. apply Hne.
  by destruct (cache_key_inj_page_limit _ _ _ _ _ Hnd Hkey) as [-> ->].
Qed.

Lemma different_pages_have_different_keys_witness :
  cache_key scenario_A 1 50 <> cache_key scenario_A 2 50.
Proof.
  apply (different_pages_have_different_keys scenario_A 1 50 2 50).
  - apply (bool_decide_unpack _). vm_compute. exact I.
  - discriminate.
Defined.
